(** * Script Timer: a shallow embedding of [script_timer.py] and
      [simple_script_timer.py], and the properties of their scheduling and
      process-tracking logic.

    Layout:
    - [Text]: the few string functions the two programs use;
    - [Host]: the operating system as the programs see it (clock, file
      system, process table), and the monad in which the Python code runs
      (state that survives an exception, an output trace, exceptions);
    - [Gui]: [class ScriptTimer] of script_timer.py (PyQt5);
    - [Console]: [class SimpleScriptTimer] of simple_script_timer.py, with
      its menu and main loop;
    - the vocabulary of the statements, and the theorems. *)

From Stdlib Require Import ZArith List String Ascii Bool Lia DecimalString.
Import ListNotations.
Local Open Scope string_scope.
Local Open Scope Z_scope.

(* ===================================================================== *)
(** ** Strings *)
(* ===================================================================== *)

Module Text.

(** Characters are code points below 256. *)
Definition code (c : ascii) : Z := Z.of_nat (nat_of_ascii c).

(** [str.isspace] on such a code point: TAB..CR, FS..US, SPACE, NEL, NBSP. *)
Definition isspace (c : ascii) : bool :=
  let n := code c in
  ((9 <=? n) && (n <=? 13)) || ((28 <=? n) && (n <=? 32))
  || (n =? 133) || (n =? 160).

(** [str.lower] on one code point: A..Z, and the Latin-1 capitals
    (192..222 but the multiplication sign 215). *)
Definition lower_char (c : ascii) : ascii :=
  let n := code c in
  if ((65 <=? n) && (n <=? 90))
     || ((192 <=? n) && (n <=? 222) && negb (n =? 215))
  then ascii_of_nat (Z.to_nat (n + 32)) else c.

Fixpoint lower (s : string) : string :=
  match s with
  | EmptyString => EmptyString
  | String c r => String (lower_char c) (lower r)
  end.

Fixpoint lstrip (s : string) : string :=
  match s with
  | EmptyString => EmptyString
  | String c r => if isspace c then lstrip r else s
  end.

Fixpoint rstrip (s : string) : string :=
  match s with
  | EmptyString => EmptyString
  | String c r =>
      match rstrip r with
      | EmptyString => if isspace c then EmptyString else String c EmptyString
      | r' => String c r'
      end
  end.

(** [str.strip()] *)
Definition strip (s : string) : string := rstrip (lstrip s).

Fixpoint has_sep (s : string) : bool :=
  match s with
  | EmptyString => false
  | String c r => Ascii.eqb c "/" || has_sep r
  end.

(** [os.path.basename] (posixpath): what follows the last slash. *)
Fixpoint basename (p : string) : string :=
  match p with
  | EmptyString => EmptyString
  | String c r =>
      if has_sep r then basename r
      else if Ascii.eqb c "/" then r else p
  end.

(** [str(n)] and [f"{n}"] for an int. *)
Definition of_int (n : Z) : string := NilZero.string_of_int (Z.to_int n).

(** Two digits, as [HH], [mm] and [ss] print. *)
Definition two_digits (n : Z) : string :=
  if n <? 10 then "0" ++ of_int n else of_int n.

(** Python truthiness of a str: [if s] / [if not s]. *)
Definition truthy (s : string) : bool :=
  match s with EmptyString => false | _ => true end.

Fixpoint mem (s : string) (l : list string) : bool :=
  match l with
  | [] => false
  | x :: r => String.eqb s x || mem s r
  end.

Fixpoint assoc (s : string) (l : list (string * string)) : option string :=
  match l with
  | [] => None
  | (k, v) :: r => if String.eqb s k then Some v else assoc s r
  end.

(** The white space [int] skips around a number: TAB..CR and SPACE, and
    beyond ASCII NEL and NBSP (FS..US, which [str.strip] drops, are not
    among them). *)
Definition int_space (c : ascii) : bool :=
  let n := code c in
  ((9 <=? n) && (n <=? 13)) || (n =? 32) || (n =? 133) || (n =? 160).

Fixpoint lstrip_by (f : ascii -> bool) (s : string) : string :=
  match s with
  | EmptyString => EmptyString
  | String c r => if f c then lstrip_by f r else s
  end.

Fixpoint rstrip_by (f : ascii -> bool) (s : string) : string :=
  match s with
  | EmptyString => EmptyString
  | String c r =>
      match rstrip_by f r with
      | EmptyString => if f c then EmptyString else String c EmptyString
      | r' => String c r'
      end
  end.

Definition digit (c : ascii) : option Z :=
  let n := code c in
  if (48 <=? n) && (n <=? 57) then Some (n - 48) else None.

(** The digits of a number, most significant first; one underscore may
    stand between two digits. [acc] is the value read so far, [count] the
    number of digits read, [after_digit] tells whether the last character
    read was a digit. *)
Fixpoint digits (acc : Z) (count : nat) (after_digit : bool) (s : string)
  : option (Z * nat) :=
  match s with
  | EmptyString => if after_digit then Some (acc, count) else None
  | String c r =>
      match digit c with
      | Some d => digits (acc * 10 + d) (S count) true r
      | None =>
          if Ascii.eqb c "_" && after_digit then digits acc count false r
          else None
      end
  end.

(** The most digits [int] takes from a string
    ([sys.int_info.default_max_str_digits]). *)
Definition max_str_digits : nat := 4300.

(** [int(s)] for a str: [None] stands for [ValueError]. *)
Definition int (s : string) : option Z :=
  let s := rstrip_by int_space (lstrip_by int_space s) in
  let signed :=
    match s with
    | String "+" r => (1, r)
    | String "-" r => (-1, r)
    | _ => (1, s)
    end in
  match digits 0 0 false (snd signed) with
  | Some (n, count) =>
      if Nat.leb count max_str_digits then Some (fst signed * n) else None
  | None => None
  end.

(** [s.split(sep)] for a separator of one character. *)
Fixpoint split (sep : ascii) (s : string) : list string :=
  match s with
  | EmptyString => [EmptyString]
  | String c r =>
      if Ascii.eqb c sep then EmptyString :: split sep r
      else match split sep r with
           | x :: l => String c x :: l
           | [] => [String c EmptyString]
           end
  end.

(** ["=" * 40] *)
Fixpoint times (n : nat) (s : string) : string :=
  match n with
  | O => EmptyString
  | S k => s ++ times k s
  end.

End Text.

(* ===================================================================== *)
(** ** The host: clock, files, processes; the monad of the Python code *)
(* ===================================================================== *)

Module Host.

(** A child process is known by its pid (one [Popen] object per pid). *)
Definition pid := nat.

(** What the programs can see of the operating system.
    - [clock]: microseconds since a local midnight;
    - [read_cost]: microseconds that pass at each reading of the clock by
      [datetime.now()] (0 for an ideal clock);
    - [files]: the paths for which [os.path.exists] answers True;
    - [spawn_errors]: the paths [Popen] cannot start, each with the text
      of the [OSError] it raises (missing file, permission denied, ...);
    - [next_pid]: the pid of the next child;
    - [started]: the children started, each with the clock value then;
    - [lifetimes]: how long a child runs when left alone (microseconds);
      a child not listed runs until it is signalled;
    - [exited]: the children ended from outside (a signal, the user);
    - [protected]: the children for which sending a signal raises;
    - [interrupts]: the clock values at which the user presses Ctrl-C
      while the program waits for a child, a thread or the clock, in order
      (a Ctrl-C at a prompt is part of the input, see [Console.ending]). *)
Record World := mkWorld {
  clock : Z;
  read_cost : Z;
  files : list string;
  spawn_errors : list (string * string);
  next_pid : pid;
  started : list (pid * Z);
  lifetimes : list (pid * Z);
  exited : list pid;
  protected : list pid;
  interrupts : list Z
}.

Definition with_clock (t : Z) (w : World) : World :=
  mkWorld t (read_cost w) (files w) (spawn_errors w) (next_pid w)
          (started w) (lifetimes w) (exited w) (protected w) (interrupts w).

Definition with_child (p : pid) (w : World) : World :=
  mkWorld (clock w) (read_cost w) (files w) (spawn_errors w) (Datatypes.S p)
          (started w ++ [(p, clock w)]) (lifetimes w) (exited w)
          (protected w) (interrupts w).

Definition with_exited (l : list pid) (w : World) : World :=
  mkWorld (clock w) (read_cost w) (files w) (spawn_errors w) (next_pid w)
          (started w) (lifetimes w) l (protected w) (interrupts w).

Definition with_interrupts (l : list Z) (w : World) : World :=
  mkWorld (clock w) (read_cost w) (files w) (spawn_errors w) (next_pid w)
          (started w) (lifetimes w) (exited w) (protected w) l.

Definition mem_pid (p : pid) (l : list pid) : bool := existsb (Nat.eqb p) l.

Fixpoint lookup (p : pid) (l : list (pid * Z)) : option Z :=
  match l with
  | [] => None
  | (q, t) :: r => if Nat.eqb p q then Some t else lookup p r
  end.

(** When child [p] ends if nobody touches it. *)
Definition natural_end (w : World) (p : pid) : option Z :=
  match lookup p (started w), lookup p (lifetimes w) with
  | Some t0, Some d => Some (t0 + d)
  | _, _ => None
  end.

(** Child [p] has ended: [p.poll()] is not None, [p.wait()] returns. *)
Definition ended (w : World) (p : pid) : bool :=
  mem_pid p (exited w)
  || match natural_end w p with
     | Some t => t <=? clock w
     | None => false
     end.

Inductive exn :=
| OSError (msg : string)
| TypeError (msg : string)
| ValueError (msg : string)
| EOFError (msg : string)
| KeyboardInterrupt.

(** [str(e)] *)
Definition str_exn (e : exn) : string :=
  match e with
  | OSError m | TypeError m | ValueError m | EOFError m => m
  | KeyboardInterrupt => ""
  end.

(** [isinstance(e, Exception)]: all but [KeyboardInterrupt]. *)
Definition is_Exception (e : exn) : bool :=
  match e with KeyboardInterrupt => false | _ => true end.

(** What an observer sees, in order. *)
Inductive event :=
| Launched (at_us : Z) (p : pid)          (* Popen started a child *)
| Terminated (at_us : Z) (p : pid)        (* SIGTERM reached a child *)
| MessageBox (title text : string)        (* QMessageBox.warning *)
| QtWarning (text : string)               (* qWarning on stderr *)
| Printed (line : string).                (* print *)

Definition is_launch (e : event) : bool :=
  match e with Launched _ _ => true | _ => false end.

Definition is_termination (e : event) : bool :=
  match e with Terminated _ _ => true | _ => false end.

Definition launches (tr : list event) : list event := filter is_launch tr.
Definition terminations (tr : list event) : list event :=
  filter is_termination tr.

Section Monad.

(** [S] is the state of the program object ([self]). *)
Context {S : Type}.

Record Machine := mkMachine {
  self : S;
  os : World;
  out : list event      (* oldest first *)
}.

(** A call returns, raises, or never returns; the state reached is kept in
    each case (Python does not undo the assignments made before a raise). *)
Inductive outcome (A : Type) :=
| Done (a : A) (m : Machine)
| Raised (e : exn) (m : Machine)
| Hangs (m : Machine).

Definition M (A : Type) := Machine -> outcome A.

Definition ret {A} (a : A) : M A := fun m => Done A a m.

Definition bind {A B} (c : M A) (k : A -> M B) : M B :=
  fun m =>
    match c m with
    | Done _ a m' => k a m'
    | Raised _ e m' => Raised B e m'
    | Hangs _ m' => Hangs B m'
    end.

Definition raise {A} (e : exn) : M A := fun m => Raised A e m.

Definition hang {A} : M A := fun m => Hangs A m.

(** [try: body / except Exception as e: handler e] *)
Definition try_except {A} (body : M A) (handler : exn -> M A) : M A :=
  fun m =>
    match body m with
    | Raised _ e m' => if is_Exception e then handler e m' else Raised A e m'
    | r => r
    end.

(** [try: body / except: handler], the bare clause, which takes all. *)
Definition try_bare {A} (body : M A) (handler : M A) : M A :=
  fun m =>
    match body m with
    | Raised _ e m' => handler m'
    | r => r
    end.

(** [try: body / except KeyboardInterrupt: handler] *)
Definition try_interrupt {A} (body : M A) (handler : M A) : M A :=
  fun m =>
    match body m with
    | Raised _ KeyboardInterrupt m' => handler m'
    | r => r
    end.

Definition get_self : M S := fun m => Done S (self m) m.

Definition modify_self (f : S -> S) : M unit :=
  fun m => Done unit tt (mkMachine (f (self m)) (os m) (out m)).

Definition get_os : M World := fun m => Done World (os m) m.

Definition modify_os (f : World -> World) : M unit :=
  fun m => Done unit tt (mkMachine (self m) (f (os m)) (out m)).

Definition emit (e : event) : M unit :=
  fun m => Done unit tt (mkMachine (self m) (os m) (out m ++ [e])).

End Monad.

Arguments Machine : clear implicits.
Arguments outcome : clear implicits.
Arguments M : clear implicits.
Arguments Done {S A}.
Arguments Raised {S A}.
Arguments Hangs {S A}.

Declare Scope py_scope.
Delimit Scope py_scope with py.
Notation "x <- c ;; k" := (bind c (fun x => k))
  (at level 61, c at next level, right associativity) : py_scope.
Notation "c ;; k" := (bind c (fun _ => k))
  (at level 61, right associativity) : py_scope.
Local Open Scope py_scope.

Section Calls.

Context {S : Type}.

(** [for x in l: body x] *)
Fixpoint for_each {A} (l : list A) (body : A -> M S unit) : M S unit :=
  match l with
  | [] => ret tt
  | x :: r => body x ;; for_each r body
  end.

(** [subprocess.Popen([path])]: raises [OSError] when the path cannot be
    started, else starts a child and returns its handle. *)
Definition Popen (path : string) : M S pid :=
  w <- get_os ;;
  match Text.assoc path (spawn_errors w) with
  | Some msg => raise (OSError msg)
  | None =>
      let p := next_pid w in
      modify_os (with_child p) ;;
      emit (Launched (clock w) p) ;;
      ret p
  end.

(** [process.poll() is not None] *)
Definition finished (p : pid) : M S bool :=
  w <- get_os ;; ret (ended w p).

(** [process.terminate()]: nothing for a child that has ended; may raise;
    else SIGTERM, which ends the child. *)
Definition terminate (p : pid) : M S unit :=
  w <- get_os ;;
  if ended w p then ret tt
  else if mem_pid p (protected w) then raise (OSError "Operation not permitted")
  else
    modify_os (with_exited (p :: exited w)) ;;
    emit (Terminated (clock w) p).

(** Time passes: for [d] microseconds, or until the clock shows [t]. *)
Definition sleep_us (d : Z) : M S unit :=
  modify_os (fun w => with_clock (clock w + d) w).

Definition sleep_until (t : Z) : M S unit :=
  modify_os (fun w => with_clock (Z.max (clock w) t) w).

End Calls.

End Host.

(* ===================================================================== *)
(** ** script_timer.py: [class ScriptTimer] *)
(* ===================================================================== *)

Module Gui.

Import Host.
Local Open Scope py_scope.

(** The methods that are connected to signals. *)
Inductive slot :=
| Slot_start_close_timer
| Slot_stop_close_timer
| Slot_start_repeat_timer
| Slot_stop_repeat_timer
| Slot_start_schedule_timer
| Slot_stop_schedule_timer
| Slot_run_scheduled_script
| Slot_check_processes
| Slot_stop_all.

(** [QTime]: a time of day, in milliseconds since its start. *)
Definition QTime := Z.

Definition msecs_per_day : Z := 86400000.

Definition QTime_hms (h m s : Z) : QTime := ((h * 60 + m) * 60 + s) * 1000.

(** [QTime.currentTime()] *)
Definition currentTime (w : World) : QTime := (clock w / 1000) mod msecs_per_day.

(** [a.msecsTo(b)]: from [a] to [b], negative when [b] is the earlier. *)
Definition msecsTo (a b : QTime) : Z := b - a.

Definition msecsSinceStartOfDay (a : QTime) : Z := a.

(** [t.toString()]: HH:mm:ss *)
Definition QTime_toString (t : QTime) : string :=
  Text.two_digits (t / 3600000) ++ ":" ++
  Text.two_digits ((t / 60000) mod 60) ++ ":" ++
  Text.two_digits ((t / 1000) mod 60).

(** A [QTimer] object: repeating (no [setSingleShot] is ever called), with
    the slots connected to its [timeout] signal. [due] is the clock value
    of its next timeout while it is active. *)
Record QTimer := mkQTimer {
  active : bool;
  interval : Z;            (* milliseconds *)
  due : Z;                 (* microseconds, on the host clock *)
  timeout : list slot
}.

(** [t.start(msec)] at clock value [now] *)
Definition QTimer_start (now msec : Z) (t : QTimer) : QTimer :=
  mkQTimer true msec (now + msec * 1000) (timeout t).

(** [t.stop()] *)
Definition QTimer_stop (t : QTimer) : QTimer :=
  mkQTimer false (interval t) (due t) (timeout t).

(** [t.timeout.connect(s)] *)
Definition QTimer_connect (s : slot) (t : QTimer) : QTimer :=
  mkQTimer (active t) (interval t) (due t) (timeout t ++ [s]).

(** After a timeout a repeating timer waits for its interval again. *)
Definition QTimer_rearm (t : QTimer) : QTimer :=
  mkQTimer (active t) (interval t) (due t + interval t * 1000) (timeout t).

Record QPushButton := mkQPushButton {
  text : string;
  clicked : list slot;
  enabled : bool
}.

Definition setText (s : string) (b : QPushButton) : QPushButton :=
  mkQPushButton s (clicked b) (enabled b).

Definition setEnabled (e : bool) (b : QPushButton) : QPushButton :=
  mkQPushButton (text b) (clicked b) e.

Definition connect (s : slot) (b : QPushButton) : QPushButton :=
  mkQPushButton (text b) (clicked b ++ [s]) (enabled b).

Definition disconnected (b : QPushButton) : QPushButton :=
  mkQPushButton (text b) [] (enabled b).

Record ScriptTimer := mkScriptTimer {
  script_path : string;
  timer : QTimer;
  schedule_timer : QTimer;
  single_shots : list (Z * slot);
  running_processes : list pid;
  script_label : string;
  close_time_spin : Z;
  close_button : QPushButton;
  repeat_time_spin : Z;
  repeat_button : QPushButton;
  time_edit : QTime;
  schedule_checkbox : bool;
  schedule_button : QPushButton;
  status_label : string;
  stop_button : QPushButton
}.

Definition set_script_path (v : string) (g : ScriptTimer) : ScriptTimer :=
  mkScriptTimer v (timer g) (schedule_timer g) (single_shots g)
    (running_processes g) (script_label g) (close_time_spin g)
    (close_button g) (repeat_time_spin g) (repeat_button g) (time_edit g)
    (schedule_checkbox g) (schedule_button g) (status_label g)
    (stop_button g).

Definition set_timer (v : QTimer) (g : ScriptTimer) : ScriptTimer :=
  mkScriptTimer (script_path g) v (schedule_timer g) (single_shots g)
    (running_processes g) (script_label g) (close_time_spin g)
    (close_button g) (repeat_time_spin g) (repeat_button g) (time_edit g)
    (schedule_checkbox g) (schedule_button g) (status_label g)
    (stop_button g).

Definition set_schedule_timer (v : QTimer) (g : ScriptTimer) : ScriptTimer :=
  mkScriptTimer (script_path g) (timer g) v (single_shots g)
    (running_processes g) (script_label g) (close_time_spin g)
    (close_button g) (repeat_time_spin g) (repeat_button g) (time_edit g)
    (schedule_checkbox g) (schedule_button g) (status_label g)
    (stop_button g).

Definition set_single_shots (v : list (Z * slot)) (g : ScriptTimer) : ScriptTimer :=
  mkScriptTimer (script_path g) (timer g) (schedule_timer g) v
    (running_processes g) (script_label g) (close_time_spin g)
    (close_button g) (repeat_time_spin g) (repeat_button g) (time_edit g)
    (schedule_checkbox g) (schedule_button g) (status_label g)
    (stop_button g).

Definition set_running_processes (v : list pid) (g : ScriptTimer) : ScriptTimer :=
  mkScriptTimer (script_path g) (timer g) (schedule_timer g) (single_shots
    g) v (script_label g) (close_time_spin g) (close_button g)
    (repeat_time_spin g) (repeat_button g) (time_edit g)
    (schedule_checkbox g) (schedule_button g) (status_label g)
    (stop_button g).

Definition set_script_label (v : string) (g : ScriptTimer) : ScriptTimer :=
  mkScriptTimer (script_path g) (timer g) (schedule_timer g) (single_shots
    g) (running_processes g) v (close_time_spin g) (close_button g)
    (repeat_time_spin g) (repeat_button g) (time_edit g)
    (schedule_checkbox g) (schedule_button g) (status_label g)
    (stop_button g).

Definition set_close_time_spin (v : Z) (g : ScriptTimer) : ScriptTimer :=
  mkScriptTimer (script_path g) (timer g) (schedule_timer g) (single_shots
    g) (running_processes g) (script_label g) v (close_button g)
    (repeat_time_spin g) (repeat_button g) (time_edit g)
    (schedule_checkbox g) (schedule_button g) (status_label g)
    (stop_button g).

Definition set_close_button (v : QPushButton) (g : ScriptTimer) : ScriptTimer :=
  mkScriptTimer (script_path g) (timer g) (schedule_timer g) (single_shots
    g) (running_processes g) (script_label g) (close_time_spin g) v
    (repeat_time_spin g) (repeat_button g) (time_edit g)
    (schedule_checkbox g) (schedule_button g) (status_label g)
    (stop_button g).

Definition set_repeat_time_spin (v : Z) (g : ScriptTimer) : ScriptTimer :=
  mkScriptTimer (script_path g) (timer g) (schedule_timer g) (single_shots
    g) (running_processes g) (script_label g) (close_time_spin g)
    (close_button g) v (repeat_button g) (time_edit g) (schedule_checkbox
    g) (schedule_button g) (status_label g) (stop_button g).

Definition set_repeat_button (v : QPushButton) (g : ScriptTimer) : ScriptTimer :=
  mkScriptTimer (script_path g) (timer g) (schedule_timer g) (single_shots
    g) (running_processes g) (script_label g) (close_time_spin g)
    (close_button g) (repeat_time_spin g) v (time_edit g)
    (schedule_checkbox g) (schedule_button g) (status_label g)
    (stop_button g).

Definition set_time_edit (v : QTime) (g : ScriptTimer) : ScriptTimer :=
  mkScriptTimer (script_path g) (timer g) (schedule_timer g) (single_shots
    g) (running_processes g) (script_label g) (close_time_spin g)
    (close_button g) (repeat_time_spin g) (repeat_button g) v
    (schedule_checkbox g) (schedule_button g) (status_label g)
    (stop_button g).

Definition set_schedule_checkbox (v : bool) (g : ScriptTimer) : ScriptTimer :=
  mkScriptTimer (script_path g) (timer g) (schedule_timer g) (single_shots
    g) (running_processes g) (script_label g) (close_time_spin g)
    (close_button g) (repeat_time_spin g) (repeat_button g) (time_edit g)
    v (schedule_button g) (status_label g) (stop_button g).

Definition set_schedule_button (v : QPushButton) (g : ScriptTimer) : ScriptTimer :=
  mkScriptTimer (script_path g) (timer g) (schedule_timer g) (single_shots
    g) (running_processes g) (script_label g) (close_time_spin g)
    (close_button g) (repeat_time_spin g) (repeat_button g) (time_edit g)
    (schedule_checkbox g) v (status_label g) (stop_button g).

Definition set_status_label (v : string) (g : ScriptTimer) : ScriptTimer :=
  mkScriptTimer (script_path g) (timer g) (schedule_timer g) (single_shots
    g) (running_processes g) (script_label g) (close_time_spin g)
    (close_button g) (repeat_time_spin g) (repeat_button g) (time_edit g)
    (schedule_checkbox g) (schedule_button g) v (stop_button g).

Definition set_stop_button (v : QPushButton) (g : ScriptTimer) : ScriptTimer :=
  mkScriptTimer (script_path g) (timer g) (schedule_timer g) (single_shots
    g) (running_processes g) (script_label g) (close_time_spin g)
    (close_button g) (repeat_time_spin g) (repeat_button g) (time_edit g)
    (schedule_checkbox g) (schedule_button g) (status_label g) v.

(** [ScriptTimer.__init__] and [init_ui], for a window made at [w]. *)
Definition init (w : World) : ScriptTimer := {|
  script_path := "";
  timer := mkQTimer false 0 0 [Slot_check_processes];
  schedule_timer := mkQTimer false 0 0 [];
  single_shots := [];
  running_processes := [];
  script_label := "No script selected";
  close_time_spin := 10;
  close_button := mkQPushButton "Start Close Timer" [Slot_start_close_timer] true;
  repeat_time_spin := 30;
  repeat_button := mkQPushButton "Start Repeat Timer" [Slot_start_repeat_timer] true;
  time_edit := currentTime w;
  schedule_checkbox := false;
  schedule_button :=
    mkQPushButton "Start Schedule Timer" [Slot_start_schedule_timer] true;
  status_label := "Ready";
  stop_button := mkQPushButton "Stop All" [Slot_stop_all] false
|}.

Definition G := M ScriptTimer.

(** The widgets the methods write to. *)
Inductive button_ref := Close | Repeat | Schedule | StopAll.

Definition button (r : button_ref) (g : ScriptTimer) : QPushButton :=
  match r with
  | Close => close_button g
  | Repeat => repeat_button g
  | Schedule => schedule_button g
  | StopAll => stop_button g
  end.

Definition set_button (r : button_ref) (b : QPushButton) (g : ScriptTimer)
  : ScriptTimer :=
  match r with
  | Close => set_close_button b g
  | Repeat => set_repeat_button b g
  | Schedule => set_schedule_button b g
  | StopAll => set_stop_button b g
  end.

Definition on_button (r : button_ref) (f : QPushButton -> QPushButton) : G unit :=
  modify_self (fun g => set_button r (f (button r g)) g).

(** [b.clicked.disconnect()]: PyQt raises [TypeError] when nothing is
    connected. *)
Definition disconnect (r : button_ref) : G unit :=
  g <- get_self ;;
  match clicked (button r g) with
  | [] => raise (TypeError
            "disconnect() failed between 'clicked' and all its connections")
  | _ => on_button r disconnected
  end.

Definition setStatus (s : string) : G unit := modify_self (set_status_label s).

(** [self.timer.start(msec)], [self.schedule_timer.start(msec)] *)
Definition timer_start (msec : Z) : G unit :=
  w <- get_os ;;
  modify_self (fun g => set_timer (QTimer_start (clock w) msec (timer g)) g).

Definition schedule_timer_start (msec : Z) : G unit :=
  w <- get_os ;;
  modify_self (fun g =>
    set_schedule_timer (QTimer_start (clock w) msec (schedule_timer g)) g).

Definition timer_stop : G unit :=
  modify_self (fun g => set_timer (QTimer_stop (timer g)) g).

Definition schedule_timer_stop : G unit :=
  modify_self (fun g => set_schedule_timer (QTimer_stop (schedule_timer g)) g).

(** [QTimer.singleShot(msec, slot)] is a static member of [QTimer]: called
    through [self.schedule_timer] it still makes a timer of its own, which
    no [QTimer] object of the window stands for. A negative [msec] is
    refused with a warning and nothing is armed. *)
Definition singleShot (msec : Z) (s : slot) : G unit :=
  if msec <? 0 then
    emit (QtWarning "QTimer::singleShot: Timers cannot have negative timeouts")
  else
    w <- get_os ;;
    modify_self (fun g =>
      set_single_shots (single_shots g ++ [(clock w + msec * 1000, s)]) g).

(** Lines 166-174; [file_name] is what the file dialog returned (empty
    when it was dismissed). *)
Definition select_script (file_name : string) : G unit :=
  if Text.truthy file_name then
    modify_self (set_script_path file_name) ;;
    modify_self (set_script_label
                   ("Selected script: " ++ Text.basename file_name)) ;;
    setStatus ("Script selected: " ++ Text.basename file_name)
  else ret tt.

(** Lines 274-282. *)
Definition run_script : G unit :=
  try_except
    (g <- get_self ;;
     process <- Popen (script_path g) ;;
     modify_self (fun g =>
       set_running_processes (running_processes g ++ [process]) g) ;;
     setStatus ("Script started: " ++ Text.basename (script_path g)))
    (fun e => setStatus ("Error running script: " ++ str_exn e)).

(** Lines 284-292. *)
Definition run_scheduled_script : G unit :=
  try_except
    (g <- get_self ;;
     process <- Popen (script_path g) ;;
     modify_self (fun g =>
       set_running_processes (running_processes g ++ [process]) g) ;;
     setStatus ("Script scheduled started: " ++ Text.basename (script_path g)))
    (fun e => setStatus ("Error running scheduled script: " ++ str_exn e)).

(** [l.remove(x)]: drops the first [x]; [ValueError] when there is none. *)
Fixpoint remove_first (p : pid) (l : list pid) : option (list pid) :=
  match l with
  | [] => None
  | q :: r =>
      if Nat.eqb p q then Some r
      else match remove_first p r with
           | Some r' => Some (q :: r')
           | None => None
           end
  end.

(** Lines 297-299, the body of the loop. *)
Definition check_process (process : pid) : G unit :=
  done <- finished process ;;
  if done then
    g <- get_self ;;
    match remove_first process (running_processes g) with
    | None => raise (ValueError "list.remove(x): x not in list")
    | Some l =>
        modify_self (set_running_processes l) ;;
        setStatus "Script completed execution"
    end
  else ret tt.

(** Lines 294-299; the loop runs over a copy of the list. *)
Definition check_processes : G unit :=
  g <- get_self ;;
  for_each (running_processes g) check_process.

(** Lines 176-194. *)
Definition start_close_timer : G unit :=
  g <- get_self ;;
  if negb (Text.truthy (script_path g)) then
    emit (MessageBox "No Script" "Please select a script first!")
  else
    let interval := close_time_spin g * 60000 in
    timer_start interval ;;
    on_button Close (setText "Stop Close Timer") ;;
    disconnect Close ;;
    on_button Close (connect Slot_stop_close_timer) ;;
    on_button StopAll (setEnabled true) ;;
    run_script ;;
    setStatus ("Running script for " ++ Text.of_int (close_time_spin g)
               ++ " minutes").

(** Lines 196-202. *)
Definition stop_close_timer : G unit :=
  timer_stop ;;
  on_button Close (setText "Start Close Timer") ;;
  disconnect Close ;;
  on_button Close (connect Slot_start_close_timer) ;;
  on_button StopAll (setEnabled false) ;;
  setStatus "Close timer stopped".

(** Lines 204-222. *)
Definition start_repeat_timer : G unit :=
  g <- get_self ;;
  if negb (Text.truthy (script_path g)) then
    emit (MessageBox "No Script" "Please select a script first!")
  else
    let interval := repeat_time_spin g * 60000 in
    timer_start interval ;;
    on_button Repeat (setText "Stop Repeat Timer") ;;
    disconnect Repeat ;;
    on_button Repeat (connect Slot_stop_repeat_timer) ;;
    on_button StopAll (setEnabled true) ;;
    run_script ;;
    setStatus ("Script will repeat every " ++ Text.of_int (repeat_time_spin g)
               ++ " minutes").

(** Lines 224-230. *)
Definition stop_repeat_timer : G unit :=
  timer_stop ;;
  on_button Repeat (setText "Start Repeat Timer") ;;
  disconnect Repeat ;;
  on_button Repeat (connect Slot_start_repeat_timer) ;;
  on_button StopAll (setEnabled false) ;;
  setStatus "Repeat timer stopped".

(** Lines 240-246: the delay of the scheduled launch, in milliseconds. *)
Definition time_diff (scheduled_time today : QTime) : Z :=
  if scheduled_time <=? today then
    let tomorrow := QTime_hms 0 0 0 in
    msecsTo today tomorrow + msecsSinceStartOfDay scheduled_time
  else
    msecsTo today scheduled_time.

(** Lines 232-264. *)
Definition start_schedule_timer : G unit :=
  g <- get_self ;;
  if negb (Text.truthy (script_path g)) then
    emit (MessageBox "No Script" "Please select a script first!")
  else
    let scheduled_time := time_edit g in
    w <- get_os ;;
    let today := currentTime w in
    singleShot (time_diff scheduled_time today) Slot_run_scheduled_script ;;
    on_button Schedule (setText "Stop Schedule Timer") ;;
    disconnect Schedule ;;
    on_button Schedule (connect Slot_stop_schedule_timer) ;;
    on_button StopAll (setEnabled true) ;;
    if schedule_checkbox g then
      modify_self (fun g =>
        set_schedule_timer
          (QTimer_connect Slot_run_scheduled_script (schedule_timer g)) g) ;;
      schedule_timer_start (24 * 60 * 60 * 1000) ;;
      setStatus ("Script scheduled to run daily at "
                 ++ QTime_toString scheduled_time)
    else
      setStatus ("Script scheduled to run once at "
                 ++ QTime_toString scheduled_time).

(** Lines 266-272. *)
Definition stop_schedule_timer : G unit :=
  schedule_timer_stop ;;
  on_button Schedule (setText "Start Schedule Timer") ;;
  disconnect Schedule ;;
  on_button Schedule (connect Slot_start_schedule_timer) ;;
  on_button StopAll (setEnabled false) ;;
  setStatus "Schedule timer stopped".

(** Lines 304-307, the body of the loop. *)
Definition stop_process (process : pid) : G unit :=
  try_bare (terminate process) (ret tt).

(** Lines 301-328. *)
Definition stop_all : G unit :=
  g <- get_self ;;
  for_each (running_processes g) stop_process ;;
  modify_self (set_running_processes []) ;;
  timer_stop ;;
  schedule_timer_stop ;;
  on_button Close (setText "Start Close Timer") ;;
  disconnect Close ;;
  on_button Close (connect Slot_start_close_timer) ;;
  on_button Repeat (setText "Start Repeat Timer") ;;
  disconnect Repeat ;;
  on_button Repeat (connect Slot_start_repeat_timer) ;;
  on_button Schedule (setText "Start Schedule Timer") ;;
  disconnect Schedule ;;
  on_button Schedule (connect Slot_start_schedule_timer) ;;
  on_button StopAll (setEnabled false) ;;
  setStatus "All timers stopped".

Definition run_slot (s : slot) : G unit :=
  match s with
  | Slot_start_close_timer => start_close_timer
  | Slot_stop_close_timer => stop_close_timer
  | Slot_start_repeat_timer => start_repeat_timer
  | Slot_stop_repeat_timer => stop_repeat_timer
  | Slot_start_schedule_timer => start_schedule_timer
  | Slot_stop_schedule_timer => stop_schedule_timer
  | Slot_run_scheduled_script => run_scheduled_script
  | Slot_check_processes => check_processes
  | Slot_stop_all => stop_all
  end.

(** A signal runs the slots connected when it is emitted, in order. *)
Definition emit_signal (slots : list slot) : G unit := for_each slots run_slot.

(** A click on a button; a disabled button emits nothing. *)
Definition click (r : button_ref) : G unit :=
  g <- get_self ;;
  if enabled (button r g) then emit_signal (clicked (button r g)) else ret tt.

(** *** The event loop *)

(** What can wake the event loop: one of the two [QTimer] objects, or the
    [i]-th pending single-shot timer. *)
Inductive source := TheTimer | ScheduleTimer | Shot (i : nat).

Fixpoint shots_from (i : nat) (l : list (Z * slot)) : list (Z * source) :=
  match l with
  | [] => []
  | (t, _) :: r => (t, Shot i) :: shots_from (Datatypes.S i) r
  end.

Definition pending (g : ScriptTimer) : list (Z * source) :=
  (if active (timer g) then [(due (timer g), TheTimer)] else [])
  ++ (if active (schedule_timer g)
      then [(due (schedule_timer g), ScheduleTimer)] else [])
  ++ shots_from 0 (single_shots g).

(** The earliest of the pending timeouts (the first listed, among equals). *)
Fixpoint earliest (l : list (Z * source)) : option (Z * source) :=
  match l with
  | [] => None
  | (t, s) :: r =>
      match earliest r with
      | Some (t', s') => if t' <? t then Some (t', s') else Some (t, s)
      | None => Some (t, s)
      end
  end.

Fixpoint drop_nth {A} (i : nat) (l : list A) : list A :=
  match i, l with
  | _, [] => []
  | O, _ :: r => r
  | Datatypes.S j, x :: r => x :: drop_nth j r
  end.

Definition fire (src : source) : G unit :=
  g <- get_self ;;
  match src with
  | TheTimer =>
      modify_self (set_timer (QTimer_rearm (timer g))) ;;
      emit_signal (timeout (timer g))
  | ScheduleTimer =>
      modify_self (set_schedule_timer (QTimer_rearm (schedule_timer g))) ;;
      emit_signal (timeout (schedule_timer g))
  | Shot i =>
      match nth_error (single_shots g) i with
      | Some (_, s) =>
          modify_self (set_single_shots (drop_nth i (single_shots g))) ;;
          run_slot s
      | None => ret tt
      end
  end.

(** The event loop sleeps until the next timeout and delivers it; with
    nothing armed it sleeps for ever and nothing changes. *)
Definition next_timeout : G unit :=
  g <- get_self ;;
  match earliest (pending g) with
  | None => ret tt
  | Some (t, src) =>
      sleep_until t ;;
      fire src
  end.

(** What happens to the window from outside. *)
Inductive input :=
| PickFile (file_name : string)        (* "Select Script", then the dialog *)
| Click (r : button_ref)
| SetCloseTime (minutes : Z)           (* the spin boxes, range 1..10000 *)
| SetRepeatTime (minutes : Z)
| SetTime (t : QTime)                  (* the time-of-day field *)
| SetDaily (b : bool)                  (* the "Repeat daily" box *)
| NextTimeout                          (* time passes to the next timeout *)
| Wait (us : Z)                        (* time passes *)
| ChildExits (p : pid).                (* a child ends by itself *)

Definition clamp (lo hi v : Z) : Z := Z.max lo (Z.min hi v).

Definition step (i : input) : G unit :=
  match i with
  | PickFile f => select_script f
  | Click r => click r
  | SetCloseTime v => modify_self (set_close_time_spin (clamp 1 10000 v))
  | SetRepeatTime v => modify_self (set_repeat_time_spin (clamp 1 10000 v))
  | SetTime t => modify_self (set_time_edit (t mod msecs_per_day))
  | SetDaily b => modify_self (set_schedule_checkbox b)
  | NextTimeout => next_timeout
  | Wait us => sleep_us (Z.max 0 us)
  | ChildExits p => modify_os (fun w => with_exited (p :: exited w) w)
  end.

Definition run (l : list input) : G unit := for_each l step.

(** The window, opened on host [w]. *)
Definition boot (w : World) : Machine ScriptTimer := mkMachine (init w) w [].

End Gui.

(* ===================================================================== *)
(** ** simple_script_timer.py: [class SimpleScriptTimer] *)
(* ===================================================================== *)

Module Console.

Import Host.
Local Open Scope py_scope.

Definition us_per_second : Z := 1000000.
Definition us_per_day : Z := 86400 * us_per_second.

Definition newline : string := String (ascii_of_nat 10) EmptyString.

(** What a [threading.Timer] calls when it fires: the two closures of the
    program, with the variables they capture. *)
Inductive callback :=
| stop_script (process : pid)                               (* lines 82-87 *)
| run_scheduled_script (hour minute : Z) (repeat_daily : bool). (* 172-183 *)

Inductive timer_state := Waiting | Fired | Cancelled.

(** A started [threading.Timer]. *)
Record Timer := mkTimer {
  fires_at : Z;              (* on the host clock *)
  function : callback;
  state : timer_state
}.

(** Where a [run_periodically] thread (lines 115-127) stands in its loop. *)
Inductive phase :=
| Launching                  (* about to call run_script *)
| WaitingFor (p : pid)       (* in process.wait() *)
| Sleeping (until : Z)       (* in time.sleep(minutes * 60) *)
| Finished.                  (* left the loop *)

Record Thread := mkThread {
  minutes_of : Z;
  at_phase : phase
}.

(** The attributes of the object (lines 29-31), and the [run_periodically]
    threads the interpreter is running for it. *)
Record SimpleScriptTimer := mkSimpleScriptTimer {
  script_path : string;
  running_processes : list pid;
  timers : list Timer;
  threads : list Thread
}.

Definition set_script_path (v : string) (c : SimpleScriptTimer) :=
  mkSimpleScriptTimer v (running_processes c) (timers c) (threads c).
Definition set_running_processes (v : list pid) (c : SimpleScriptTimer) :=
  mkSimpleScriptTimer (script_path c) v (timers c) (threads c).
Definition set_timers (v : list Timer) (c : SimpleScriptTimer) :=
  mkSimpleScriptTimer (script_path c) (running_processes c) v (threads c).
Definition set_threads (v : list Thread) (c : SimpleScriptTimer) :=
  mkSimpleScriptTimer (script_path c) (running_processes c) (timers c) v.

(** Lines 28-31. *)
Definition init : SimpleScriptTimer := mkSimpleScriptTimer "" [] [] [].

Definition C := M SimpleScriptTimer.

Definition print (line : string) : C unit := emit (Printed line).

(** [datetime.now()], in microseconds. *)
Definition datetime_now : C Z :=
  w <- get_os ;;
  modify_os (with_clock (clock w + read_cost w)) ;;
  ret (clock w).

(** [d.replace(hour=hour, minute=minute, second=0, microsecond=0)] *)
Definition replace_hm (d hour minute : Z) : Z :=
  d - d mod us_per_day + (hour * 3600 + minute * 60) * us_per_second.

(** [d.strftime('%Y-%m-%d %H:%M')]; the clock has no calendar, the date is
    shown as the number of the day. *)
Definition strftime (d : Z) : string :=
  "day " ++ Text.of_int (d / us_per_day) ++ " "
  ++ Text.two_digits ((d mod us_per_day) / (3600 * us_per_second)) ++ ":"
  ++ Text.two_digits (((d mod us_per_day) / (60 * us_per_second)) mod 60).

(** Lines 33-49; [line] is what the user typed at the prompt. *)
Definition select_script (line : string) : C bool :=
  print (newline ++ "Select a script or program to control:") ;;
  let script_path := Text.strip line in
  if String.eqb (Text.lower script_path) "cancel" then ret false
  else
    w <- get_os ;;
    if negb (Text.mem script_path (files w)) then
      print ("Error: File '" ++ script_path ++ "' not found!") ;;
      ret false
    else
      modify_self (set_script_path script_path) ;;
      print ("Selected script: " ++ Text.basename script_path) ;;
      ret true.

(** Lines 51-60. *)
Definition run_script : C (option pid) :=
  try_except
    (c <- get_self ;;
     process <- Popen (script_path c) ;;
     modify_self (fun c =>
       set_running_processes (running_processes c ++ [process]) c) ;;
     print ("Script started: " ++ Text.basename (script_path c)) ;;
     ret (Some process))
    (fun e =>
     print ("Error running script: " ++ str_exn e) ;;
     ret None).

(** [t = Timer(delay, f); t.start(); self.timers.append(t)], the delay in
    microseconds; a delay that is not positive fires at once. The result
    is the place of the timer in [self.timers]. *)
Definition start_timer (delay : Z) (f : callback) : C nat :=
  w <- get_os ;;
  c <- get_self ;;
  modify_self (set_timers
    (timers c ++ [mkTimer (clock w + Z.max 0 delay) f Waiting])) ;;
  ret (List.length (timers c)).

Fixpoint update_nth {A} (i : nat) (f : A -> A) (l : list A) : list A :=
  match i, l with
  | _, [] => []
  | O, x :: r => f x :: r
  | Datatypes.S j, x :: r => x :: update_nth j f r
  end.

(** [t.cancel()]: a timer still waiting will not fire. *)
Definition cancelled (t : Timer) : Timer :=
  match state t with
  | Waiting => mkTimer (fires_at t) (function t) Cancelled
  | _ => t
  end.

Definition cancel (i : nat) : C unit :=
  modify_self (fun c => set_timers (update_nth i cancelled (timers c)) c).

(** *** What runs beside the main thread *)

Inductive background := TimerThread (i : nat) | PeriodicThread (i : nat).

Definition earlier (a b : option (Z * background)) : option (Z * background) :=
  match a, b with
  | Some (t, x), Some (u, y) => if u <? t then Some (u, y) else Some (t, x)
  | Some r, None | None, Some r => Some r
  | None, None => None
  end.

Fixpoint next_timer (i : nat) (l : list Timer) : option (Z * background) :=
  match l with
  | [] => None
  | t :: r =>
      earlier (match state t with
               | Waiting => Some (fires_at t, TimerThread i)
               | _ => None
               end)
              (next_timer (Datatypes.S i) r)
  end.

(** When a [run_periodically] thread moves on. *)
Definition thread_moves (w : World) (t : Thread) : option Z :=
  match at_phase t with
  | Launching => Some (clock w)
  | WaitingFor p => if ended w p then Some (clock w) else natural_end w p
  | Sleeping until => Some until
  | Finished => None
  end.

Fixpoint next_thread (w : World) (i : nat) (l : list Thread)
  : option (Z * background) :=
  match l with
  | [] => None
  | t :: r =>
      earlier (match thread_moves w t with
               | Some u => Some (u, PeriodicThread i)
               | None => None
               end)
              (next_thread w (Datatypes.S i) r)
  end.

Definition next_background (w : World) (c : SimpleScriptTimer)
  : option (Z * background) :=
  earlier (next_timer 0 (timers c)) (next_thread w 0 (threads c)).

Definition set_phase (i : nat) (ph : phase) : C unit :=
  modify_self (fun c =>
    set_threads
      (update_nth i (fun t => mkThread (minutes_of t) ph) (threads c)) c).

(** Line 121 and the handler of lines 125-127: [time.sleep] refuses a
    negative length with a [ValueError], which ends the loop. (A length
    [time.sleep] cannot read, beyond [threading.TIMEOUT_MAX] seconds, is
    left out: the theorems on this function bound the minutes.) *)
Definition thread_sleeps (i : nat) (minutes : Z) : C unit :=
  if minutes * 60 <? 0 then
    print ("Error: " ++ "sleep length must be non-negative") ;;
    set_phase i Finished
  else
    w <- get_os ;;
    set_phase i (Sleeping (clock w + minutes * 60 * us_per_second)).

(** One move of the [i]-th [run_periodically] thread (lines 116-127). *)
Definition run_periodically (i : nat) : C unit :=
  c <- get_self ;;
  match nth_error (threads c) i with
  | None => ret tt
  | Some t =>
      match at_phase t with
      | Launching | Sleeping _ =>
          process <- run_script ;;
          match process with
          | Some p => set_phase i (WaitingFor p)
          | None => thread_sleeps i (minutes_of t)
          end
      | WaitingFor _ => thread_sleeps i (minutes_of t)
      | Finished => ret tt
      end
  end.

(** The body of a timer's callback. *)
Definition call (f : callback) : C unit :=
  match f with
  | stop_script process =>
      try_bare
        (terminate process ;;
         print "Script closed after specified time.")
        (ret tt)
  | run_scheduled_script hour minute repeat_daily =>
      run_script ;;
      if repeat_daily then
        n1 <- datetime_now ;;
        let next_run := replace_hm n1 hour minute + us_per_day in
        n2 <- datetime_now ;;
        let delay := next_run - n2 in
        start_timer delay (run_scheduled_script hour minute repeat_daily) ;;
        ret tt
      else ret tt
  end.

Definition run_background (b : background) : C unit :=
  match b with
  | TimerThread i =>
      c <- get_self ;;
      match nth_error (timers c) i with
      | Some t =>
          modify_self (set_timers
            (update_nth i (fun t => mkTimer (fires_at t) (function t) Fired)
                        (timers c))) ;;
          call (function t)
      | None => ret tt
      end
  | PeriodicThread i => run_periodically i
  end.

(** [Popen._sigint_wait_secs]: after a Ctrl-C, [process.wait()] goes on
    waiting for the child for a quarter of a second before it lets the
    [KeyboardInterrupt] through (subprocess.py, [Popen.wait], CPython 3.7
    and later). *)
Definition sigint_wait : Z := 250000.

(** What the main thread is blocked on. *)
Inductive wake :=
| UntilEnded (p : pid)             (* process.wait() *)
| UntilEndedBy (p : pid) (t : Z)   (* the same after a Ctrl-C: until the
                                      child has ended or the clock shows t *)
| UntilJoined (i : nat)            (* thread.join() *)
| Forever.                         (* while True: time.sleep(1) *)

Definition satisfied (w : World) (c : SimpleScriptTimer) (k : wake) : bool :=
  match k with
  | UntilEnded p => ended w p
  | UntilEndedBy p t => ended w p || (t <=? clock w)
  | UntilJoined i =>
      match nth_error (threads c) i with
      | Some (mkThread _ Finished) | None => true
      | _ => false
      end
  | Forever => false
  end.

Definition own_wake (w : World) (k : wake) : option Z :=
  match k with
  | UntilEnded p => natural_end w p
  | UntilEndedBy p t =>
      match natural_end w p with
      | Some u => Some (Z.min u t)
      | None => Some t
      end
  | _ => None
  end.

Inductive next_event :=
| WakeSelf (t : Z)
| WakeInterrupt (t : Z)
| WakeBackground (t : Z) (b : background)
| WakeNever.

(** The earliest of: what the main thread waits for, the next Ctrl-C, the
    next move of another thread; in this order among equals. *)
Definition pick (self_at : option Z) (interrupt_at : option Z)
                (bg : option (Z * background)) : next_event :=
  let first :=
    match self_at, interrupt_at with
    | Some t, Some u => if u <? t then WakeInterrupt u else WakeSelf t
    | Some t, None => WakeSelf t
    | None, Some u => WakeInterrupt u
    | None, None => WakeNever
    end in
  match first, bg with
  | WakeSelf t, Some (u, b) => if u <? t then WakeBackground u b else first
  | WakeInterrupt t, Some (u, b) => if u <? t then WakeBackground u b else first
  | WakeNever, Some (u, b) => WakeBackground u b
  | _, _ => first
  end.

(** The main thread blocks; the other threads run meanwhile. A Ctrl-C
    ends [thread.join()] and [time.sleep] at once; [process.wait()] waits
    for the child for [sigint_wait] more, the other threads still running,
    and raises then. [fuel] bounds the moves of the other threads that are
    followed; a call still blocked when it is used up is shown as not
    returning. *)
Fixpoint block (fuel : nat) (k : wake) : C unit :=
  match fuel with
  | O => hang
  | Datatypes.S fuel' =>
      w <- get_os ;;
      c <- get_self ;;
      if satisfied w c k then ret tt
      else
        match pick (own_wake w k) (hd_error (interrupts w))
                   (next_background w c) with
        | WakeSelf t => sleep_until t
        | WakeInterrupt t =>
            sleep_until t ;;
            modify_os (fun w => with_interrupts (tl (interrupts w)) w) ;;
            match k with
            | UntilEnded p =>
                w' <- get_os ;;
                block fuel' (UntilEndedBy p (clock w' + sigint_wait))
            | _ => ret tt
            end ;;
            raise KeyboardInterrupt
        | WakeBackground t b =>
            sleep_until t ;;
            run_background b ;;
            block fuel' k
        | WakeNever => hang
        end
  end.

(** *** The three functions of the menu *)

(** Lines 62-99; [typed] is what [int(input(...))] made of the line typed,
    [None] when it raised [ValueError]. *)
Definition close_after_time (fuel : nat) (typed : option Z) : C unit :=
  c <- get_self ;;
  if negb (Text.truthy (script_path c)) then print "No script selected!"
  else
    match typed with
    | None => print "Invalid input! Please enter a number."
    | Some minutes =>
        print ("Running script for " ++ Text.of_int minutes ++ " minutes...") ;;
        started <- run_script ;;
        match started with
        | None => ret tt
        | Some process =>
            timer <- start_timer (minutes * 60 * us_per_second)
                                 (stop_script process) ;;
            try_bare (block fuel (UntilEnded process)) (ret tt) ;;
            cancel timer
        end
    end.

(** Lines 101-136. *)
Definition repeat_every_time (fuel : nat) (typed : option Z) : C unit :=
  c <- get_self ;;
  if negb (Text.truthy (script_path c)) then print "No script selected!"
  else
    match typed with
    | None => print "Invalid input! Please enter a number."
    | Some minutes =>
        print ("Running script every " ++ Text.of_int minutes
               ++ " minutes (Ctrl+C to stop)...") ;;
        modify_self (fun c =>
          set_threads (threads c ++ [mkThread minutes Launching]) c) ;;
        try_interrupt
          (block fuel (UntilJoined (List.length (threads c))))
          (print (newline ++ "Periodic execution stopped."))
    end.

(** Lines 159-164: the moment of the first run, from the two readings of
    the clock. *)
Definition target_time (now1 now2 hour minute : Z) : Z :=
  let target := replace_hm now1 hour minute in
  if target <=? now2 then target + us_per_day else target.

(** Lines 138-199; [typed] is the pair [int(time_parts[0])],
    [int(time_parts[1])], [None] when the line typed made one of them raise
    [ValueError] or [IndexError]; [answer] is the line typed at the second
    prompt. *)
Definition start_at_time (fuel : nat) (typed : option (Z * Z))
                         (answer : string) : C unit :=
  c <- get_self ;;
  if negb (Text.truthy (script_path c)) then print "No script selected!"
  else
    let invalid :=
      print "Invalid time format! Use HH:MM format (e.g., 14:30)" in
    match typed with
    | None => invalid
    | Some (hour, minute) =>
        if negb ((0 <=? hour) && (hour <=? 23))
           || negb ((0 <=? minute) && (minute <=? 59))
        then invalid
        else
          let repeat_daily :=
            String.eqb (Text.lower (Text.strip answer)) "y" in
          now1 <- datetime_now ;;
          now2 <- datetime_now ;;
          let target := target_time now1 now2 hour minute in
          now3 <- datetime_now ;;
          let delay := target - now3 in
          print ("Scheduled to run script at " ++ strftime target) ;;
          (if repeat_daily then print "Will repeat daily" else ret tt) ;;
          start_timer delay (run_scheduled_script hour minute repeat_daily) ;;
          print "Timer set. Press Ctrl+C to exit." ;;
          try_interrupt
            (block fuel Forever)
            (print (newline ++ "Exiting...") ;;
             c' <- get_self ;;
             for_each (seq 0 (List.length (timers c'))) cancel)
    end.

(** The program, started on host [w]. *)
Definition boot (w : World) : Machine SimpleScriptTimer :=
  mkMachine init w [].

(** *** The menu *)

(** The lines typed at the prompts, in order; [input()] takes the first.
    The prompts themselves are not part of the trace. *)
Definition lines := list string.

(** What [input()] meets when the lines typed are used up. *)
Inductive ending :=
| StaysOpen      (* nothing more is typed: the call does not return *)
| EndOfFile      (* the input has ended: EOFError *)
| CtrlC.         (* Ctrl-C at the prompt: KeyboardInterrupt *)

Definition no_line {A} (e : ending) : C A :=
  match e with
  | StaysOpen => hang
  | EndOfFile => raise (EOFError "EOF when reading a line")
  | CtrlC => raise KeyboardInterrupt
  end.

(** Lines 144-151: what the line typed for the time yields, [None] when
    [int] or the indexing raises. *)
Definition time_parts (line : string) : option (Z * Z) :=
  match Text.split ":" (Text.strip line) with
  | h :: m :: _ =>
      match Text.int h, Text.int m with
      | Some hour, Some minute => Some (hour, minute)
      | _, _ => None
      end
  | _ => None
  end.

(** Line 150, the test that lets a time pass. *)
Definition in_range (typed : option (Z * Z)) : bool :=
  match typed with
  | Some (hour, minute) =>
      negb (negb ((0 <=? hour) && (hour <=? 23))
            || negb ((0 <=? minute) && (minute <=? 59)))
  | None => false
  end.

(** [select_script], [close_after_time], [repeat_every_time] and
    [start_at_time] reading their lines from [stdin], which ends as [e]
    says; each gives back what is left of it. A function that returns
    before its prompt reads nothing. None of the four catches what
    [input()] raises: the handlers around the prompts of lines 69, 108 and
    145 take [ValueError] (and [IndexError]) only. *)
Definition select_script_on (e : ending) (stdin : lines) : C (bool * lines) :=
  match stdin with
  | [] =>
      print (newline ++ "Select a script or program to control:") ;;
      no_line e
  | line :: rest => ok <- select_script line ;; ret (ok, rest)
  end.

Definition close_after_time_on (e : ending) (fuel : nat) (stdin : lines)
  : C lines :=
  c <- get_self ;;
  if negb (Text.truthy (script_path c)) then
    close_after_time fuel None ;; ret stdin
  else
    match stdin with
    | [] => no_line e
    | line :: rest => close_after_time fuel (Text.int line) ;; ret rest
    end.

Definition repeat_every_time_on (e : ending) (fuel : nat) (stdin : lines)
  : C lines :=
  c <- get_self ;;
  if negb (Text.truthy (script_path c)) then
    repeat_every_time fuel None ;; ret stdin
  else
    match stdin with
    | [] => no_line e
    | line :: rest => repeat_every_time fuel (Text.int line) ;; ret rest
    end.

Definition start_at_time_on (e : ending) (fuel : nat) (stdin : lines)
  : C lines :=
  c <- get_self ;;
  if negb (Text.truthy (script_path c)) then
    start_at_time fuel None "" ;; ret stdin
  else
    match stdin with
    | [] => no_line e
    | line :: rest =>
        let typed := time_parts line in
        if in_range typed then
          match rest with
          | [] => no_line e
          | answer :: rest' => start_at_time fuel typed answer ;; ret rest'
          end
        else start_at_time fuel typed "" ;; ret rest
    end.

(** Lines 201-211. *)
Definition show_menu : C unit :=
  print (newline ++ Text.times 40 "=") ;;
  print "SCRIPT TIMER MENU" ;;
  print (Text.times 40 "=") ;;
  print "1. Close script after x minutes" ;;
  print "2. Run script every x minutes" ;;
  print "3. Start script at specific time" ;;
  print "4. Select script" ;;
  print "5. Exit" ;;
  print (Text.times 40 "=").

(** Lines 218-236, the loop; [turns] bounds its turns. *)
Fixpoint menu (e : ending) (turns : nat) (fuel : nat) (stdin : lines)
  : C unit :=
  match turns with
  | O => hang
  | S turns' =>
      show_menu ;;
      match stdin with
      | [] => no_line e
      | line :: rest =>
          let choice := Text.strip line in
          if String.eqb choice "1" then
            rest' <- close_after_time_on e fuel rest ;;
            menu e turns' fuel rest'
          else if String.eqb choice "2" then
            rest' <- repeat_every_time_on e fuel rest ;;
            menu e turns' fuel rest'
          else if String.eqb choice "3" then
            rest' <- start_at_time_on e fuel rest ;;
            menu e turns' fuel rest'
          else if String.eqb choice "4" then
            r <- select_script_on e rest ;;
            if negb (fst r) then ret tt else menu e turns' fuel (snd r)
          else if String.eqb choice "5" then
            print "Goodbye!"
          else
            print "Invalid option. Please try again." ;;
            menu e turns' fuel rest
      end
  end.

(** Lines 213-236, with the lines [stdin] typed and the input ending as
    [e] says; every turn of the loop takes a line, so there are no more
    turns than lines, and one. *)
Definition run (e : ending) (fuel : nat) (stdin : lines) : C unit :=
  print "Simple Script Timer" ;;
  print "This version doesn't require PyQt5" ;;
  menu e (S (List.length stdin)) fuel stdin.

(** Lines 239-241, on host [w], at a terminal: the user types the lines
    [stdin] and then nothing more. *)
Definition main (fuel : nat) (stdin : lines) (w : World)
  : outcome SimpleScriptTimer unit :=
  run StaysOpen fuel stdin (boot w).

End Console.

(* ===================================================================== *)
(** ** Hosts and sessions used in the examples *)
(* ===================================================================== *)

Module Scenario.

Import Host.

(** Nine in the morning; [/bin/sleep] is there and starts, [/locked] is
    there but refuses to start, a file called [cancel] lies in the working
    directory; the first child gets pid 100 and children run until they
    are signalled; the clock is ideal and nobody presses Ctrl-C. *)
Definition nine_am : World := {|
  clock := 9 * 3600 * 1000000;
  read_cost := 0;
  files := ["/bin/sleep"; "/locked"; "cancel"];
  spawn_errors := [("/locked", "[Errno 13] Permission denied: '/locked'")];
  next_pid := 100%nat;
  started := [];
  lifetimes := [];
  exited := [];
  protected := [];
  interrupts := []
|}.

(** The same host, where child 101 cannot be signalled. *)
Definition nine_am_guarded : World := {|
  clock := 9 * 3600 * 1000000;
  read_cost := 0;
  files := ["/bin/sleep"; "/locked"; "cancel"];
  spawn_errors := [("/locked", "[Errno 13] Permission denied: '/locked'")];
  next_pid := 100%nat;
  started := [];
  lifetimes := [];
  exited := [];
  protected := [101%nat];
  interrupts := []
|}.

Definition minute : Z := 60 * 1000000.
Definition hour : Z := 60 * minute.

End Scenario.

(* ===================================================================== *)
(** ** The vocabulary of the statements *)
(* ===================================================================== *)

Import Host Scenario.
Local Open Scope py_scope.

(** The machine a call leaves behind, however it ends. *)
Definition final {S A} (r : outcome S A) : Machine S :=
  match r with Done _ m | Raised _ m | Hangs m => m end.

(** A machine with one more event in its trace, all else equal. *)
Definition logged {S} (m : Machine S) (e : event) : Machine S :=
  mkMachine (self m) (os m) (out m ++ [e]).

(** A window that differs by the text of its status line only. *)
Definition with_status (s : string) (m : Machine Gui.ScriptTimer)
  : Machine Gui.ScriptTimer :=
  mkMachine (Gui.set_status_label s (self m)) (os m) (out m).

(** The line [select_script] prints first. *)
Definition asked : event :=
  Printed (Console.newline ++ "Select a script or program to control:").

(** A window and a console on [nine_am] whose script is [/locked], which
    exists and cannot be started. *)
Definition locked_window : Machine Gui.ScriptTimer :=
  mkMachine (Gui.set_script_path "/locked" (Gui.init nine_am)) nine_am [].

Definition locked_console : Machine Console.SimpleScriptTimer :=
  mkMachine (Console.set_script_path "/locked" Console.init) nine_am [].

(** A console on host [w] with [/bin/sleep] selected, and [nine_am] with the
    lifetimes of the children and the moments of Ctrl-C given. *)
Definition console_on (w : World) : Machine Console.SimpleScriptTimer :=
  mkMachine (Console.set_script_path "/bin/sleep" Console.init) w [].

Definition nine_am_with (lifetimes : list (pid * Z)) (interrupts : list Z)
  : World :=
  mkWorld (clock nine_am) (read_cost nine_am) (files nine_am)
          (spawn_errors nine_am) (next_pid nine_am) (started nine_am)
          lifetimes (exited nine_am) (protected nine_am) interrupts.

(** A window on [nine_am] with [/bin/sleep] selected, ten o'clock in the
    time field and "Repeat daily" checked. *)
Definition daily_window : Machine Gui.ScriptTimer :=
  mkMachine
    (Gui.set_schedule_checkbox true
       (Gui.set_time_edit (Gui.QTime_hms 10 0 0)
          (Gui.set_script_path "/bin/sleep" (Gui.init nine_am))))
    nine_am [].

(** What a [Popen] that succeeds leaves of [run_script] and of
    [run_scheduled_script] in the window [g], and of [run_script] at the
    console [c]. *)
Definition gui_launched (g : Machine Gui.ScriptTimer) (status : string)
  : Machine Gui.ScriptTimer :=
  mkMachine
    (Gui.set_status_label status
       (Gui.set_running_processes
          (Gui.running_processes (self g) ++ [next_pid (os g)]) (self g)))
    (with_child (next_pid (os g)) (os g))
    (out g ++ [Launched (clock (os g)) (next_pid (os g))]).

Definition console_launched (c : Machine Console.SimpleScriptTimer)
  : Machine Console.SimpleScriptTimer :=
  mkMachine
    (Console.set_running_processes
       (Console.running_processes (self c) ++ [next_pid (os c)]) (self c))
    (with_child (next_pid (os c)) (os c))
    (out c ++ [Launched (clock (os c)) (next_pid (os c));
               Printed ("Script started: " ++ Text.basename (Console.script_path (self c)))]).

Module GuiSpec.

Import Gui.

(** The connections as [__init__] and the slots themselves keep them: each
    button carries one slot, its start or its stop function; the interval
    timer runs [check_processes]; what the schedule timers run is
    [run_scheduled_script]. *)
Definition only (s : slot) (l : list slot) : Prop :=
  Forall (fun x => x = s) l.

Record wired (g : ScriptTimer) : Prop := mkWired {
  close_wired :
    clicked (close_button g) = [Slot_start_close_timer]
    \/ clicked (close_button g) = [Slot_stop_close_timer];
  repeat_wired :
    clicked (repeat_button g) = [Slot_start_repeat_timer]
    \/ clicked (repeat_button g) = [Slot_stop_repeat_timer];
  schedule_wired :
    clicked (schedule_button g) = [Slot_start_schedule_timer]
    \/ clicked (schedule_button g) = [Slot_stop_schedule_timer];
  stop_wired : clicked (stop_button g) = [Slot_stop_all];
  timer_wired : timeout (timer g) = [Slot_check_processes];
  schedule_timer_wired :
    only Slot_run_scheduled_script (timeout (schedule_timer g));
  shots_wired :
    only Slot_run_scheduled_script (map snd (single_shots g))
}.

(** The tracked list and the status line can change without touching the
    wiring. *)
Definition tracking (l : list pid) (s : string) (g : ScriptTimer) : ScriptTimer :=
  set_status_label s (set_running_processes l g).

(** A host that differs from [w] by the children that were signalled
    since. *)
Definition signalled (w w' : World) : Prop :=
  w' = with_exited (exited w') w /\ incl (exited w) (exited w').

Definition keeps_wiring (c : G unit) : Prop :=
  forall m, wired (self m) ->
    exists m', c m = Done tt m' /\ wired (self m').

(** Two windows that differ at most by the text of the status line, on
    the same host and with the same trace. *)
Definition same_but_status (g1 g2 : ScriptTimer) : Prop :=
  set_status_label "" g1 = set_status_label "" g2.

Definition alike (m1 m2 : Machine ScriptTimer) : Prop :=
  same_but_status (self m1) (self m2) /\ os m1 = os m2 /\ out m1 = out m2.

(** Two calls that end the same way, in machines that are alike. *)
Definition same_end {A} (r1 r2 : outcome ScriptTimer A) : Prop :=
  match r1, r2 with
  | Done a m1, Done b m2 => a = b /\ alike m1 m2
  | Raised e m1, Raised f m2 => e = f /\ alike m1 m2
  | Hangs m1, Hangs m2 => alike m1 m2
  | _, _ => False
  end.

(** A computation that cannot tell such machines apart. *)
Definition blind {A} (c : G A) : Prop :=
  forall m1 m2, alike m1 m2 -> same_end (c m1) (c m2).

(** The child [p] is still running. *)
Definition alive (w : World) (p : pid) : bool := negb (ended w p).

(** The caption of each of the three buttons names the slot it carries. *)
Definition captioned (g : ScriptTimer) : Prop :=
  (clicked (close_button g) = [Slot_start_close_timer]
   /\ text (close_button g) = "Start Close Timer"
   \/ clicked (close_button g) = [Slot_stop_close_timer]
      /\ text (close_button g) = "Stop Close Timer")
  /\ (clicked (repeat_button g) = [Slot_start_repeat_timer]
      /\ text (repeat_button g) = "Start Repeat Timer"
      \/ clicked (repeat_button g) = [Slot_stop_repeat_timer]
         /\ text (repeat_button g) = "Stop Repeat Timer")
  /\ (clicked (schedule_button g) = [Slot_start_schedule_timer]
      /\ text (schedule_button g) = "Start Schedule Timer"
      \/ clicked (schedule_button g) = [Slot_stop_schedule_timer]
         /\ text (schedule_button g) = "Stop Schedule Timer").

(** The connections of [schedule_timer.timeout] in [m'] are those of [m],
    followed by further connections of [run_scheduled_script]. *)
Definition connections_grow (m m' : Machine ScriptTimer) : Prop :=
  exists k,
    timeout (schedule_timer (self m'))
    = (timeout (schedule_timer (self m))
       ++ repeat Slot_run_scheduled_script k)%list.

(** No termination was requested between [m] and [m']. *)
Definition no_signal (m m' : Machine ScriptTimer) : Prop :=
  terminations (out m') = terminations (out m).

(** A computation that returns, keeps the invariant [P] of the window and
    changes the machine within [R]. *)
Definition kept (P : ScriptTimer -> Prop)
                (R : Machine ScriptTimer -> Machine ScriptTimer -> Prop)
                (c : G unit) : Prop :=
  forall m, P (self m) -> exists m', c m = Done tt m' /\ P (self m') /\ R m m'.

(** The invariant of the window: wiring and captions. *)
Definition sound (g : ScriptTimer) : Prop := wired g /\ captioned g.

(** The one input that reaches [stop_all]. *)
Definition is_stop_all (i : input) : bool :=
  match i with Click StopAll => true | _ => false end.

(** Between [g] and [m] nothing happened to the processes: the tracked
    list, the pending single-shot timers, the host and the trace are the
    same. *)
Definition processes_untouched (g m : Machine ScriptTimer) : Prop :=
  running_processes (self m) = running_processes (self g)
  /\ single_shots (self m) = single_shots (self g)
  /\ os m = os g
  /\ out m = out g.

End GuiSpec.

Module ConsoleSpec.

Import Console.

(** The same end, reached with [tr] already on the trace. *)
Definition after {A} (tr : list event) (r : outcome SimpleScriptTimer A)
  : outcome SimpleScriptTimer A :=
  match r with
  | Done a m => Done a (mkMachine (self m) (os m) (tr ++ out m))
  | Raised e m => Raised e (mkMachine (self m) (os m) (tr ++ out m))
  | Hangs m => Hangs (mkMachine (self m) (os m) (tr ++ out m))
  end.

(** A computation that does what it does whatever was printed before. *)
Definition traceless {A} (c : C A) : Prop :=
  forall s w tr, c (mkMachine s w tr) = after tr (c (mkMachine s w [])).

(** [op] ends in [c] as it ends in [c] with the line [e] printed before,
    that line apart. *)
Definition same_but_line {A} (op : C A) (c : Machine SimpleScriptTimer)
                         (e : event) : Prop :=
  exists r,
    op c = after (out c) r /\ op (logged c e) = after (out c ++ [e]) r.

(** The longest duration, in minutes, for which the theorems follow the
    timers of the interpreter: [threading.Timer] and [time.sleep] fail on
    a length beyond [threading.TIMEOUT_MAX], 9223372036 seconds. *)
Definition max_minutes : Z := 100000000.

(** A console at rest on a quiet host: no timer, no thread, nobody at the
    keyboard; the next child is new to the host and can be signalled. *)
Record at_rest (c : Machine SimpleScriptTimer) : Prop := mkAtRest {
  no_timers : timers (self c) = [];
  no_threads : threads (self c) = [];
  fresh_pid : lookup (next_pid (os c)) (started (os c)) = None;
  not_exited : mem_pid (next_pid (os c)) (exited (os c)) = false;
  not_protected : mem_pid (next_pid (os c)) (protected (os c)) = false
}.

(** The script of [c] is set and can be started. *)
Definition ready (c : Machine SimpleScriptTimer) : Prop :=
  Text.truthy (script_path (self c)) = true
  /\ Text.assoc (script_path (self c)) (spawn_errors (os c)) = None.

(** Every exception [c] can end with satisfies [P]. *)
Definition raises_only {A} (P : exn -> Prop) (c : C A) : Prop :=
  forall m e m', c m = Raised e m' -> P e.




Definition is_OSError (e : exn) : Prop := exists msg, e = OSError msg.

(** A time of day the program accepts. *)
Definition valid_time (hour minute : Z) : Prop :=
  0 <= hour <= 23 /\ 0 <= minute <= 59.

(** The time of day of a moment, in microseconds since midnight. *)
Definition time_of_day (d : Z) : Z := d mod us_per_day.

(** A machine with one more timer, waiting to call [f] at [t]. *)
Definition with_timer (t : Z) (f : callback) (m : Machine SimpleScriptTimer)
  : Machine SimpleScriptTimer :=
  mkMachine (set_timers (timers (self m) ++ [mkTimer t f Waiting]) (self m))
            (os m) (out m).

(** What [run] prints first, and what [show_menu] prints. *)
Definition greeting : list event :=
  [Printed "Simple Script Timer";
   Printed "This version doesn't require PyQt5"].

Definition menu_shown : list event :=
  [Printed (newline ++ Text.times 40 "=");
   Printed "SCRIPT TIMER MENU";
   Printed (Text.times 40 "=");
   Printed "1. Close script after x minutes";
   Printed "2. Run script every x minutes";
   Printed "3. Start script at specific time";
   Printed "4. Select script";
   Printed "5. Exit";
   Printed (Text.times 40 "=")].

Definition is_print (e : event) : bool :=
  match e with Printed _ => true | _ => false end.

(** The line is the option [n] of the menu. *)
Definition chooses (n : string) (line : string) : bool :=
  String.eqb (Text.strip line) n.

End ConsoleSpec.

(* ===================================================================== *)
(** ** What the code does, in general *)
(* ===================================================================== *)

(** Runs the monad where the code is known. *)
Ltac run_py :=
  cbv beta iota zeta delta
    [bind ret raise hang get_self get_os modify_self modify_os emit
     try_except try_bare try_interrupt Popen finished terminate
     sleep_us sleep_until];
  cbn [self os out].

(** A session is settled by running it, one statement after the other. *)
Ltac session :=
  lazymatch goal with
  | |- exists _, _ => eexists; session
  | |- _ /\ _ => split; [ session | session ]
  | |- _ => vm_compute; reflexivity
  end.

(* --------------------------------------------------------------------- *)
(** *** The window: wiring, and what each slot leaves behind *)
(* --------------------------------------------------------------------- *)

Module GuiFacts.

Import Gui GuiSpec.

Lemma init_wired w : wired (init w).
Proof. constructor; simpl; auto; constructor. Qed.

Lemma tracking_same g : tracking (running_processes g) (status_label g) g = g.
Proof. destruct g; reflexivity. Qed.

Lemma tracking_tracking l s l' s' g :
  tracking l' s' (tracking l s g) = tracking l' s' g.
Proof. destruct g; reflexivity. Qed.

Lemma tracking_wired l s g : wired g -> wired (tracking l s g).
Proof. destruct g; intros [? ? ? ? ? ? ?]; constructor; assumption. Qed.

Lemma tracking_running l s g : running_processes (tracking l s g) = l.
Proof. destruct g; reflexivity. Qed.

(** [remove_first] finds what occurs. *)
Lemma remove_first_count p l :
  (0 < count_occ Nat.eq_dec l p)%nat ->
  exists l', remove_first p l = Some l'
    /\ forall q, count_occ Nat.eq_dec l' q
                 = (count_occ Nat.eq_dec l q - if Nat.eq_dec p q then 1 else 0)%nat.
Proof.
  induction l as [|x l IH]; simpl; intros H; [lia|].
  destruct (Nat.eqb_spec p x) as [->|Hne].
  - eexists; split; [reflexivity|]. intros q.
    destruct (Nat.eq_dec x q); lia.
  - destruct (Nat.eq_dec x p) as [->|_]; [congruence|].
    destruct (IH H) as (l' & -> & Hc). eexists; split; [reflexivity|].
    intros q. simpl. rewrite Hc.
    destruct (Nat.eq_dec x q), (Nat.eq_dec p q); subst; try congruence; try lia.
Qed.

(** One turn of the loop of [check_processes] on a process that is in the
    list: it returns; the host and the trace are untouched; of the window,
    only the tracked list and the status line may have changed. *)
Lemma check_process_quiet x m :
  (0 < count_occ Nat.eq_dec (running_processes (self m)) x)%nat ->
  exists l s,
    check_process x m
    = Done tt (mkMachine (tracking l s (self m)) (os m) (out m))
    /\ forall q,
         (count_occ Nat.eq_dec (running_processes (self m)) q
          <= count_occ Nat.eq_dec l q + if Nat.eq_dec x q then 1 else 0)%nat.
Proof.
  intros Hx. unfold check_process, setStatus. run_py.
  destruct (ended (os m) x).
  - destruct (remove_first_count x _ Hx) as (l' & Hl' & Hc).
    rewrite Hl'. run_py.
    exists l', "Script completed execution". split; [reflexivity|].
    intros q. rewrite Hc. destruct (Nat.eq_dec x q); lia.
  - exists (running_processes (self m)), (status_label (self m)).
    rewrite tracking_same. split; [destruct m; reflexivity|].
    intros q. lia.
Qed.

(** The loop, over what is left of the copy. *)
Lemma check_loop_quiet rest :
  forall m,
    (forall q, (count_occ Nat.eq_dec rest q
                <= count_occ Nat.eq_dec (running_processes (self m)) q)%nat) ->
    exists l s,
      for_each rest check_process m
      = Done tt (mkMachine (tracking l s (self m)) (os m) (out m)).
Proof.
  induction rest as [|x rest IH]; intros m Hm.
  - exists (running_processes (self m)), (status_label (self m)).
    rewrite tracking_same. destruct m; reflexivity.
  - cbn [for_each]. unfold bind.
    destruct (check_process_quiet x m) as (l1 & s1 & -> & Hc).
    { specialize (Hm x). simpl in Hm.
      destruct (Nat.eq_dec x x); [lia|congruence]. }
    destruct (IH (mkMachine (tracking l1 s1 (self m)) (os m) (out m)))
      as (l & s & ->).
    { intros q. cbn [self]. rewrite tracking_running.
      specialize (Hm q). specialize (Hc q). simpl in Hm.
      destruct (Nat.eq_dec x q); lia. }
    exists l, s. cbn [self os out]. rewrite tracking_tracking. reflexivity.
Qed.

(** [check_processes] returns, launches nothing and signals nothing. *)
Lemma check_processes_quiet m :
  exists l s,
    check_processes m
    = Done tt (mkMachine (tracking l s (self m)) (os m) (out m)).
Proof.
  unfold check_processes. run_py. apply (check_loop_quiet _ m). intros q; lia.
Qed.

Lemma signalled_refl w : signalled w w.
Proof. split; [destruct w; reflexivity | apply incl_refl]. Qed.

Lemma signalled_trans w1 w2 w3 :
  signalled w1 w2 -> signalled w2 w3 -> signalled w1 w3.
Proof.
  intros [E1 I1] [E2 I2]. split; [|eapply incl_tran; eassumption].
  rewrite E2. rewrite E1. reflexivity.
Qed.

Lemma mem_pid_In p l : mem_pid p l = true <-> In p l.
Proof.
  unfold mem_pid. rewrite existsb_exists. split.
  - intros (x & Hx & E). apply Nat.eqb_eq in E. subst. assumption.
  - intros H. exists p. split; [assumption | apply Nat.eqb_refl].
Qed.

Lemma signalled_ended w w' p :
  signalled w w' -> ended w p = true -> ended w' p = true.
Proof.
  intros [E I]. unfold ended, natural_end. rewrite E. cbn.
  fold (mem_pid p (exited w')).
  rewrite !orb_true_iff, !mem_pid_In. intros [H|H]; [left; auto | right; exact H].
Qed.

Lemma signalled_protected w w' : signalled w w' -> protected w' = protected w.
Proof. intros [E _]. rewrite E. reflexivity. Qed.

Lemma signalled_clock w w' : signalled w w' -> clock w' = clock w.
Proof. intros [E _]. rewrite E. reflexivity. Qed.

(** One turn of the loop of [stop_all]: it returns whatever [terminate]
    does; the window is untouched; the process has ended afterwards unless
    signalling it is refused; nothing is launched. *)
Lemma stop_process_spec p m :
  exists w' tr,
    stop_process p m = Done tt (mkMachine (self m) w' (out m ++ tr))
    /\ signalled (os m) w'
    /\ (ended w' p = true \/ mem_pid p (protected (os m)) = true)
    /\ launches tr = [].
Proof.
  unfold stop_process. run_py.
  destruct (ended (os m) p) eqn:E; [|destruct (mem_pid p (protected (os m))) eqn:P].
  - exists (os m), []. rewrite app_nil_r.
    split; [destruct m; reflexivity|].
    split; [apply signalled_refl|]. split; [left; exact E | reflexivity].
  - exists (os m), []. rewrite app_nil_r.
    split; [destruct m; reflexivity|].
    split; [apply signalled_refl|]. split; [right; reflexivity | reflexivity].
  - exists (with_exited (p :: exited (os m)) (os m)),
      [Terminated (clock (os m)) p].
    split; [reflexivity|]. split; [|split; [|reflexivity]].
    + split; [reflexivity | cbn; apply incl_tl, incl_refl].
    + left. unfold ended. cbn. rewrite Nat.eqb_refl. reflexivity.
Qed.

(** The whole loop. *)
Lemma stop_loop_spec l :
  forall m,
    exists w' tr,
      for_each l stop_process m = Done tt (mkMachine (self m) w' (out m ++ tr))
      /\ signalled (os m) w'
      /\ (forall p, In p l ->
            ended w' p = true \/ mem_pid p (protected (os m)) = true)
      /\ launches tr = [].
Proof.
  induction l as [|x l IH]; intros m.
  - exists (os m), []. rewrite app_nil_r.
    split; [destruct m; reflexivity|].
    split; [apply signalled_refl|]. split; [intros p [] | reflexivity].
  - cbn [for_each]. unfold bind.
    destruct (stop_process_spec x m) as (w1 & tr1 & -> & S1 & E1 & L1).
    destruct (IH (mkMachine (self m) w1 (out m ++ tr1)))
      as (w2 & tr2 & -> & S2 & E2 & L2).
    cbn [self os out] in *.
    exists w2, (tr1 ++ tr2)%list. rewrite app_assoc.
    split; [reflexivity|]. split; [|split].
    + eapply signalled_trans; eassumption.
    + intros p [<-|Hp].
      * destruct E1 as [E1|E1]; [left; eapply signalled_ended; eassumption|auto].
      * destruct (E2 p Hp) as [H|H]; [auto|].
        right. rewrite <- (signalled_protected _ _ S1). exact H.
    + unfold launches in *. rewrite filter_app, L1, L2. reflexivity.
Qed.

(** **** Every slot returns and keeps the wiring *)

(** The window and its widgets, field by field. *)
Ltac open_window m :=
  let g := fresh "g" in
  destruct m as [g ? ?]; destruct g;
  cbn [self os out script_path timer schedule_timer single_shots
       running_processes script_label close_time_spin close_button
       repeat_time_spin repeat_button time_edit schedule_checkbox
       schedule_button status_label stop_button] in *;
  repeat match goal with
         | b : QPushButton |- _ => destruct b
         | t : QTimer |- _ => destruct t
         end;
  cbn [clicked text enabled active interval due timeout] in *.

(** Runs the code of the slots as far as it is determined. *)
Ltac run_gui :=
  cbv beta iota zeta delta
    [bind ret raise hang get_self get_os modify_self modify_os emit
     try_except try_bare try_interrupt Popen finished terminate
     sleep_us sleep_until
     setStatus on_button disconnect timer_start schedule_timer_start
     timer_stop schedule_timer_stop singleShot button set_button
     set_script_path set_timer set_schedule_timer set_single_shots
     set_running_processes set_script_label set_close_time_spin
     set_close_button set_repeat_time_spin set_repeat_button set_time_edit
     set_schedule_checkbox set_schedule_button set_status_label
     set_stop_button
     self os out script_path timer schedule_timer single_shots
     running_processes script_label close_time_spin close_button
     repeat_time_spin repeat_button time_edit schedule_checkbox
     schedule_button status_label stop_button
     setText setEnabled connect disconnected clicked text enabled
     QTimer_start QTimer_stop QTimer_connect QTimer_rearm
     active interval due timeout str_exn is_Exception].

(** Follows the code through its tests, one case after the other. *)
Ltac split_case :=
  match goal with
  | |- context [if ?b then _ else _] =>
      lazymatch b with
      | context [match _ with _ => _ end] => fail
      | _ => destruct b eqn:?
      end
  | |- context [match Text.assoc ?a ?b with _ => _ end] =>
      destruct (Text.assoc a b) eqn:?
  end.

Ltac crunch := run_gui; repeat (split_case; run_gui).

Ltac open_wired m W :=
  open_window m;
  destruct W as [Hc Hr Hs Hstop Ht Hst Hsh];
  cbn [self os out script_path timer schedule_timer single_shots
       running_processes script_label close_time_spin close_button
       repeat_time_spin repeat_button time_edit schedule_checkbox
       schedule_button status_label stop_button
       clicked text enabled active interval due timeout] in *;
  destruct Hc, Hr, Hs; subst.

Ltac only_run_scheduled :=
  unfold only in *; cbn [map snd]; rewrite ?map_app;
  repeat (apply Forall_app; split); auto; repeat constructor.

Ltac wired_after :=
  eexists; split;
  [ reflexivity
  | constructor; cbn [self os out script_path timer schedule_timer
       single_shots running_processes script_label close_time_spin
       close_button repeat_time_spin repeat_button time_edit
       schedule_checkbox schedule_button status_label stop_button
       clicked text enabled active interval due timeout app];
    auto; only_run_scheduled ].

Lemma keeps_wiring_for_each {A} (l : list A) (body : A -> G unit) :
  (forall x, In x l -> keeps_wiring (body x)) ->
  keeps_wiring (for_each l body).
Proof.
  induction l as [|x l IH]; intros H m W.
  - exists m. split; [reflexivity | assumption].
  - cbn [for_each]. unfold bind.
    destruct (H x (or_introl eq_refl) m W) as (m1 & -> & W1).
    apply IH; [|assumption]. intros y Hy. apply H. right. assumption.
Qed.

Lemma run_scheduled_script_keeps : keeps_wiring run_scheduled_script.
Proof.
  intros m W. open_wired m W; unfold run_scheduled_script; crunch; wired_after.
Qed.

Lemma check_processes_keeps : keeps_wiring check_processes.
Proof.
  intros m W. destruct (check_processes_quiet m) as (l & s & ->).
  eexists. split; [reflexivity|]. cbn [self]. apply tracking_wired, W.
Qed.

Lemma start_close_timer_keeps : keeps_wiring start_close_timer.
Proof.
  intros m W.
  open_wired m W; unfold start_close_timer, run_script; crunch; wired_after.
Qed.

Lemma stop_close_timer_keeps : keeps_wiring stop_close_timer.
Proof.
  intros m W. open_wired m W; unfold stop_close_timer; crunch; wired_after.
Qed.

Lemma start_repeat_timer_keeps : keeps_wiring start_repeat_timer.
Proof.
  intros m W.
  open_wired m W; unfold start_repeat_timer, run_script; crunch; wired_after.
Qed.

Lemma stop_repeat_timer_keeps : keeps_wiring stop_repeat_timer.
Proof.
  intros m W. open_wired m W; unfold stop_repeat_timer; crunch; wired_after.
Qed.

Lemma start_schedule_timer_keeps : keeps_wiring start_schedule_timer.
Proof.
  intros m W.
  open_wired m W; unfold start_schedule_timer; crunch; wired_after.
Qed.

Lemma stop_schedule_timer_keeps : keeps_wiring stop_schedule_timer.
Proof.
  intros m W. open_wired m W; unfold stop_schedule_timer; crunch; wired_after.
Qed.

(** [stop_all], on any window that is wired: it returns; every tracked
    process has been sent the signal (and has ended) unless signalling it
    is refused; nothing is tracked any more; both [QTimer] objects are
    stopped; the pending single-shot timers are the ones there were. *)
Lemma stop_all_spec m :
  wired (self m) ->
  exists m',
    stop_all m = Done tt m'
    /\ wired (self m')
    /\ running_processes (self m') = []
    /\ active (timer (self m')) = false
    /\ active (schedule_timer (self m')) = false
    /\ single_shots (self m') = single_shots (self m)
    /\ signalled (os m) (os m')
    /\ (forall p, In p (running_processes (self m)) ->
          ended (os m') p = true \/ mem_pid p (protected (os m)) = true)
    /\ launches (out m') = launches (out m).
Proof.
  intros W. unfold stop_all. unfold bind at 1. unfold get_self.
  unfold bind at 1.
  destruct (stop_loop_spec (running_processes (self m)) m)
    as (w' & tr & -> & Hw & He & Hl).
  assert (Hout : launches (out m ++ tr) = launches (out m)).
  { unfold launches in *. rewrite filter_app, Hl. apply app_nil_r. }
  revert Hw He Hout. generalize (out m ++ tr)%list; intros tr' Hw He Hout.
  pose proof Hw as [? ?].
  open_wired m W; crunch;
    (eexists; split; [reflexivity|]);
    (split; [constructor; cbn; auto|]); repeat split; auto.
Qed.

Lemma stop_all_keeps : keeps_wiring stop_all.
Proof.
  intros m W. destruct (stop_all_spec m W) as (m' & E & W' & _).
  exists m'. split; assumption.
Qed.

Lemma run_slot_keeps s : keeps_wiring (run_slot s).
Proof.
  destruct s; cbn [run_slot];
    auto using start_close_timer_keeps, stop_close_timer_keeps,
      start_repeat_timer_keeps, stop_repeat_timer_keeps,
      start_schedule_timer_keeps, stop_schedule_timer_keeps,
      run_scheduled_script_keeps, check_processes_keeps, stop_all_keeps.
Qed.

Lemma emit_signal_keeps l : keeps_wiring (emit_signal l).
Proof.
  apply keeps_wiring_for_each. intros x _. apply run_slot_keeps.
Qed.

Lemma click_keeps r : keeps_wiring (click r).
Proof.
  intros m W. unfold click. run_py.
  destruct (enabled (button r (self m))).
  - apply emit_signal_keeps, W.
  - exists m. split; [reflexivity | assumption].
Qed.

(** **** The event loop and the user keep the wiring too *)

Lemma keeps_wiring_bind (c : G unit) (k : G unit) :
  keeps_wiring c -> keeps_wiring k -> keeps_wiring (bind c (fun _ => k)).
Proof.
  intros Hc Hk m W. unfold bind.
  destruct (Hc m W) as (m1 & -> & W1). apply Hk, W1.
Qed.

Lemma keeps_wiring_modify (f : ScriptTimer -> ScriptTimer) :
  (forall g, wired g -> wired (f g)) -> keeps_wiring (modify_self f).
Proof.
  intros H m W. eexists. split; [reflexivity|]. apply H, W.
Qed.

Lemma only_drop_nth s i (l : list (Z * slot)) :
  only s (map snd l) -> only s (map snd (drop_nth i l)).
Proof.
  unfold only. revert i. induction l as [|x l IH]; intros [|i] H; cbn in *;
    try assumption; inversion H; subst; auto.
Qed.

Lemma only_nth s i (l : list (Z * slot)) t x :
  only s (map snd l) -> nth_error l i = Some (t, x) -> x = s.
Proof.
  unfold only. intros H E. rewrite Forall_forall in H. apply H.
  apply nth_error_In in E. change x with (snd (t, x)). apply in_map, E.
Qed.

Ltac field_update :=
  let g := fresh "g" in
  let W := fresh "W" in
  intros g W; destruct g; destruct W; constructor;
  cbn [script_path timer schedule_timer single_shots running_processes
       script_label close_time_spin close_button repeat_time_spin
       repeat_button time_edit schedule_checkbox schedule_button
       status_label stop_button set_script_path set_timer
       set_schedule_timer set_single_shots set_running_processes
       set_script_label set_close_time_spin set_close_button
       set_repeat_time_spin set_repeat_button set_time_edit
       set_schedule_checkbox set_schedule_button set_status_label
       set_stop_button QTimer_rearm timeout] in *;
  auto.

Lemma fire_keeps src : keeps_wiring (fire src).
Proof.
  intros m W. unfold fire. unfold bind at 1. unfold get_self.
  pose proof (timer_wired _ W). pose proof (schedule_timer_wired _ W).
  destruct src as [| |i].
  - apply keeps_wiring_bind; [| apply emit_signal_keeps | exact W].
    apply keeps_wiring_modify. field_update.
  - apply keeps_wiring_bind; [| apply emit_signal_keeps | exact W].
    apply keeps_wiring_modify. field_update.
  - destruct (nth_error (single_shots (self m)) i) as [[t x]|] eqn:E.
    + apply keeps_wiring_bind; [| apply run_slot_keeps | exact W].
      apply keeps_wiring_modify. pose proof (shots_wired _ W) as Hs.
      intros g Wg. destruct g; destruct Wg; constructor; cbn in *; auto.
      apply only_drop_nth, Hs.
    + exists m. split; [reflexivity | assumption].
Qed.

Lemma next_timeout_keeps : keeps_wiring next_timeout.
Proof.
  intros m W. unfold next_timeout. unfold bind at 1. unfold get_self.
  destruct (earliest (pending (self m))) as [[t src]|].
  - unfold bind, sleep_until, modify_os. cbn [self os out].
    apply fire_keeps. exact W.
  - exists m. split; [reflexivity | assumption].
Qed.

Lemma select_script_keeps f : keeps_wiring (select_script f).
Proof.
  unfold select_script, setStatus. destruct (Text.truthy f).
  - repeat apply keeps_wiring_bind; apply keeps_wiring_modify; field_update.
  - intros m W. exists m. split; [reflexivity | assumption].
Qed.

Lemma step_keeps i : keeps_wiring (step i).
Proof.
  destruct i; cbn [step];
    auto using select_script_keeps, click_keeps, next_timeout_keeps;
    try (apply keeps_wiring_modify; field_update);
    intros m W; eexists; (split; [reflexivity | exact W]).
Qed.

(** Whatever the user does and whatever the time, the window goes on: no
    slot raises, and the wiring is kept. *)
Lemma run_keeps l : keeps_wiring (run l).
Proof. apply keeps_wiring_for_each. intros i _. apply step_keeps. Qed.

Lemma window_never_raises w l :
  exists m, run l (boot w) = Done tt m /\ wired (self m).
Proof. apply run_keeps, init_wired. Qed.

(** **** The status line is written, never read *)

Lemma alike_refl m : alike m m.
Proof. repeat split. Qed.

Lemma alike_sym m1 m2 : alike m1 m2 -> alike m2 m1.
Proof. intros (H1 & H2 & H3). repeat split; symmetry; assumption. Qed.

Lemma alike_trans m1 m2 m3 : alike m1 m2 -> alike m2 m3 -> alike m1 m3.
Proof.
  intros (H1 & H2 & H3) (K1 & K2 & K3).
  repeat split; etransitivity; eassumption.
Qed.

Lemma blind_bind {A B} (c : G A) (k : A -> G B) :
  blind c -> (forall a, blind (k a)) -> blind (bind c k).
Proof.
  intros Hc Hk m1 m2 H. unfold bind. specialize (Hc m1 m2 H).
  destruct (c m1), (c m2); cbn in Hc; try contradiction.
  - destruct Hc as [<- Hc]. apply Hk, Hc.
  - exact Hc.
  - exact Hc.
Qed.

Lemma blind_for_each {A} (l : list A) (body : A -> G unit) :
  (forall x, blind (body x)) -> blind (for_each l body).
Proof.
  intros H. induction l as [|x l IH]; cbn [for_each].
  - intros m1 m2 Hm. split; [reflexivity | exact Hm].
  - apply blind_bind; [apply H | intros _; exact IH].
Qed.

(** Both machines, field by field, with what they share named once. *)
Ltac open_alike m1 m2 H :=
  let g1 := fresh "g" in
  let g2 := fresh "g" in
  destruct m1 as [g1 ? ?]; destruct m2 as [g2 ? ?];
  destruct g1, g2; destruct H as (Hg & Hw & Ho);
  unfold same_but_status, set_status_label in Hg;
  cbn [self os out set_status_label script_path timer schedule_timer
       single_shots running_processes script_label close_time_spin
       close_button repeat_time_spin repeat_button time_edit
       schedule_checkbox schedule_button status_label stop_button] in *;
  injection Hg; intros; subst;
  repeat match goal with
         | b : QPushButton |- _ => destruct b
         | t : QTimer |- _ => destruct t
         end.

Ltac split_more :=
  match goal with
  | |- context [if ?b then _ else _] =>
      lazymatch b with
      | context [match _ with _ => _ end] => fail
      | _ => destruct b eqn:?
      end
  | |- context [match Text.assoc ?a ?b with _ => _ end] =>
      destruct (Text.assoc a b) eqn:?
  | |- context [match remove_first ?a ?b with _ => _ end] =>
      destruct (remove_first a b) eqn:?
  | |- context [match ?l with [] => _ | _ :: _ => _ end] =>
      is_var l; destruct l
  end.

Ltac same_end_by_running :=
  unfold same_end; run_gui; repeat (split_more; run_gui);
  repeat split.

Ltac blind_slot :=
  let m1 := fresh "m" in
  let m2 := fresh "m" in
  let H := fresh "H" in
  intros m1 m2 H; open_alike m1 m2 H; same_end_by_running.

Lemma blind_check_process p : blind (check_process p).
Proof. unfold check_process. blind_slot. Qed.

Lemma blind_check_processes : blind check_processes.
Proof.
  intros m1 m2 H. unfold check_processes, bind, get_self. cbv beta iota.
  replace (running_processes (self m2)) with (running_processes (self m1)).
  - apply blind_for_each; [apply blind_check_process | exact H].
  - destruct H as (Hg & _). unfold same_but_status in Hg.
    destruct (self m1), (self m2). unfold set_status_label in Hg.
    cbn in *. injection Hg. intros. subst. reflexivity.
Qed.

Lemma blind_stop_process p : blind (stop_process p).
Proof. unfold stop_process. blind_slot. Qed.

Lemma blind_run_scheduled_script : blind run_scheduled_script.
Proof. unfold run_scheduled_script. blind_slot. Qed.

Lemma blind_start_close_timer : blind start_close_timer.
Proof. unfold start_close_timer, run_script. blind_slot. Qed.

Lemma blind_stop_close_timer : blind stop_close_timer.
Proof. unfold stop_close_timer. blind_slot. Qed.

Lemma blind_start_repeat_timer : blind start_repeat_timer.
Proof. unfold start_repeat_timer, run_script. blind_slot. Qed.

Lemma blind_stop_repeat_timer : blind stop_repeat_timer.
Proof. unfold stop_repeat_timer. blind_slot. Qed.

Lemma blind_start_schedule_timer : blind start_schedule_timer.
Proof. unfold start_schedule_timer. blind_slot. Qed.

Lemma blind_stop_schedule_timer : blind stop_schedule_timer.
Proof. unfold stop_schedule_timer. blind_slot. Qed.

Lemma alike_fields m1 m2 :
  alike m1 m2 ->
    script_path (self m2) = script_path (self m1)
    /\ timer (self m2) = timer (self m1)
    /\ schedule_timer (self m2) = schedule_timer (self m1)
    /\ single_shots (self m2) = single_shots (self m1)
    /\ running_processes (self m2) = running_processes (self m1)
    /\ script_label (self m2) = script_label (self m1)
    /\ close_time_spin (self m2) = close_time_spin (self m1)
    /\ close_button (self m2) = close_button (self m1)
    /\ repeat_time_spin (self m2) = repeat_time_spin (self m1)
    /\ repeat_button (self m2) = repeat_button (self m1)
    /\ time_edit (self m2) = time_edit (self m1)
    /\ schedule_checkbox (self m2) = schedule_checkbox (self m1)
    /\ schedule_button (self m2) = schedule_button (self m1)
    /\ stop_button (self m2) = stop_button (self m1).
Proof.
  intros (Hg & _). unfold same_but_status, set_status_label in Hg.
  destruct (self m1), (self m2). cbn in *. injection Hg. intros. subst.
  repeat split.
Qed.

(** What the second machine shows is what the first shows. *)
Ltac share_fields H :=
  let F := fresh "F" in
  pose proof (alike_fields _ _ H) as F;
  repeat match type of F with
         | _ /\ _ =>
             let E := fresh "E" in destruct F as [E F]; rewrite ?E; clear E
         end;
  rewrite ?F; clear F.

Lemma bind_get_self {A} (k : ScriptTimer -> G A) m :
  bind get_self k m = k (self m) m.
Proof. reflexivity. Qed.

Lemma blind_ret {A} (a : A) : blind (ret a).
Proof. intros m1 m2 H. split; [reflexivity | exact H]. Qed.

Lemma blind_stop_all : blind stop_all.
Proof.
  intros m1 m2 H. unfold stop_all. rewrite !bind_get_self. share_fields H.
  revert H. generalize (running_processes (self m1)); intros l.
  revert m1 m2. apply blind_bind.
  - apply blind_for_each, blind_stop_process.
  - intros _. blind_slot.
Qed.

Lemma blind_run_slot s : blind (run_slot s).
Proof.
  destruct s; cbn [run_slot];
    auto using blind_start_close_timer, blind_stop_close_timer,
      blind_start_repeat_timer, blind_stop_repeat_timer,
      blind_start_schedule_timer, blind_stop_schedule_timer,
      blind_run_scheduled_script, blind_check_processes, blind_stop_all.
Qed.

Lemma blind_emit_signal l : blind (emit_signal l).
Proof. apply blind_for_each, blind_run_slot. Qed.

Lemma blind_click r : blind (click r).
Proof.
  intros m1 m2 H. unfold click. rewrite !bind_get_self.
  replace (button r (self m2)) with (button r (self m1))
    by (destruct r; cbn [button]; share_fields H; reflexivity).
  destruct (enabled (button r (self m1))).
  - apply blind_emit_signal, H.
  - apply blind_ret, H.
Qed.

Lemma blind_modify (f : ScriptTimer -> ScriptTimer) :
  (forall g1 g2, same_but_status g1 g2 -> same_but_status (f g1) (f g2)) ->
  blind (modify_self f).
Proof.
  intros Hf m1 m2 (Hg & Hw & Ho).
  split; [reflexivity|]. split; [apply Hf, Hg | split; assumption].
Qed.

Ltac same_update :=
  let g1 := fresh "g" in
  let g2 := fresh "g" in
  let H := fresh "H" in
  intros g1 g2 H; unfold same_but_status, set_status_label in *;
  destruct g1, g2; cbn in *; injection H; intros; subst; reflexivity.

Lemma blind_modify_os (f : World -> World) : blind (modify_os f).
Proof.
  intros m1 m2 (Hg & Hw & Ho).
  split; [reflexivity|]. split; [exact Hg | split; [|exact Ho]].
  cbn. rewrite Hw. reflexivity.
Qed.

Lemma blind_fire src : blind (fire src).
Proof.
  intros m1 m2 H. unfold fire. rewrite !bind_get_self. share_fields H.
  revert m1 m2 H. destruct src as [| |i]; intros m1 m2 H.
  - revert H. generalize (timer (self m1)); intros t. revert m1 m2.
    apply blind_bind; [|intros _; apply blind_emit_signal].
    apply blind_modify. same_update.
  - revert H. generalize (schedule_timer (self m1)); intros t. revert m1 m2.
    apply blind_bind; [|intros _; apply blind_emit_signal].
    apply blind_modify. same_update.
  - revert H. generalize (single_shots (self m1)); intros l. revert m1 m2.
    destruct (nth_error l i) as [[t x]|]; [|apply blind_ret].
    apply blind_bind; [|intros _; apply blind_run_slot].
    apply blind_modify. same_update.
Qed.

Lemma blind_next_timeout : blind next_timeout.
Proof.
  intros m1 m2 H. unfold next_timeout. rewrite !bind_get_self.
  replace (pending (self m2)) with (pending (self m1))
    by (unfold pending; share_fields H; reflexivity).
  revert H. generalize (earliest (pending (self m1))); intros e.
  revert m1 m2. destruct e as [[t src]|]; [|apply blind_ret].
  apply blind_bind; [apply blind_modify_os | intros _; apply blind_fire].
Qed.

Lemma blind_select_script f : blind (select_script f).
Proof.
  unfold select_script, setStatus. destruct (Text.truthy f); [|apply blind_ret].
  repeat (apply blind_bind; [|intros _]); apply blind_modify; same_update.
Qed.

Lemma blind_step i : blind (step i).
Proof.
  destruct i; cbn [step]; unfold sleep_us;
    auto using blind_select_script, blind_click, blind_next_timeout,
      blind_modify_os;
    apply blind_modify; same_update.
Qed.

(** Whatever is done to two windows that differ by the status line only,
    they end alike. *)
Lemma blind_run l : blind (run l).
Proof. apply blind_for_each, blind_step. Qed.

End GuiFacts.

(* --------------------------------------------------------------------- *)
(** *** The console: the trace is written, never read *)
(* --------------------------------------------------------------------- *)

Module ConsoleFacts.

Import Console ConsoleSpec.

Lemma after_after {A} tr tr' (r : outcome SimpleScriptTimer A) :
  after tr (after tr' r) = after (tr ++ tr') r.
Proof. destruct r; cbn; rewrite app_assoc; reflexivity. Qed.

Lemma traceless_ret {A} (a : A) : traceless (ret a).
Proof. intros s w tr. cbn. rewrite app_nil_r. reflexivity. Qed.

Lemma traceless_raise {A} e : traceless (@raise _ A e).
Proof. intros s w tr. cbn. rewrite app_nil_r. reflexivity. Qed.

Lemma traceless_hang {A} : traceless (@hang _ A).
Proof. intros s w tr. cbn. rewrite app_nil_r. reflexivity. Qed.

Lemma traceless_emit e : traceless (emit e).
Proof. intros s w tr. reflexivity. Qed.

Lemma traceless_get_self : traceless get_self.
Proof. intros s w tr. cbn. rewrite app_nil_r. reflexivity. Qed.

Lemma traceless_get_os : traceless get_os.
Proof. intros s w tr. cbn. rewrite app_nil_r. reflexivity. Qed.

Lemma traceless_modify_self f : traceless (modify_self f).
Proof. intros s w tr. cbn. rewrite app_nil_r. reflexivity. Qed.

Lemma traceless_modify_os f : traceless (modify_os f).
Proof. intros s w tr. cbn. rewrite app_nil_r. reflexivity. Qed.

Lemma traceless_at {A} (c : C A) m :
  traceless c -> c m = after (out m) (c (mkMachine (self m) (os m) [])).
Proof. intros H. destruct m as [s w tr]. apply H. Qed.

Lemma traceless_bind {A B} (c : C A) (k : A -> C B) :
  traceless c -> (forall a, traceless (k a)) -> traceless (bind c k).
Proof.
  intros Hc Hk s w tr. unfold bind. rewrite (Hc s w tr).
  destruct (c (mkMachine s w [])) as [a m|e m|m]; cbn; try reflexivity.
  rewrite (traceless_at (k a) _ (Hk a)). cbn [self os out].
  rewrite (traceless_at (k a) m (Hk a)). rewrite after_after. reflexivity.
Qed.

Lemma traceless_try_except {A} (body : C A) (handler : exn -> C A) :
  traceless body -> (forall e, traceless (handler e)) ->
  traceless (try_except body handler).
Proof.
  intros Hb Hh s w tr. unfold try_except. rewrite (Hb s w tr).
  destruct (body (mkMachine s w [])) as [a m|e m|m]; cbn; try reflexivity.
  destruct (is_Exception e); [|reflexivity].
  rewrite (traceless_at (handler e) _ (Hh e)). cbn [self os out].
  rewrite (traceless_at (handler e) m (Hh e)). rewrite after_after.
  reflexivity.
Qed.

Lemma traceless_try_bare {A} (body handler : C A) :
  traceless body -> traceless handler -> traceless (try_bare body handler).
Proof.
  intros Hb Hh s w tr. unfold try_bare. rewrite (Hb s w tr).
  destruct (body (mkMachine s w [])) as [a m|e m|m]; cbn; try reflexivity.
  rewrite (traceless_at handler _ Hh). cbn [self os out].
  rewrite (traceless_at handler m Hh). rewrite after_after. reflexivity.
Qed.

Lemma traceless_try_interrupt {A} (body handler : C A) :
  traceless body -> traceless handler -> traceless (try_interrupt body handler).
Proof.
  intros Hb Hh s w tr. unfold try_interrupt. rewrite (Hb s w tr).
  destruct (body (mkMachine s w [])) as [a m|e m|m]; cbn; try reflexivity.
  destruct e; try reflexivity.
  rewrite (traceless_at handler _ Hh). cbn [self os out].
  rewrite (traceless_at handler m Hh). rewrite after_after. reflexivity.
Qed.

Lemma traceless_for_each {A} (l : list A) (body : A -> C unit) :
  (forall x, traceless (body x)) -> traceless (for_each l body).
Proof.
  intros H. induction l as [|x l IH]; cbn [for_each].
  - apply traceless_ret.
  - apply traceless_bind; [apply H | intros _; exact IH].
Qed.

(** Takes a computation apart along its code. *)
Ltac traceless_step :=
  first
    [ match goal with H : _ |- _ => apply H end
    | apply traceless_ret | apply traceless_raise | apply traceless_hang
    | apply traceless_emit | apply traceless_get_self
    | apply traceless_get_os | apply traceless_modify_self
    | apply traceless_modify_os
    | apply traceless_bind; [| intro]
    | apply traceless_try_except; [| intro]
    | apply traceless_try_bare
    | apply traceless_try_interrupt
    | apply traceless_for_each; intro
    | match goal with
      | |- traceless (if ?b then _ else _) => destruct b
      | |- traceless (match ?x with _ => _ end) => destruct x
      | |- traceless (let _ := _ in _) => cbv zeta
      end ].

Ltac traceless_by_code := repeat traceless_step.

Lemma traceless_print line : traceless (print line).
Proof. apply traceless_emit. Qed.

Lemma traceless_Popen path : traceless (Popen path).
Proof. unfold Popen. traceless_by_code. Qed.

Lemma traceless_terminate p : traceless (terminate p).
Proof. unfold terminate. traceless_by_code. Qed.

Lemma traceless_sleep_until t : traceless (sleep_until t).
Proof. apply traceless_modify_os. Qed.

Lemma traceless_datetime_now : traceless datetime_now.
Proof. unfold datetime_now. traceless_by_code. Qed.

Lemma traceless_run_script : traceless run_script.
Proof.
  unfold run_script. pose proof traceless_Popen. pose proof traceless_print.
  traceless_by_code; auto.
Qed.

Lemma traceless_start_timer d f : traceless (start_timer d f).
Proof. unfold start_timer. traceless_by_code. Qed.

Lemma traceless_cancel i : traceless (cancel i).
Proof. apply traceless_modify_self. Qed.

Lemma traceless_set_phase i ph : traceless (set_phase i ph).
Proof. apply traceless_modify_self. Qed.

Lemma traceless_thread_sleeps i d : traceless (thread_sleeps i d).
Proof.
  unfold thread_sleeps. pose proof traceless_print.
  pose proof traceless_set_phase. traceless_by_code; auto.
Qed.

Lemma traceless_run_periodically i : traceless (run_periodically i).
Proof.
  unfold run_periodically. pose proof traceless_run_script.
  pose proof traceless_thread_sleeps. pose proof traceless_set_phase.
  traceless_by_code; auto.
Qed.

Lemma traceless_call f : traceless (call f).
Proof.
  unfold call. pose proof traceless_run_script. pose proof traceless_print.
  pose proof traceless_terminate. pose proof traceless_datetime_now.
  pose proof traceless_start_timer. traceless_by_code; auto.
Qed.

Lemma traceless_run_background b : traceless (run_background b).
Proof.
  unfold run_background. pose proof traceless_call.
  pose proof traceless_run_periodically. traceless_by_code; auto.
Qed.

Lemma traceless_block fuel k : traceless (block fuel k).
Proof.
  revert k.
  induction fuel as [|fuel IH]; intros k; cbn [block]; [apply traceless_hang|].
  pose proof traceless_run_background. pose proof traceless_sleep_until.
  traceless_by_code; auto.
Qed.

Lemma traceless_select_script line : traceless (select_script line).
Proof.
  unfold select_script. pose proof traceless_print. traceless_by_code; auto.
Qed.

Lemma traceless_close_after_time fuel typed :
  traceless (close_after_time fuel typed).
Proof.
  unfold close_after_time. pose proof traceless_print.
  pose proof traceless_run_script. pose proof traceless_start_timer.
  pose proof traceless_block. pose proof traceless_cancel.
  traceless_by_code; auto.
Qed.

Lemma traceless_repeat_every_time fuel typed :
  traceless (repeat_every_time fuel typed).
Proof.
  unfold repeat_every_time. pose proof traceless_print.
  pose proof traceless_block. traceless_by_code; auto.
Qed.

Lemma traceless_start_at_time fuel typed answer :
  traceless (start_at_time fuel typed answer).
Proof.
  unfold start_at_time. pose proof traceless_print.
  pose proof traceless_datetime_now. pose proof traceless_start_timer.
  pose proof traceless_block. pose proof traceless_cancel.
  traceless_by_code; auto.
Qed.

Lemma traceless_same_but_line {A} (op : C A) c e :
  traceless op -> same_but_line op c e.
Proof.
  intros H. exists (op (mkMachine (self c) (os c) [])). split.
  - apply traceless_at, H.
  - apply (H (self c) (os c) (out c ++ [e])%list).
Qed.

End ConsoleFacts.

(* --------------------------------------------------------------------- *)
(** *** A single launch attempt *)
(* --------------------------------------------------------------------- *)

Section LaunchAttempt.

Variable g : Machine Gui.ScriptTimer.
Variable c : Machine Console.SimpleScriptTimer.

Abbreviation gpath := (Gui.script_path (self g)).
Abbreviation cpath := (Console.script_path (self c)).

(** What a failing [Popen] leaves of [run_script] in the window. *)
Lemma gui_run_script_failure msg :
  Text.assoc gpath (spawn_errors (os g)) = Some msg ->
  Gui.run_script g = Done tt (with_status ("Error running script: " ++ msg) g).
Proof.
  intros H. unfold Gui.run_script. run_py. rewrite H. reflexivity.
Qed.

Lemma gui_run_scheduled_script_failure msg :
  Text.assoc gpath (spawn_errors (os g)) = Some msg ->
  Gui.run_scheduled_script g
  = Done tt (with_status ("Error running scheduled script: " ++ msg) g).
Proof.
  intros H. unfold Gui.run_scheduled_script. run_py. rewrite H. reflexivity.
Qed.

Lemma console_run_script_failure msg :
  Text.assoc cpath (spawn_errors (os c)) = Some msg ->
  Console.run_script c
  = Done None (logged c (Printed ("Error running script: " ++ msg))).
Proof.
  intros H. unfold Console.run_script, Console.print. run_py.
  rewrite H. reflexivity.
Qed.

Lemma gui_run_script_success :
  Text.assoc gpath (spawn_errors (os g)) = None ->
  Gui.run_script g
  = Done tt (gui_launched g ("Script started: " ++ Text.basename gpath)).
Proof.
  intros H. unfold Gui.run_script. run_py. rewrite H. reflexivity.
Qed.

Lemma gui_run_scheduled_script_success :
  Text.assoc gpath (spawn_errors (os g)) = None ->
  Gui.run_scheduled_script g
  = Done tt (gui_launched g ("Script scheduled started: " ++ Text.basename gpath)).
Proof.
  intros H. unfold Gui.run_scheduled_script. run_py. rewrite H. reflexivity.
Qed.

Lemma console_run_script_success :
  Text.assoc cpath (spawn_errors (os c)) = None ->
  Console.run_script c = Done (Some (next_pid (os c))) (console_launched c).
Proof.
  intros H. unfold Console.run_script, Console.print. run_py.
  rewrite H. unfold console_launched. simpl.
  rewrite <- app_assoc. reflexivity.
Qed.

End LaunchAttempt.

(* --------------------------------------------------------------------- *)
(** *** The two programs side by side *)
(* --------------------------------------------------------------------- *)

(** A timeout of [self.timer] in a wired window: [check_processes] runs,
    and that is all; the host and the trace are as before, so nothing was
    launched and nothing was signalled, whichever policy armed the timer. *)
Lemma timer_timeout_is_quiet (m : Machine Gui.ScriptTimer) :
  GuiSpec.wired (self m) ->
  exists m',
    Gui.fire Gui.TheTimer m = Done tt m' /\ os m' = os m /\ out m' = out m.
Proof.
  intros W. unfold Gui.fire. rewrite GuiFacts.bind_get_self.
  rewrite (GuiSpec.timer_wired _ W).
  unfold Gui.emit_signal. cbn [for_each Gui.run_slot].
  unfold bind at 1 2, modify_self, ret. cbv beta iota.
  destruct (GuiFacts.check_processes_quiet
              (mkMachine
                 (Gui.set_timer (Gui.QTimer_rearm (Gui.timer (self m)))
                    (self m)) (os m) (out m)))
    as (l & s & ->).
  eexists. repeat split.
Qed.

(** The delay the window computes is the plain difference of the two times
    of day in both branches: nothing is added for the next day. *)
Lemma time_diff_is_the_difference (scheduled_time today : Gui.QTime) :
  Gui.time_diff scheduled_time today = scheduled_time - today.
Proof.
  unfold Gui.time_diff, Gui.msecsTo, Gui.msecsSinceStartOfDay, Gui.QTime_hms.
  destruct (scheduled_time <=? today); lia.
Qed.

Lemma time_diff_of_a_past_time (scheduled_time today : Gui.QTime) :
  scheduled_time < today -> Gui.time_diff scheduled_time today < 0.
Proof. rewrite time_diff_is_the_difference. lia. Qed.

(** The console, with an ideal clock showing [now], rolls forward: the
    moment it computes is ahead by a day at most. *)
Lemma console_target_time_is_ahead (now hour minute : Z) :
  0 <= hour <= 23 -> 0 <= minute <= 59 ->
  now < Console.target_time now now hour minute <= now + Console.us_per_day.
Proof.
  intros Hh Hm. unfold Console.target_time, Console.replace_hm.
  pose proof (Z.mod_pos_bound now Console.us_per_day eq_refl) as Hb.
  unfold Console.us_per_day, Console.us_per_second in *.
  destruct (_ <=? now) eqn:E; [apply Z.leb_le in E | apply Z.leb_gt in E]; lia.
Qed.

(** At the console, eight o'clock asked for at nine is armed for eight
    o'clock of the next day. *)
Example console_schedules_for_tomorrow :
  exists m,
    Console.start_at_time 0 (Some (8, 0)) "n"
      (mkMachine (Console.set_script_path "/bin/sleep" Console.init)
                 nine_am [])
    = Hangs m
    /\ Console.timers (self m)
       = [Console.mkTimer (24 * hour + 8 * hour)
            (Console.run_scheduled_script 8 0 false) Console.Waiting].
Proof. session. Qed.

(** At the console, "close after 1 minute" launches the script and
    terminates it one minute later. *)
Example console_closes_after_a_minute :
  exists m,
    Console.close_after_time 2 (Some 1)
      (mkMachine (Console.set_script_path "/bin/sleep" Console.init)
                 nine_am [])
    = Done tt m
    /\ launches (out m) = [Launched (clock nine_am) 100%nat]
    /\ terminations (out m) = [Terminated (clock nine_am + 1 * minute) 100%nat].
Proof. session. Qed.

(** At the console, "run every 1 minute" launches the script again, one
    minute after each run has ended (here the runs take five and seven
    seconds). *)
Example console_launches_again :
  exists m,
    Console.repeat_every_time 6 (Some 1)
      (mkMachine (Console.set_script_path "/bin/sleep" Console.init)
         (mkWorld 0 0 ["/bin/sleep"] [] 100%nat []
                  [(100%nat, 5000000); (101%nat, 7000000)] [] [] [])
         [])
    = Hangs m
    /\ launches (out m)
       = [Launched 0 100%nat; Launched 65000000 101%nat;
          Launched 132000000 102%nat].
Proof. session. Qed.

Lemma locked_window_wired : GuiSpec.wired (self locked_window).
Proof. constructor; cbn; auto; constructor. Qed.

Lemma launches_app tr tr' :
  launches (tr ++ tr') = (launches tr ++ launches tr')%list.
Proof. apply filter_app. Qed.

Lemma terminations_app tr tr' :
  terminations (tr ++ tr') = (terminations tr ++ terminations tr')%list.
Proof. apply filter_app. Qed.

(* --------------------------------------------------------------------- *)
(** *** What the timers of "Start at" launch *)
(* --------------------------------------------------------------------- *)

Module GuiTimers.

Import Gui GuiSpec GuiFacts.

(** [run_scheduled_script], once for each connection. *)
Lemma scheduled_launches l :
  only Slot_run_scheduled_script l ->
  forall m,
    Text.assoc (script_path (self m)) (spawn_errors (os m)) = None ->
    exists m',
      emit_signal l m = Done tt m'
      /\ out m'
         = (out m ++ map (Launched (clock (os m)))
                        (seq (next_pid (os m)) (List.length l)))%list
      /\ running_processes (self m')
         = (running_processes (self m)
            ++ seq (next_pid (os m)) (List.length l))%list
      /\ single_shots (self m') = single_shots (self m)
      /\ timer (self m') = timer (self m)
      /\ schedule_timer (self m') = schedule_timer (self m)
      /\ clock (os m') = clock (os m).
Proof.
  unfold emit_signal.
  induction l as [|x l IH]; intros Hl m Hp.
  - exists m. cbn. rewrite !app_nil_r. repeat split.
  - inversion Hl as [|? ? Hx Hl']; subst.
    cbn [for_each run_slot]. unfold bind.
    rewrite (gui_run_scheduled_script_success m Hp).
    destruct (IH Hl' (gui_launched m
               ("Script scheduled started: "
                ++ Text.basename (script_path (self m)))))
      as (m' & -> & Ho & Hr & Hs & Ht & Hst & Hc).
    { destruct m as [g w tr]; destruct g; exact Hp. }
    exists m'. split; [reflexivity|].
    rewrite Ho, Hr, Hs, Ht, Hst, Hc.
    destruct m as [g w tr]; destruct g; cbn.
    rewrite <- !app_assoc. repeat split.
Qed.

Lemma fire_schedule_timer_spec m :
  wired (self m) ->
  Text.assoc (script_path (self m)) (spawn_errors (os m)) = None ->
  exists m',
    fire ScheduleTimer m = Done tt m'
    /\ out m'
       = (out m
          ++ map (Launched (clock (os m)))
               (seq (next_pid (os m))
                    (List.length (timeout (schedule_timer (self m))))))%list
    /\ running_processes (self m')
       = (running_processes (self m)
          ++ seq (next_pid (os m))
               (List.length (timeout (schedule_timer (self m)))))%list
    /\ due (schedule_timer (self m'))
       = due (schedule_timer (self m))
         + interval (schedule_timer (self m)) * 1000.
Proof.
  intros W Hp. unfold fire. rewrite bind_get_self.
  unfold bind at 1, modify_self.
  destruct (scheduled_launches _ (schedule_timer_wired _ W)
              (mkMachine
                 (set_schedule_timer (QTimer_rearm (schedule_timer (self m)))
                    (self m)) (os m) (out m)))
    as (m' & -> & Ho & Hr & _ & _ & Hst & _).
  { destruct m as [g w tr]; destruct g; exact Hp. }
  exists m'. split; [reflexivity|]. rewrite Ho, Hr, Hst.
  destruct m as [g w tr]; destruct g; cbn. repeat split.
Qed.

(** A single-shot timer of the window that fires. *)
Lemma fire_shot_spec m i t s :
  wired (self m) ->
  nth_error (single_shots (self m)) i = Some (t, s) ->
  Text.assoc (script_path (self m)) (spawn_errors (os m)) = None ->
  exists m',
    fire (Shot i) m = Done tt m'
    /\ out m' = (out m ++ [Launched (clock (os m)) (next_pid (os m))])%list
    /\ running_processes (self m')
       = (running_processes (self m) ++ [next_pid (os m)])%list
    /\ single_shots (self m') = drop_nth i (single_shots (self m)).
Proof.
  intros W E Hp. unfold fire. rewrite bind_get_self, E.
  rewrite (only_nth _ _ _ _ _ (shots_wired _ W) E).
  unfold bind at 1, modify_self. cbn [run_slot].
  rewrite gui_run_scheduled_script_success
    by (destruct m as [g w tr]; destruct g; exact Hp).
  eexists. split; [reflexivity|].
  destruct m as [g w tr]; destruct g; cbn. repeat split.
Qed.

End GuiTimers.

(* ===================================================================== *)
(** ** The claims *)
(* ===================================================================== *)

(** C1. "Close after 1 minute" in the window: the script is launched at
    once and the timer is armed for one minute, but when it fires (the
    clock shows one minute more) the only slot it runs is
    [check_processes]: no termination is requested, the child is still
    running and still tracked, and the timer is armed again. *)
Theorem close_timer_fires_without_terminating :
  exists m,
    Gui.run [Gui.PickFile "/bin/sleep"; Gui.SetCloseTime 1;
             Gui.Click Gui.Close; Gui.NextTimeout] (Gui.boot nine_am)
    = Done tt m
    /\ clock (os m) = clock nine_am + 1 * minute
    /\ Gui.timeout (Gui.timer (self m)) = [Gui.Slot_check_processes]
    /\ launches (out m) = [Launched (clock nine_am) 100%nat]
    /\ terminations (out m) = []
    /\ ended (os m) 100%nat = false
    /\ Gui.running_processes (self m) = [100%nat]
    /\ Gui.active (Gui.timer (self m)) = true.
Proof. session. Qed.

(** C2. A launch scheduled for ten o'clock, then "Stop All" at nine: the
    single-shot timer is still pending after the stop, and when its time
    comes it launches the script. *)
Theorem stop_all_leaves_the_single_shot :
  exists m m',
    Gui.run [Gui.PickFile "/bin/sleep"; Gui.SetTime (Gui.QTime_hms 10 0 0);
             Gui.Click Gui.Schedule; Gui.Click Gui.StopAll]
            (Gui.boot nine_am)
    = Done tt m
    /\ out m = []
    /\ Gui.single_shots (self m)
       = [(clock nine_am + 1 * hour, Gui.Slot_run_scheduled_script)]
    /\ Gui.next_timeout m = Done tt m'
    /\ out m' = [Launched (clock nine_am + 1 * hour) 100%nat].
Proof. session. Qed.

(** C3. Eight o'clock asked for at nine: the delay computed is minus one
    hour, not the 23 hours that lead to eight o'clock tomorrow; the
    single-shot timer is refused, and nothing is armed or launched. *)
Theorem past_time_gives_negative_delay :
  Gui.time_diff (Gui.QTime_hms 8 0 0) (Gui.QTime_hms 9 0 0) = - 3600000
  /\ exists m,
       Gui.run [Gui.PickFile "/bin/sleep"; Gui.SetTime (Gui.QTime_hms 8 0 0);
                Gui.Click Gui.Schedule] (Gui.boot nine_am)
       = Done tt m
       /\ Gui.pending (self m) = []
       /\ out m = [QtWarning
                     "QTimer::singleShot: Timers cannot have negative timeouts"].
Proof. session. Qed.

(** C4. "Run every 1 minute" in the window: the script is launched at
    once; three timeouts later (the clock shows three minutes more) it has
    still been launched that one time only. *)
Theorem repeat_timer_never_relaunches :
  exists m,
    Gui.run [Gui.PickFile "/bin/sleep"; Gui.SetRepeatTime 1;
             Gui.Click Gui.Repeat;
             Gui.NextTimeout; Gui.NextTimeout; Gui.NextTimeout]
            (Gui.boot nine_am)
    = Done tt m
    /\ clock (os m) = clock nine_am + 3 * minute
    /\ launches (out m) = [Launched (clock nine_am) 100%nat].
Proof. session. Qed.




(** C6. With no script selected ([script_path] empty), each of the three
    start functions, in the window and at the console, returns after
    its warning and changes nothing else: the object and the host are as
    before (no child, no timer, no thread), the trace has the warning as
    its one new entry. *)
Theorem start_without_script_only_warns :
  forall (g : Machine Gui.ScriptTimer) (c : Machine Console.SimpleScriptTimer)
         (fuel : nat) (minutes : option Z) (time : option (Z * Z))
         (answer : string),
    Gui.script_path (self g) = "" ->
    Console.script_path (self c) = "" ->
    let warned :=
      logged g (MessageBox "No Script" "Please select a script first!") in
    let told := logged c (Printed "No script selected!") in
    Gui.start_close_timer g = Done tt warned
    /\ Gui.start_repeat_timer g = Done tt warned
    /\ Gui.start_schedule_timer g = Done tt warned
    /\ Console.close_after_time fuel minutes c = Done tt told
    /\ Console.repeat_every_time fuel minutes c = Done tt told
    /\ Console.start_at_time fuel time answer c = Done tt told.
Proof.
  intros g c fuel minutes time answer Hg Hc. cbv zeta.
  unfold Gui.start_close_timer, Gui.start_repeat_timer,
    Gui.start_schedule_timer, Console.close_after_time,
    Console.repeat_every_time, Console.start_at_time, Console.print.
  run_py. rewrite Hg, Hc. repeat split.
Qed.

Lemma start_without_script_only_warns_witness :
  let g := Gui.boot nine_am in
  let c := Console.boot nine_am in
  let warned :=
    logged g (MessageBox "No Script" "Please select a script first!") in
  let told := logged c (Printed "No script selected!") in
  Gui.start_close_timer g = Done tt warned
  /\ Gui.start_repeat_timer g = Done tt warned
  /\ Gui.start_schedule_timer g = Done tt warned
  /\ Console.close_after_time 1 (Some 1) c = Done tt told
  /\ Console.repeat_every_time 1 (Some 1) c = Done tt told
  /\ Console.start_at_time 1 (Some (8, 0)) "n" c = Done tt told.
Proof.
  exact (start_without_script_only_warns
           (Gui.boot nine_am) (Console.boot nine_am) 1 (Some 1) (Some (8, 0))
           "n" eq_refl eq_refl).
Defined.

(** C7. "Stop All" with two children tracked, one of which cannot be
    signalled, and a launch scheduled for ten o'clock: the call returns,
    the first child is terminated, the failure on the second is
    swallowed, the tracked list is empty and both [QTimer] objects are
    stopped; the single-shot timer is still armed. *)
Theorem stop_all_best_effort_but_single_shot_armed :
  exists m0 m,
    Gui.run [Gui.PickFile "/bin/sleep"; Gui.Click Gui.Close;
             Gui.Click Gui.Repeat; Gui.SetTime (Gui.QTime_hms 10 0 0);
             Gui.Click Gui.Schedule] (Gui.boot nine_am_guarded)
    = Done tt m0
    /\ Gui.running_processes (self m0) = [100%nat; 101%nat]
    /\ Gui.click Gui.StopAll m0 = Done tt m
    /\ terminations (out m) = [Terminated (clock nine_am_guarded) 100%nat]
    /\ Gui.running_processes (self m) = []
    /\ Gui.active (Gui.timer (self m)) = false
    /\ Gui.active (Gui.schedule_timer (self m)) = false
    /\ Gui.pending (self m)
       = [(clock nine_am_guarded + 1 * hour, Gui.Shot 0)].
Proof. session. Qed.

(** C8. When [Popen] fails with an [OSError] of text [msg]:
    - each function that launches catches it and returns: in the window
      [run_script] and [run_scheduled_script] write "Error running script:
      msg" and "Error running scheduled script: msg" to the status line,
      at the console [run_script] prints "Error running script: msg" and
      returns [None]; nothing else of the object, the host or the trace
      changes;
    - whatever the user and the timers do next, in a wired window no call
      raises and the window stays wired, and window and console end as
      they would have without the attempt, up to the text of the status
      line and that one printed line;
    - but the report of the window's [run_script] is never seen: its only
      callers, [start_close_timer] and [start_repeat_timer], call it after
      they have started the timer and turned the button, and write their
      own text to the status line right after it. With a script that
      cannot be started they return with "Running script for N minutes"
      ("Script will repeat every N minutes") in the status line, the
      timer running, the button reading "Stop ..." and "Stop All" enabled,
      and no child. At the console [close_after_time] prints the error
      and arms nothing. *)
Theorem failed_launch_is_caught_but_the_window_hides_it :
  forall (g : Machine Gui.ScriptTimer) (c : Machine Console.SimpleScriptTimer)
         (msg msg' : string),
    Text.assoc (Gui.script_path (self g)) (spawn_errors (os g)) = Some msg ->
    Text.assoc (Console.script_path (self c)) (spawn_errors (os c))
    = Some msg' ->
    (Gui.run_script g
     = Done tt (with_status ("Error running script: " ++ msg) g)
     /\ Gui.run_scheduled_script g
        = Done tt (with_status ("Error running scheduled script: " ++ msg) g)
     /\ Console.run_script c
        = Done None (logged c (Printed ("Error running script: " ++ msg'))))
    /\ (forall inputs,
          GuiSpec.same_end
            (Gui.run inputs (final (Gui.run_script g)))
            (Gui.run inputs g)
          /\ GuiSpec.same_end
               (Gui.run inputs (final (Gui.run_scheduled_script g)))
               (Gui.run inputs g))
    /\ (forall inputs,
          GuiSpec.wired (self g) ->
          (exists m,
             Gui.run inputs (final (Gui.run_script g)) = Done tt m
             /\ GuiSpec.wired (self m))
          /\ (exists m,
                Gui.run inputs (final (Gui.run_scheduled_script g)) = Done tt m
                /\ GuiSpec.wired (self m)))
    /\ (forall fuel minutes time answer line,
          let e := Printed ("Error running script: " ++ msg') in
          ConsoleSpec.same_but_line (Console.select_script line) c e
          /\ ConsoleSpec.same_but_line Console.run_script c e
          /\ ConsoleSpec.same_but_line
               (Console.close_after_time fuel minutes) c e
          /\ ConsoleSpec.same_but_line
               (Console.repeat_every_time fuel minutes) c e
          /\ ConsoleSpec.same_but_line
               (Console.start_at_time fuel time answer) c e)
    /\ (GuiSpec.wired (self g) ->
        Text.truthy (Gui.script_path (self g)) = true ->
        (exists m,
           Gui.start_close_timer g = Done tt m
           /\ Gui.status_label (self m)
              = "Running script for "
                ++ Text.of_int (Gui.close_time_spin (self g)) ++ " minutes"
           /\ Gui.timer (self m)
              = Gui.mkQTimer true (Gui.close_time_spin (self g) * 60000)
                  (clock (os g) + Gui.close_time_spin (self g) * 60000 * 1000)
                  [Gui.Slot_check_processes]
           /\ Gui.text (Gui.close_button (self m)) = "Stop Close Timer"
           /\ Gui.enabled (Gui.stop_button (self m)) = true
           /\ Gui.running_processes (self m) = Gui.running_processes (self g)
           /\ os m = os g
           /\ out m = out g)
        /\ (exists m,
              Gui.start_repeat_timer g = Done tt m
              /\ Gui.status_label (self m)
                 = "Script will repeat every "
                   ++ Text.of_int (Gui.repeat_time_spin (self g))
                   ++ " minutes"
              /\ Gui.timer (self m)
                 = Gui.mkQTimer true (Gui.repeat_time_spin (self g) * 60000)
                     (clock (os g)
                      + Gui.repeat_time_spin (self g) * 60000 * 1000)
                     [Gui.Slot_check_processes]
              /\ Gui.text (Gui.repeat_button (self m)) = "Stop Repeat Timer"
              /\ Gui.enabled (Gui.stop_button (self m)) = true
              /\ Gui.running_processes (self m)
                 = Gui.running_processes (self g)
              /\ os m = os g
              /\ out m = out g))
    /\ (Text.truthy (Console.script_path (self c)) = true ->
        forall fuel minutes,
          Console.close_after_time fuel (Some minutes) c
          = Done tt
              (logged
                 (logged c
                    (Printed ("Running script for " ++ Text.of_int minutes
                              ++ " minutes...")))
                 (Printed ("Error running script: " ++ msg')))).
Proof.
  intros g c msg msg' Eg Ec.
  rewrite (gui_run_script_failure g msg Eg),
          (gui_run_scheduled_script_failure g msg Eg),
          (console_run_script_failure c msg' Ec).
  cbn [final].
  assert (As_ : forall s, GuiSpec.alike (with_status s g) g).
  { intros s. split; [|split; reflexivity].
    unfold GuiSpec.same_but_status, with_status. cbn [self].
    destruct (self g); reflexivity. }
  assert (Aw : forall s, GuiSpec.wired (self g) ->
                         GuiSpec.wired (self (with_status s g))).
  { intros s W. unfold with_status. cbn [self].
    change (GuiSpec.wired
              (GuiSpec.tracking (Gui.running_processes (self g)) s (self g))).
    apply GuiFacts.tracking_wired, W. }
  split; [repeat split|].
  split; [|split; [|split; [|split]]].
  - intros inputs. split; apply GuiFacts.blind_run, As_.
  - intros inputs W. split; apply GuiFacts.run_keeps, Aw, W.
  - intros fuel minutes time answer line. cbv zeta.
    repeat split; apply ConsoleFacts.traceless_same_but_line;
      auto using ConsoleFacts.traceless_select_script,
        ConsoleFacts.traceless_run_script,
        ConsoleFacts.traceless_close_after_time,
        ConsoleFacts.traceless_repeat_every_time,
        ConsoleFacts.traceless_start_at_time.
  - intros W Ep. split.
    + GuiFacts.open_wired g W;
        unfold Gui.start_close_timer, Gui.run_script;
        GuiFacts.run_gui; rewrite Ep; cbn [negb]; GuiFacts.run_gui;
        rewrite Eg; GuiFacts.crunch;
        (eexists; repeat split).
    + GuiFacts.open_wired g W;
        unfold Gui.start_repeat_timer, Gui.run_script;
        GuiFacts.run_gui; rewrite Ep; cbn [negb]; GuiFacts.run_gui;
        rewrite Eg; GuiFacts.crunch;
        (eexists; repeat split).
  - intros Ep fuel minutes.
    unfold Console.close_after_time, Console.print. run_py.
    rewrite Ep. cbn [negb]. run_py.
    pose proof (console_run_script_failure
                  (mkMachine (self c) (os c)
                     (out c ++ [Printed ("Running script for "
                                         ++ Text.of_int minutes
                                         ++ " minutes...")]))
                  msg' Ec) as E.
    cbn [self os out] in E. rewrite E. reflexivity.
Qed.

Lemma failed_launch_is_caught_but_the_window_hides_it_witness :
  let g := final (Gui.run [Gui.PickFile "/locked"] (Gui.boot nine_am)) in
  let c := locked_console in
  let msg := "[Errno 13] Permission denied: '/locked'" in
  (exists m,
     Gui.run [Gui.PickFile "/locked"; Gui.Click Gui.Close] (Gui.boot nine_am)
     = Done tt m
     /\ Gui.status_label (self m) = "Running script for 10 minutes"
     /\ Gui.pending (self m) = [(clock nine_am + 10 * minute, Gui.TheTimer)]
     /\ Gui.running_processes (self m) = []
     /\ out m = [])
  /\ (Gui.run_script g
      = Done tt (with_status ("Error running script: " ++ msg) g)
      /\ Gui.run_scheduled_script g
         = Done tt (with_status ("Error running scheduled script: " ++ msg) g)
      /\ Console.run_script c
         = Done None (logged c (Printed ("Error running script: " ++ msg))))
  /\ (forall inputs,
        GuiSpec.same_end
          (Gui.run inputs (final (Gui.run_script g)))
          (Gui.run inputs g)
        /\ GuiSpec.same_end
             (Gui.run inputs (final (Gui.run_scheduled_script g)))
             (Gui.run inputs g))
  /\ (forall inputs,
        (exists m,
           Gui.run inputs (final (Gui.run_script g)) = Done tt m
           /\ GuiSpec.wired (self m))
        /\ (exists m,
              Gui.run inputs (final (Gui.run_scheduled_script g)) = Done tt m
              /\ GuiSpec.wired (self m)))
  /\ (forall fuel minutes time answer line,
        let e := Printed ("Error running script: " ++ msg) in
        ConsoleSpec.same_but_line (Console.select_script line) c e
        /\ ConsoleSpec.same_but_line Console.run_script c e
        /\ ConsoleSpec.same_but_line
             (Console.close_after_time fuel minutes) c e
        /\ ConsoleSpec.same_but_line
             (Console.repeat_every_time fuel minutes) c e
        /\ ConsoleSpec.same_but_line
             (Console.start_at_time fuel time answer) c e)
  /\ ((exists m,
         Gui.start_close_timer g = Done tt m
         /\ Gui.status_label (self m)
            = "Running script for "
              ++ Text.of_int (Gui.close_time_spin (self g)) ++ " minutes"
         /\ Gui.timer (self m)
            = Gui.mkQTimer true (Gui.close_time_spin (self g) * 60000)
                (clock (os g) + Gui.close_time_spin (self g) * 60000 * 1000)
                [Gui.Slot_check_processes]
         /\ Gui.text (Gui.close_button (self m)) = "Stop Close Timer"
         /\ Gui.enabled (Gui.stop_button (self m)) = true
         /\ Gui.running_processes (self m) = Gui.running_processes (self g)
         /\ os m = os g
         /\ out m = out g)
      /\ (exists m,
            Gui.start_repeat_timer g = Done tt m
            /\ Gui.status_label (self m)
               = "Script will repeat every "
                 ++ Text.of_int (Gui.repeat_time_spin (self g))
                 ++ " minutes"
            /\ Gui.timer (self m)
               = Gui.mkQTimer true (Gui.repeat_time_spin (self g) * 60000)
                   (clock (os g)
                    + Gui.repeat_time_spin (self g) * 60000 * 1000)
                   [Gui.Slot_check_processes]
            /\ Gui.text (Gui.repeat_button (self m)) = "Stop Repeat Timer"
            /\ Gui.enabled (Gui.stop_button (self m)) = true
            /\ Gui.running_processes (self m)
               = Gui.running_processes (self g)
            /\ os m = os g
            /\ out m = out g))
  /\ (forall fuel minutes,
        Console.close_after_time fuel (Some minutes) c
        = Done tt
            (logged
               (logged c
                  (Printed ("Running script for " ++ Text.of_int minutes
                            ++ " minutes...")))
               (Printed ("Error running script: " ++ msg)))).
Proof.
  assert (W : GuiSpec.wired
                (self (final (Gui.run [Gui.PickFile "/locked"]
                                (Gui.boot nine_am))))).
  { destruct (GuiFacts.window_never_raises nine_am [Gui.PickFile "/locked"])
      as (m & E & W).
    rewrite E. exact W. }
  destruct (failed_launch_is_caught_but_the_window_hides_it
              (final (Gui.run [Gui.PickFile "/locked"] (Gui.boot nine_am)))
              locked_console
              "[Errno 13] Permission denied: '/locked'"
              "[Errno 13] Permission denied: '/locked'" eq_refl eq_refl)
    as (Caught & Same & Wired & Line & Hidden & Console_).
  split; [session|].
  split; [exact Caught|].
  split; [exact Same|].
  split; [exact (fun inputs => Wired inputs W)|].
  split; [exact Line|].
  split; [exact (Hidden W eq_refl) | exact (Console_ eq_refl)].
Defined.

(** C9, as the code has it not. "Close after time" started, then a daily
    "Start at" for ten o'clock: the interval timer of the first and both
    timers of the second are armed at once, the two buttons both read
    "Stop", and the one child launched so far is in the one tracked list. *)
Lemma close_and_schedule_armed_together :
  exists m,
    Gui.run [Gui.PickFile "/bin/sleep"; Gui.Click Gui.Close;
             Gui.SetTime (Gui.QTime_hms 10 0 0); Gui.SetDaily true;
             Gui.Click Gui.Schedule] (Gui.boot nine_am)
    = Done tt m
    /\ Gui.text (Gui.close_button (self m)) = "Stop Close Timer"
    /\ Gui.text (Gui.schedule_button (self m)) = "Stop Schedule Timer"
    /\ Gui.pending (self m)
       = [(clock nine_am + 10 * minute, Gui.TheTimer);
          (clock nine_am + 24 * hour, Gui.ScheduleTimer);
          (clock nine_am + 1 * hour, Gui.Shot 0)]
    /\ Gui.running_processes (self m) = [100%nat].
Proof. session. Qed.

(** C9, amended. In a wired window with a script selected:
    - "Close after time" and "Run every x time" arm the same [QTimer],
      [self.timer]: starting either one restarts it with that policy's
      interval, whatever was armed on it before, so the two are never
      armed side by side; neither touches the timers of "Start at";
    - "Start at" arms timers of its own: a single-shot timer for the time
      of the time field (one whose delay is negative is refused), and,
      with "Repeat daily" checked, [self.schedule_timer], started for 24
      hours with [run_scheduled_script] connected once more; it leaves
      [self.timer] as it is and launches nothing itself, so it can be
      armed together with one of the other two;
    - all launches go to the one list [running_processes]: the launch
      "Close after time" and "Run every x time" make at once, and, for a
      script that can be started, the launch of each single-shot timer
      that fires and the launches of [self.schedule_timer] when it times
      out, append the new children to the list there is. *)
Theorem interval_timer_is_shared_schedule_is_apart :
  forall (g : Machine Gui.ScriptTimer),
    Text.truthy (Gui.script_path (self g)) = true ->
    GuiSpec.wired (self g) ->
    let tracked := Gui.running_processes (self g) in
    let launched :=
      match Text.assoc (Gui.script_path (self g)) (spawn_errors (os g)) with
      | Some _ => tracked
      | None => (tracked ++ [next_pid (os g)])%list
      end in
    (exists m,
       Gui.start_close_timer g = Done tt m
       /\ Gui.timer (self m)
          = Gui.mkQTimer true (Gui.close_time_spin (self g) * 60000)
              (clock (os g) + Gui.close_time_spin (self g) * 60000 * 1000)
              [Gui.Slot_check_processes]
       /\ Gui.schedule_timer (self m) = Gui.schedule_timer (self g)
       /\ Gui.single_shots (self m) = Gui.single_shots (self g)
       /\ Gui.running_processes (self m) = launched)
    /\ (exists m,
          Gui.start_repeat_timer g = Done tt m
          /\ Gui.timer (self m)
             = Gui.mkQTimer true (Gui.repeat_time_spin (self g) * 60000)
                 (clock (os g) + Gui.repeat_time_spin (self g) * 60000 * 1000)
                 [Gui.Slot_check_processes]
          /\ Gui.schedule_timer (self m) = Gui.schedule_timer (self g)
          /\ Gui.single_shots (self m) = Gui.single_shots (self g)
          /\ Gui.running_processes (self m) = launched)
    /\ (exists m,
          Gui.start_schedule_timer g = Done tt m
          /\ Gui.timer (self m) = Gui.timer (self g)
          /\ Gui.single_shots (self m)
             = (let delay :=
                  Gui.time_diff (Gui.time_edit (self g))
                                (Gui.currentTime (os g)) in
                if delay <? 0 then Gui.single_shots (self g)
                else (Gui.single_shots (self g)
                      ++ [(clock (os g) + delay * 1000,
                           Gui.Slot_run_scheduled_script)])%list)
          /\ Gui.schedule_timer (self m)
             = (if Gui.schedule_checkbox (self g)
                then Gui.mkQTimer true 86400000
                       (clock (os g) + 86400000 * 1000)
                       (Gui.timeout (Gui.schedule_timer (self g))
                        ++ [Gui.Slot_run_scheduled_script])
                else Gui.schedule_timer (self g))
          /\ Gui.running_processes (self m) = tracked
          /\ launches (out m) = launches (out g))
    /\ (Text.assoc (Gui.script_path (self g)) (spawn_errors (os g)) = None ->
        (forall i t s,
           nth_error (Gui.single_shots (self g)) i = Some (t, s) ->
           exists m,
             Gui.fire (Gui.Shot i) g = Done tt m
             /\ launches (out m)
                = (launches (out g)
                   ++ [Launched (clock (os g)) (next_pid (os g))])%list
             /\ Gui.running_processes (self m)
                = (tracked ++ [next_pid (os g)])%list)
        /\ (exists m,
              Gui.fire Gui.ScheduleTimer g = Done tt m
              /\ out m
                 = (out g
                    ++ map (Launched (clock (os g)))
                         (seq (next_pid (os g))
                            (List.length
                               (Gui.timeout (Gui.schedule_timer (self g))))))%list
              /\ Gui.running_processes (self m)
                 = (tracked
                    ++ seq (next_pid (os g))
                         (List.length
                            (Gui.timeout (Gui.schedule_timer (self g)))))%list)).
Proof.
  intros g Ep W tracked launched. subst tracked launched.
  split; [|split; [|split]].
  - GuiFacts.open_wired g W;
      unfold Gui.start_close_timer, Gui.run_script;
      GuiFacts.run_gui; rewrite Ep; cbn [negb]; GuiFacts.crunch;
      (eexists; repeat split).
  - GuiFacts.open_wired g W;
      unfold Gui.start_repeat_timer, Gui.run_script;
      GuiFacts.run_gui; rewrite Ep; cbn [negb]; GuiFacts.crunch;
      (eexists; repeat split).
  - GuiFacts.open_wired g W;
      unfold Gui.start_schedule_timer;
      GuiFacts.run_gui; rewrite Ep; cbn [negb]; GuiFacts.crunch;
      (eexists; repeat split);
      rewrite launches_app; cbn; apply app_nil_r.
  - intros Ea. split.
    + intros i t s E.
      destruct (GuiTimers.fire_shot_spec g i t s W E Ea)
        as (m & F & Eo & Er & _).
      exists m. split; [exact F|]. rewrite Eo, launches_app. split; auto.
    + destruct (GuiTimers.fire_schedule_timer_spec g W Ea)
        as (m & F & Eo & Er & _).
      exists m. split; [exact F|]. split; assumption.
Qed.

Lemma interval_timer_is_shared_schedule_is_apart_witness :
  let g := final (Gui.run [Gui.Click Gui.Schedule] daily_window) in
  let tracked := Gui.running_processes (self g) in
  let launched := (tracked ++ [next_pid (os g)])%list in
  (Gui.running_processes (self g) = []
   /\ Gui.pending (self g)
      = [(clock nine_am + 24 * hour, Gui.ScheduleTimer);
         (clock nine_am + 1 * hour, Gui.Shot 0)])
  /\ (exists m,
        Gui.start_close_timer g = Done tt m
        /\ Gui.timer (self m)
           = Gui.mkQTimer true (Gui.close_time_spin (self g) * 60000)
               (clock (os g) + Gui.close_time_spin (self g) * 60000 * 1000)
               [Gui.Slot_check_processes]
        /\ Gui.schedule_timer (self m) = Gui.schedule_timer (self g)
        /\ Gui.single_shots (self m) = Gui.single_shots (self g)
        /\ Gui.running_processes (self m) = launched)
  /\ (exists m,
        Gui.start_repeat_timer g = Done tt m
        /\ Gui.timer (self m)
           = Gui.mkQTimer true (Gui.repeat_time_spin (self g) * 60000)
               (clock (os g) + Gui.repeat_time_spin (self g) * 60000 * 1000)
               [Gui.Slot_check_processes]
        /\ Gui.schedule_timer (self m) = Gui.schedule_timer (self g)
        /\ Gui.single_shots (self m) = Gui.single_shots (self g)
        /\ Gui.running_processes (self m) = launched)
  /\ (exists m,
        Gui.start_schedule_timer g = Done tt m
        /\ Gui.timer (self m) = Gui.timer (self g)
        /\ Gui.single_shots (self m)
           = [(clock nine_am + 1 * hour, Gui.Slot_run_scheduled_script);
              (clock nine_am + 1 * hour, Gui.Slot_run_scheduled_script)]
        /\ Gui.schedule_timer (self m)
           = Gui.mkQTimer true 86400000 (clock nine_am + 24 * hour)
               [Gui.Slot_run_scheduled_script; Gui.Slot_run_scheduled_script]
        /\ Gui.running_processes (self m) = tracked
        /\ launches (out m) = launches (out g))
  /\ (exists m,
        Gui.fire (Gui.Shot 0) g = Done tt m
        /\ launches (out m)
           = (launches (out g)
              ++ [Launched (clock (os g)) (next_pid (os g))])%list
        /\ Gui.running_processes (self m) = launched)
  /\ (exists m,
        Gui.fire Gui.ScheduleTimer g = Done tt m
        /\ out m = (out g ++ [Launched (clock (os g)) (next_pid (os g))])%list
        /\ Gui.running_processes (self m) = launched).
Proof.
  assert (W : GuiSpec.wired
                (self (final (Gui.run [Gui.Click Gui.Schedule]
                                daily_window)))).
  { assert (W0 : GuiSpec.wired (self daily_window))
      by (constructor; cbn; auto; constructor).
    destruct (GuiFacts.run_keeps [Gui.Click Gui.Schedule] daily_window W0)
      as (m & E & W).
    rewrite E. exact W. }
  destruct (interval_timer_is_shared_schedule_is_apart
              (final (Gui.run [Gui.Click Gui.Schedule] daily_window))
              eq_refl W)
    as (Close_ & Repeat_ & Schedule_ & Fires).
  destruct (Fires eq_refl) as [Shots Daily].
  split; [split; reflexivity|].
  split; [exact Close_|].
  split; [exact Repeat_|].
  split; [exact Schedule_|].
  split; [exact (Shots 0%nat _ _ eq_refl) | exact Daily].
Defined.

(** C10. The tracked list after a launch attempt, in the window
    ([run_script], [run_scheduled_script]) and at the console
    ([run_script]): when [Popen] fails it is the list there was before;
    when [Popen] succeeds it is that list with the new handle at its end. *)
Theorem tracked_list_after_a_launch_attempt :
  forall (g : Machine Gui.ScriptTimer) (c : Machine Console.SimpleScriptTimer),
    (let before := Gui.running_processes (self g) in
     let after :=
       match Text.assoc (Gui.script_path (self g)) (spawn_errors (os g)) with
       | Some _ => before
       | None => (before ++ [next_pid (os g)])%list
       end in
     Gui.running_processes (self (final (Gui.run_script g))) = after
     /\ Gui.running_processes (self (final (Gui.run_scheduled_script g)))
        = after)
    /\
    (let before := Console.running_processes (self c) in
     Console.running_processes (self (final (Console.run_script c)))
     = match Text.assoc (Console.script_path (self c))
                        (spawn_errors (os c)) with
       | Some _ => before
       | None => (before ++ [next_pid (os c)])%list
       end).
Proof.
  intros g c. cbv zeta. repeat split.
  - destruct (Text.assoc _ _) eqn:E.
    + rewrite (gui_run_script_failure g s E). reflexivity.
    + rewrite (gui_run_script_success g E). reflexivity.
  - destruct (Text.assoc _ _) eqn:E.
    + rewrite (gui_run_scheduled_script_failure g s E). reflexivity.
    + rewrite (gui_run_scheduled_script_success g E). reflexivity.
  - destruct (Text.assoc _ _) eqn:E.
    + rewrite (console_run_script_failure c s E). reflexivity.
    + rewrite (console_run_script_success c E). reflexivity.
Qed.

(* ===================================================================== *)
(** ** Further properties of the two programs *)
(* ===================================================================== *)

(* --------------------------------------------------------------------- *)
(** *** The window *)
(* --------------------------------------------------------------------- *)

Module GuiLaws.

Import Gui GuiSpec GuiFacts.

(** **** [check_processes] keeps what is still running *)

Lemma remove_first_app p l1 l2 :
  ~ In p l1 -> remove_first p (l1 ++ p :: l2) = Some (l1 ++ l2)%list.
Proof.
  induction l1 as [|x l1 IH]; cbn; intros H.
  - rewrite Nat.eqb_refl. reflexivity.
  - destruct (Nat.eqb_spec p x) as [->|_]; [exfalso; apply H; left; reflexivity|].
    rewrite IH; [reflexivity|]. intros K. apply H. right. exact K.
Qed.

Lemma filter_alive_skip w seen x rest :
  ended w x = true ->
  filter (alive w) (seen ++ x :: rest) = filter (alive w) (seen ++ rest).
Proof.
  intros E. rewrite !filter_app. cbn [filter]. unfold alive at 2.
  rewrite E. reflexivity.
Qed.

Lemma filter_alive_keep w seen x rest :
  ended w x = false ->
  (filter (alive w) seen ++ x :: rest)%list
  = (filter (alive w) (seen ++ [x]) ++ rest)%list.
Proof.
  intros E. rewrite filter_app. cbn [filter]. unfold alive at 3.
  rewrite E. cbn [negb]. rewrite <- app_assoc. reflexivity.
Qed.

Lemma check_loop_filter rest :
  forall seen m,
    running_processes (self m) = (filter (alive (os m)) seen ++ rest)%list ->
    for_each rest check_process m
    = Done tt
        (mkMachine
           (tracking (filter (alive (os m)) (seen ++ rest))
              (if existsb (ended (os m)) rest
               then "Script completed execution"
               else status_label (self m))
              (self m))
           (os m) (out m)).
Proof.
  induction rest as [|x rest IH]; intros seen m Hm.
  - cbn [for_each existsb]. rewrite app_nil_r in *. rewrite <- Hm.
    rewrite tracking_same. destruct m; reflexivity.
  - cbn [for_each existsb]. unfold bind, check_process at 1, setStatus.
    run_py. destruct (ended (os m) x) eqn:E.
    + rewrite Hm. rewrite remove_first_app.
      2:{ intros K. apply filter_In in K. destruct K as [_ K].
          unfold alive in K. rewrite E in K. discriminate. }
      run_py.
      change (set_status_label "Script completed execution"
                (set_running_processes (filter (alive (os m)) seen ++ rest)
                   (self m)))
        with (tracking (filter (alive (os m)) seen ++ rest)
                "Script completed execution" (self m)).
      rewrite (IH seen); cbn [self os out].
      * rewrite tracking_tracking, (filter_alive_skip _ _ _ _ E).
        cbn [orb]. destruct (self m); cbn.
        destruct (existsb _ rest); reflexivity.
      * apply tracking_running.
    + run_py. rewrite (IH (seen ++ [x])%list).
      * cbn [orb]. rewrite <- app_assoc. reflexivity.
      * rewrite Hm. apply filter_alive_keep, E.
Qed.

Lemma check_processes_filter m :
  check_processes m
  = Done tt
      (mkMachine
         (tracking (filter (alive (os m)) (running_processes (self m)))
            (if existsb (ended (os m)) (running_processes (self m))
             then "Script completed execution"
             else status_label (self m))
            (self m))
         (os m) (out m)).
Proof.
  unfold check_processes. run_py.
  apply (check_loop_filter _ [] m). reflexivity.
Qed.

(** **** Captions and connections, over every session *)

Section Kept.

Variable P : ScriptTimer -> Prop.
Variable R : Machine ScriptTimer -> Machine ScriptTimer -> Prop.
Hypothesis R_refl : forall m, R m m.
Hypothesis R_trans : forall a b c, R a b -> R b c -> R a c.

Lemma kept_ret : kept P R (ret tt).
Proof. intros m H. exists m. auto. Qed.

Lemma kept_bind (c k : G unit) :
  kept P R c -> kept P R k -> kept P R (bind c (fun _ => k)).
Proof.
  intros Hc Hk m H. unfold bind.
  destruct (Hc m H) as (m1 & -> & H1 & R1).
  destruct (Hk m1 H1) as (m2 & -> & H2 & R2).
  exists m2. eauto.
Qed.

Lemma kept_for_each {A} (l : list A) (body : A -> G unit) :
  (forall x, In x l -> kept P R (body x)) -> kept P R (for_each l body).
Proof.
  induction l as [|x l IH]; intros H; cbn [for_each].
  - apply kept_ret.
  - apply kept_bind; [apply H; left; reflexivity|].
    apply IH. intros y Hy. apply H. right. exact Hy.
Qed.

End Kept.

Lemma connections_grow_refl m : connections_grow m m.
Proof. exists 0%nat. cbn. rewrite app_nil_r. reflexivity. Qed.

Lemma connections_grow_trans a b c :
  connections_grow a b -> connections_grow b c -> connections_grow a c.
Proof.
  intros [k Hk] [j Hj]. exists (k + j)%nat.
  rewrite Hj, Hk, <- app_assoc, repeat_app. reflexivity.
Qed.

Lemma no_signal_refl m : no_signal m m.
Proof. reflexivity. Qed.

Lemma no_signal_trans a b c : no_signal a b -> no_signal b c -> no_signal a c.
Proof. unfold no_signal. intros H K. rewrite K. exact H. Qed.

Lemma init_sound w : sound (init w).
Proof.
  split; [apply init_wired|]. unfold captioned. cbn. auto 10.
Qed.

Ltac open_sound m H :=
  let W := fresh "W" in
  let K := fresh "K" in
  destruct H as [W K];
  open_window m;
  destruct W as [_ _ _ Hstop Ht Hst Hsh];
  destruct K as ([[? ?]|[? ?]] & [[? ?]|[? ?]] & [[? ?]|[? ?]]);
  cbn [self os out script_path timer schedule_timer single_shots
       running_processes script_label close_time_spin close_button
       repeat_time_spin repeat_button time_edit schedule_checkbox
       schedule_button status_label stop_button
       clicked text enabled active interval due timeout] in *;
  subst.

Ltac show_fields :=
  cbn [self os out script_path timer schedule_timer
       single_shots running_processes script_label close_time_spin
       close_button repeat_time_spin repeat_button time_edit
       schedule_checkbox schedule_button status_label stop_button
       clicked text enabled active interval due timeout app].

Ltac settle_sound :=
  eexists; split; [reflexivity|]; split;
  [ split;
    [ constructor; show_fields; auto; only_run_scheduled
    | unfold captioned; show_fields; auto 10 ]
  | first [ exists 0%nat; show_fields; cbn [repeat]; rewrite app_nil_r; reflexivity
          | exists 1%nat; reflexivity ] ].

Abbreviation steady := (kept sound connections_grow).

Lemma run_scheduled_script_steady : steady run_scheduled_script.
Proof.
  intros m H. open_sound m H; unfold run_scheduled_script; crunch; settle_sound.
Qed.


Lemma sound_tracking l s g : sound g -> sound (tracking l s g).
Proof.
  intros [W K]. split; [apply tracking_wired, W|].
  destruct g; exact K.
Qed.

Lemma check_processes_steady : steady check_processes.
Proof.
  intros m H. destruct (check_processes_quiet m) as (l & s & ->).
  eexists. split; [reflexivity|]. cbn [self].
  split; [apply sound_tracking, H|].
  exists 0%nat. destruct (self m); cbn. rewrite app_nil_r. reflexivity.
Qed.

Lemma start_close_timer_steady : steady start_close_timer.
Proof.
  intros m H.
  open_sound m H; unfold start_close_timer, run_script; crunch; settle_sound.
Qed.

Lemma stop_close_timer_steady : steady stop_close_timer.
Proof.
  intros m H. open_sound m H; unfold stop_close_timer; crunch; settle_sound.
Qed.

Lemma start_repeat_timer_steady : steady start_repeat_timer.
Proof.
  intros m H.
  open_sound m H; unfold start_repeat_timer, run_script; crunch; settle_sound.
Qed.

Lemma stop_repeat_timer_steady : steady stop_repeat_timer.
Proof.
  intros m H. open_sound m H; unfold stop_repeat_timer; crunch; settle_sound.
Qed.

Lemma start_schedule_timer_steady : steady start_schedule_timer.
Proof.
  intros m H.
  open_sound m H; unfold start_schedule_timer; crunch; settle_sound.
Qed.

Lemma stop_schedule_timer_steady : steady stop_schedule_timer.
Proof.
  intros m H. open_sound m H; unfold stop_schedule_timer; crunch; settle_sound.
Qed.

Lemma stop_all_steady : steady stop_all.
Proof.
  intros m H. unfold stop_all. unfold bind at 1. unfold get_self.
  unfold bind at 1.
  destruct (stop_loop_spec (running_processes (self m)) m)
    as (w' & tr & -> & _ & _ & _).
  generalize (out m ++ tr)%list; intros tr'.
  open_sound m H; crunch; settle_sound.
Qed.

Lemma run_slot_steady s : steady (run_slot s).
Proof.
  destruct s; cbn [run_slot];
    auto using start_close_timer_steady, stop_close_timer_steady,
      start_repeat_timer_steady, stop_repeat_timer_steady,
      start_schedule_timer_steady, stop_schedule_timer_steady,
      run_scheduled_script_steady, check_processes_steady, stop_all_steady.
Qed.

Lemma emit_signal_steady l : steady (emit_signal l).
Proof.
  apply (kept_for_each _ _ connections_grow_refl connections_grow_trans).
  intros x _. apply run_slot_steady.
Qed.

Lemma click_steady r : steady (click r).
Proof.
  intros m H. unfold click. run_py.
  destruct (enabled (button r (self m))).
  - apply emit_signal_steady, H.
  - exists m. auto using connections_grow_refl.
Qed.

Lemma steady_bind (c k : G unit) :
  steady c -> steady k -> steady (bind c (fun _ => k)).
Proof. apply kept_bind, connections_grow_trans. Qed.

Lemma steady_modify (f : ScriptTimer -> ScriptTimer) :
  (forall g, sound g -> sound (f g)) ->
  (forall g, timeout (schedule_timer (f g)) = timeout (schedule_timer g)) ->
  steady (modify_self f).
Proof.
  intros H E m S.
  eexists. split; [reflexivity|]. split; [apply H, S|].
  exists 0%nat. cbn [self]. rewrite E, app_nil_r. reflexivity.
Qed.

Lemma steady_modify_os (f : World -> World) : steady (modify_os f).
Proof.
  intros m S. eexists. split; [reflexivity|]. split; [exact S|].
  exists 0%nat. cbn [self]. rewrite app_nil_r. reflexivity.
Qed.

Ltac sound_update :=
  let g := fresh "g" in
  let S := fresh "S" in
  intros g S; destruct S as [[? ? ? ? ? ? ?] ?]; destruct g;
  unfold sound, captioned in *;
  cbn [script_path timer schedule_timer single_shots running_processes
       script_label close_time_spin close_button repeat_time_spin
       repeat_button time_edit schedule_checkbox schedule_button
       status_label stop_button set_script_path set_timer
       set_schedule_timer set_single_shots set_running_processes
       set_script_label set_close_time_spin set_close_button
       set_repeat_time_spin set_repeat_button set_time_edit
       set_schedule_checkbox set_schedule_button set_status_label
       set_stop_button QTimer_rearm timeout] in *;
  split; [constructor|];
  cbn [script_path timer schedule_timer single_shots running_processes
       script_label close_time_spin close_button repeat_time_spin
       repeat_button time_edit schedule_checkbox schedule_button
       status_label stop_button QTimer_rearm timeout];
  auto.

Ltac same_connections :=
  let g := fresh "g" in intros g; destruct g; reflexivity.

Lemma steady_after (f : ScriptTimer -> ScriptTimer) (c : G unit) m :
  sound (f (self m)) ->
  timeout (schedule_timer (f (self m))) = timeout (schedule_timer (self m)) ->
  steady c ->
  exists m',
    (modify_self f ;; c) m = Done tt m' /\ sound (self m')
    /\ connections_grow m m'.
Proof.
  intros S E H. unfold bind, modify_self.
  destruct (H (mkMachine (f (self m)) (os m) (out m)) S) as (m' & -> & S' & [k Hk]).
  exists m'. split; [reflexivity|]. split; [exact S'|].
  exists k. rewrite Hk. cbn [self]. rewrite E. reflexivity.
Qed.

Lemma fire_steady src : steady (fire src).
Proof.
  intros m S. unfold fire. unfold bind at 1. unfold get_self.
  pose proof (shots_wired _ (proj1 S)) as Hsh.
  destruct src as [| |i].
  - apply steady_after; [| | apply emit_signal_steady].
    + revert S. generalize (self m). sound_update.
    + destruct (self m); reflexivity.
  - apply steady_after; [| | apply emit_signal_steady].
    + revert S. generalize (self m). sound_update.
    + destruct (self m); reflexivity.
  - destruct (nth_error (single_shots (self m)) i) as [[t x]|] eqn:E.
    + apply steady_after; [| | apply run_slot_steady].
      * pose proof (only_drop_nth _ i _ Hsh) as Hd. clear Hsh E.
        revert S Hd. generalize (drop_nth i (single_shots (self m))).
        generalize (self m). intros g l S Hd. revert g S. sound_update.
      * destruct (self m); reflexivity.
    + exists m. auto using connections_grow_refl.
Qed.

Lemma next_timeout_steady : steady next_timeout.
Proof.
  intros m S. unfold next_timeout. unfold bind at 1. unfold get_self.
  destruct (earliest (pending (self m))) as [[t src]|].
  - unfold bind, sleep_until, modify_os. cbn [self os out].
    destruct (fire_steady src (mkMachine (self m)
                (with_clock (Z.max (clock (os m)) t) (os m)) (out m)) S)
      as (m' & -> & S' & G').
    exists m'. auto.
  - exists m. auto using connections_grow_refl.
Qed.

Lemma select_script_steady f : steady (select_script f).
Proof.
  unfold select_script, setStatus. destruct (Text.truthy f).
  - repeat apply steady_bind;
      (apply steady_modify; [sound_update | same_connections]).
  - apply kept_ret, connections_grow_refl.
Qed.

Lemma step_steady i : steady (step i).
Proof.
  destruct i; cbn [step]; unfold sleep_us;
    auto using select_script_steady, click_steady, next_timeout_steady,
      steady_modify_os;
    (apply steady_modify; [sound_update | same_connections]).
Qed.

Lemma run_steady l : steady (run l).
Proof.
  apply (kept_for_each _ _ connections_grow_refl connections_grow_trans).
  intros i _. apply step_steady.
Qed.

(** **** Nothing but [stop_all] signals a child *)

Abbreviation silent := (kept wired no_signal).

Ltac settle_silent :=
  eexists; split; [reflexivity|]; split;
  [ constructor; show_fields; auto; only_run_scheduled
  | unfold no_signal; show_fields; rewrite ?terminations_app;
    cbn [terminations filter is_termination]; rewrite ?app_nil_r;
    reflexivity ].

Lemma run_scheduled_script_silent : silent run_scheduled_script.
Proof.
  intros m W. open_wired m W; unfold run_scheduled_script; crunch; settle_silent.
Qed.

Lemma check_processes_silent : silent check_processes.
Proof.
  intros m W. destruct (check_processes_quiet m) as (l & s & ->).
  eexists. split; [reflexivity|]. cbn [self].
  split; [apply tracking_wired, W | reflexivity].
Qed.

Lemma start_close_timer_silent : silent start_close_timer.
Proof.
  intros m W.
  open_wired m W; unfold start_close_timer, run_script; crunch; settle_silent.
Qed.

Lemma stop_close_timer_silent : silent stop_close_timer.
Proof.
  intros m W. open_wired m W; unfold stop_close_timer; crunch; settle_silent.
Qed.

Lemma start_repeat_timer_silent : silent start_repeat_timer.
Proof.
  intros m W.
  open_wired m W; unfold start_repeat_timer, run_script; crunch; settle_silent.
Qed.

Lemma stop_repeat_timer_silent : silent stop_repeat_timer.
Proof.
  intros m W. open_wired m W; unfold stop_repeat_timer; crunch; settle_silent.
Qed.

Lemma start_schedule_timer_silent : silent start_schedule_timer.
Proof.
  intros m W.
  open_wired m W; unfold start_schedule_timer; crunch; settle_silent.
Qed.

Lemma stop_schedule_timer_silent : silent stop_schedule_timer.
Proof.
  intros m W. open_wired m W; unfold stop_schedule_timer; crunch; settle_silent.
Qed.

Lemma run_slot_silent s : s <> Slot_stop_all -> silent (run_slot s).
Proof.
  destruct s; cbn [run_slot]; intros H;
    auto using start_close_timer_silent, stop_close_timer_silent,
      start_repeat_timer_silent, stop_repeat_timer_silent,
      start_schedule_timer_silent, stop_schedule_timer_silent,
      run_scheduled_script_silent, check_processes_silent.
  congruence.
Qed.

Lemma emit_signal_silent l : ~ In Slot_stop_all l -> silent (emit_signal l).
Proof.
  intros H. apply (kept_for_each _ _ no_signal_refl no_signal_trans).
  intros x Hx. apply run_slot_silent. intros ->. auto.
Qed.

Lemma click_silent r : r <> StopAll -> silent (click r).
Proof.
  intros Hr m W. unfold click. run_py.
  destruct (enabled (button r (self m))).
  - apply emit_signal_silent; [|exact W].
    destruct W as [Hc Hp Hs _ _ _ _].
    destruct r; cbn [button]; try congruence;
      [destruct Hc as [-> | ->] | destruct Hp as [-> | ->]
       | destruct Hs as [-> | ->]];
      intros [K|[]]; discriminate.
  - exists m. split; [reflexivity|]. split; [exact W | reflexivity].
Qed.

Lemma silent_after (f : ScriptTimer -> ScriptTimer) (c : G unit) m :
  wired (f (self m)) -> silent c ->
  exists m',
    (modify_self f ;; c) m = Done tt m' /\ wired (self m') /\ no_signal m m'.
Proof.
  intros W H. unfold bind, modify_self.
  destruct (H (mkMachine (f (self m)) (os m) (out m)) W) as (m' & -> & W' & N).
  exists m'. auto.
Qed.

Lemma only_not_stop_all l :
  only Slot_run_scheduled_script l -> ~ In Slot_stop_all l.
Proof.
  unfold only. rewrite Forall_forall. intros H K.
  specialize (H _ K). discriminate.
Qed.

Lemma fire_silent src : silent (fire src).
Proof.
  intros m W. unfold fire. unfold bind at 1. unfold get_self.
  pose proof (timer_wired _ W) as Ht.
  pose proof (schedule_timer_wired _ W) as Hs.
  pose proof (shots_wired _ W) as Hsh.
  destruct src as [| |i].
  - apply silent_after.
    + revert W. generalize (self m) at 1 3. field_update.
    + apply emit_signal_silent. rewrite Ht. intros [K|[]]. discriminate.
  - apply silent_after.
    + revert W. generalize (self m) at 1 3. field_update.
    + apply emit_signal_silent, only_not_stop_all, Hs.
  - destruct (nth_error (single_shots (self m)) i) as [[t x]|] eqn:E.
    + apply silent_after.
      * pose proof (only_drop_nth _ i _ Hsh) as Hd. clear Hsh E Ht Hs.
        revert W Hd. generalize (drop_nth i (single_shots (self m))).
        generalize (self m). intros g l W Hd. revert g W. field_update.
      * apply run_slot_silent. rewrite (only_nth _ _ _ _ _ Hsh E). discriminate.
    + exists m. split; [reflexivity|]. split; [exact W | reflexivity].
Qed.

Lemma next_timeout_silent : silent next_timeout.
Proof.
  intros m W. unfold next_timeout. unfold bind at 1. unfold get_self.
  destruct (earliest (pending (self m))) as [[t src]|].
  - unfold bind, sleep_until, modify_os. cbn [self os out].
    destruct (fire_silent src (mkMachine (self m)
                (with_clock (Z.max (clock (os m)) t) (os m)) (out m)) W)
      as (m' & -> & W' & N).
    exists m'. auto.
  - exists m. split; [reflexivity|]. split; [exact W | reflexivity].
Qed.

Lemma silent_modify (f : ScriptTimer -> ScriptTimer) :
  (forall g, wired g -> wired (f g)) -> silent (modify_self f).
Proof.
  intros H m W. eexists. split; [reflexivity|].
  split; [apply H, W | reflexivity].
Qed.

Lemma silent_modify_os (f : World -> World) : silent (modify_os f).
Proof.
  intros m W. eexists. split; [reflexivity|]. split; [exact W | reflexivity].
Qed.

Lemma select_script_silent f : silent (select_script f).
Proof.
  unfold select_script, setStatus. destruct (Text.truthy f).
  - repeat apply (kept_bind _ _ no_signal_trans);
      apply silent_modify; field_update.
  - apply kept_ret, no_signal_refl.
Qed.

Lemma step_silent i : is_stop_all i = false -> silent (step i).
Proof.
  destruct i; cbn [step is_stop_all]; unfold sleep_us; intros H;
    auto using select_script_silent, next_timeout_silent, silent_modify_os;
    try (apply silent_modify; field_update).
  apply click_silent. intros ->. discriminate.
Qed.

Lemma run_silent l :
  forallb (fun i => negb (is_stop_all i)) l = true -> silent (run l).
Proof.
  intros H. apply (kept_for_each _ _ no_signal_refl no_signal_trans).
  intros i Hi. apply step_silent.
  rewrite forallb_forall in H. apply negb_true_iff, H, Hi.
Qed.

(** **** What stopping and scheduling leave behind *)

Lemma stop_close_timer_spec g :
  wired (self g) ->
  exists m,
    stop_close_timer g = Done tt m
    /\ active (timer (self m)) = false
    /\ schedule_timer (self m) = schedule_timer (self g)
    /\ processes_untouched g m
    /\ click StopAll m = Done tt m.
Proof.
  intros W. open_wired g W; unfold stop_close_timer; crunch;
    (eexists; split; [reflexivity|]); unfold processes_untouched, click;
    crunch; repeat split.
Qed.

Lemma stop_repeat_timer_spec g :
  wired (self g) ->
  exists m,
    stop_repeat_timer g = Done tt m
    /\ active (timer (self m)) = false
    /\ schedule_timer (self m) = schedule_timer (self g)
    /\ processes_untouched g m
    /\ click StopAll m = Done tt m.
Proof.
  intros W. open_wired g W; unfold stop_repeat_timer; crunch;
    (eexists; split; [reflexivity|]); unfold processes_untouched, click;
    crunch; repeat split.
Qed.

Lemma stop_schedule_timer_spec g :
  wired (self g) ->
  exists m,
    stop_schedule_timer g = Done tt m
    /\ active (schedule_timer (self m)) = false
    /\ timer (self m) = timer (self g)
    /\ processes_untouched g m
    /\ click StopAll m = Done tt m.
Proof.
  intros W. open_wired g W; unfold stop_schedule_timer; crunch;
    (eexists; split; [reflexivity|]); unfold processes_untouched, click;
    crunch; repeat split.
Qed.

Lemma start_schedule_timer_daily m :
  wired (self m) ->
  Text.truthy (script_path (self m)) = true ->
  schedule_checkbox (self m) = true ->
  exists m',
    start_schedule_timer m = Done tt m'
    /\ schedule_timer (self m')
       = mkQTimer true 86400000 (clock (os m) + 86400000 * 1000)
           (timeout (schedule_timer (self m))
            ++ [Slot_run_scheduled_script])
    /\ running_processes (self m') = running_processes (self m)
    /\ os m' = os m.
Proof.
  intros W Hp Hd.
  open_wired m W; unfold start_schedule_timer; run_gui;
    rewrite Hp; cbn [negb]; crunch; (eexists; repeat split).
Qed.

Lemma currentTime_later w d :
  currentTime (with_clock (clock w + d * 1000) w)
  = (currentTime w + d) mod msecs_per_day.
Proof.
  unfold currentTime, with_clock. cbn [clock].
  rewrite Z.div_add by lia. rewrite Zplus_mod_idemp_l. reflexivity.
Qed.

Lemma start_schedule_timer_future m :
  wired (self m) ->
  Text.truthy (script_path (self m)) = true ->
  currentTime (os m) < time_edit (self m) < msecs_per_day ->
  exists m' t,
    start_schedule_timer m = Done tt m'
    /\ single_shots (self m')
       = (single_shots (self m) ++ [(t, Slot_run_scheduled_script)])%list
    /\ clock (os m) < t < clock (os m) + msecs_per_day * 1000
    /\ currentTime (with_clock t (os m)) = time_edit (self m)
    /\ running_processes (self m') = running_processes (self m)
    /\ os m' = os m
    /\ out m' = out m.
Proof.
  intros W Hp Hlater.
  assert (Hnow : 0 <= currentTime (os m)).
  { unfold currentTime. apply Z.mod_pos_bound. reflexivity. }
  open_wired m W; unfold start_schedule_timer; run_gui;
    rewrite Hp; cbn [negb];
    rewrite time_diff_is_the_difference;
    (destruct (_ <? 0) eqn:E; [apply Z.ltb_lt in E; lia|]);
    crunch;
    (eexists; eexists; split; [reflexivity|]);
    (split; [reflexivity|]);
    (split; [unfold msecs_per_day in *; lia|]);
    (split; [|repeat split]);
    rewrite currentTime_later;
    match goal with
    | |- (?c + (?t - ?c)) mod _ = _ =>
        replace (c + (t - c)) with t by lia
    end;
    apply Z.mod_small; lia.
Qed.

End GuiLaws.

(* --------------------------------------------------------------------- *)
(** *** The console *)
(* --------------------------------------------------------------------- *)

Module ConsoleLaws.

Import Console ConsoleSpec ConsoleFacts.

(** **** The main thread waits: one step of [block] *)

Lemma lookup_app_fresh p l t :
  lookup p l = None -> lookup p (l ++ [(p, t)]) = Some t.
Proof.
  induction l as [|[q u] l IH]; cbn.
  - rewrite Nat.eqb_refl. reflexivity.
  - destruct (Nat.eqb p q); [discriminate | exact IH].
Qed.

Ltac open_console c :=
  let s := fresh "s" in
  let w := fresh "w" in
  destruct c as [s w ?]; destruct s; destruct w;
  cbn [self os out script_path running_processes timers threads
       clock read_cost files spawn_errors next_pid started lifetimes
       exited protected interrupts] in *.

Ltac run_console :=
  cbv beta iota zeta delta
    [bind ret raise hang get_self get_os modify_self modify_os emit
     try_except try_bare try_interrupt Popen finished terminate
     sleep_us sleep_until print datetime_now start_timer cancel
     set_script_path set_running_processes set_timers set_threads
     set_phase];
  cbn [self os out script_path running_processes timers threads
       with_clock with_child with_exited with_interrupts
       clock read_cost files spawn_errors next_pid started lifetimes
       exited protected interrupts str_exn is_Exception
       fires_at function state minutes_of at_phase app List.length
       orb andb negb].

Lemma pick_self s intr bg :
  (forall t, intr = Some t -> s <= t) ->
  (forall u b, bg = Some (u, b) -> s <= u) ->
  pick (Some s) intr bg = WakeSelf s.
Proof.
  intros Hi Hb. unfold pick.
  destruct intr as [t|].
  - specialize (Hi t eq_refl).
    replace (t <? s) with false by (symmetry; apply Z.ltb_ge; lia).
    destruct bg as [[u b]|]; [|reflexivity].
    specialize (Hb u b eq_refl).
    replace (u <? s) with false by (symmetry; apply Z.ltb_ge; lia).
    reflexivity.
  - destruct bg as [[u b]|]; [|reflexivity].
    specialize (Hb u b eq_refl).
    replace (u <? s) with false by (symmetry; apply Z.ltb_ge; lia).
    reflexivity.
Qed.

Lemma pick_interrupt self_at t bg :
  (forall s, self_at = Some s -> t < s) ->
  (forall u b, bg = Some (u, b) -> t <= u) ->
  pick self_at (Some t) bg = WakeInterrupt t.
Proof.
  intros Hs Hb. unfold pick.
  destruct self_at as [s|].
  - specialize (Hs s eq_refl).
    replace (t <? s) with true by (symmetry; apply Z.ltb_lt; lia).
    destruct bg as [[u b]|]; [|reflexivity].
    specialize (Hb u b eq_refl).
    replace (u <? t) with false by (symmetry; apply Z.ltb_ge; lia).
    reflexivity.
  - destruct bg as [[u b]|]; [|reflexivity].
    specialize (Hb u b eq_refl).
    replace (u <? t) with false by (symmetry; apply Z.ltb_ge; lia).
    reflexivity.
Qed.

Lemma pick_background self_at intr u b :
  (forall s, self_at = Some s -> u < s) ->
  (forall t, intr = Some t -> u < t) ->
  pick self_at intr (Some (u, b)) = WakeBackground u b.
Proof.
  intros Hs Hi. unfold pick.
  destruct self_at as [s|], intr as [t|];
    try specialize (Hs s eq_refl); try specialize (Hi t eq_refl).
  - destruct (t <? s);
      [replace (u <? t) with true by (symmetry; apply Z.ltb_lt; lia)
      |replace (u <? s) with true by (symmetry; apply Z.ltb_lt; lia)];
      reflexivity.
  - replace (u <? s) with true by (symmetry; apply Z.ltb_lt; lia).
    reflexivity.
  - replace (u <? t) with true by (symmetry; apply Z.ltb_lt; lia).
    reflexivity.
  - reflexivity.
Qed.

Lemma block_done fuel k m :
  satisfied (os m) (self m) k = true -> block (S fuel) k m = Done tt m.
Proof. intros H. cbn [block]. run_py. rewrite H. reflexivity. Qed.

Lemma block_self fuel k m t :
  satisfied (os m) (self m) k = false ->
  pick (own_wake (os m) k) (hd_error (interrupts (os m)))
       (next_background (os m) (self m)) = WakeSelf t ->
  block (S fuel) k m = sleep_until t m.
Proof. intros H K. cbn [block]. run_py. rewrite H, K. reflexivity. Qed.

Lemma block_interrupt fuel k m t :
  satisfied (os m) (self m) k = false ->
  pick (own_wake (os m) k) (hd_error (interrupts (os m)))
       (next_background (os m) (self m)) = WakeInterrupt t ->
  block (S fuel) k m
  = let m1 :=
      mkMachine (self m)
        (with_interrupts (tl (interrupts (os m)))
           (with_clock (Z.max (clock (os m)) t) (os m)))
        (out m) in
    match k with
    | UntilEnded p =>
        (block fuel (UntilEndedBy p (Z.max (clock (os m)) t + sigint_wait)) ;;
         raise KeyboardInterrupt) m1
    | _ => Raised KeyboardInterrupt m1
    end.
Proof.
  intros H K. cbn [block]. run_py. rewrite H, K. destruct k; reflexivity.
Qed.

Lemma block_background fuel k m t b :
  satisfied (os m) (self m) k = false ->
  pick (own_wake (os m) k) (hd_error (interrupts (os m)))
       (next_background (os m) (self m)) = WakeBackground t b ->
  block (S fuel) k m
  = (run_background b ;; block fuel k)
      (mkMachine (self m) (with_clock (Z.max (clock (os m)) t) (os m))
                 (out m)).
Proof. intros H K. cbn [block]. run_py. rewrite H, K. reflexivity. Qed.

(** What the child [p] of [c] has become on a host. *)
Ltac child_state Hf He :=
  unfold satisfied, ended, own_wake, natural_end, next_background;
  run_console;
  rewrite ?He, ?(lookup_app_fresh _ _ _ Hf);
  run_console.

Lemma close_after_time_deadline fuel minutes c :
  at_rest c -> ready c ->
  interrupts (os c) = [] ->
  (forall d, lookup (next_pid (os c)) (lifetimes (os c)) = Some d ->
     Z.max 0 (minutes * 60 * us_per_second) < d) ->
  let p := next_pid (os c) in
  let t := clock (os c) + Z.max 0 (minutes * 60 * us_per_second) in
  close_after_time (S (S fuel)) (Some minutes) c
  = Done tt
      (mkMachine
         (mkSimpleScriptTimer (script_path (self c))
            (running_processes (self c) ++ [p])
            [mkTimer t (stop_script p) Fired] [])
         (with_exited (p :: exited (os c))
            (with_clock t (with_child p (os c))))
         (out c
          ++ [Printed ("Running script for " ++ Text.of_int minutes
                       ++ " minutes...");
              Launched (clock (os c)) p;
              Printed ("Script started: "
                       ++ Text.basename (script_path (self c)));
              Terminated t p;
              Printed "Script closed after specified time."])).
Proof.
  intros [Ht Hth Hf He Hp] [Hs Ha] Hi Hl p t. subst p t.
  open_console c. subst.
  unfold close_after_time, run_script. run_console.
  rewrite Hs. run_console. rewrite Ha. run_console.
  erewrite block_background; cycle 1.
  - child_state Hf He.
    destruct (lookup next_pid0 lifetimes0) as [d|] eqn:E; [|reflexivity].
    specialize (Hl d eq_refl). apply Z.leb_gt. lia.
  - child_state Hf He. cbn [next_timer next_thread earlier state fires_at].
    apply pick_background; [|discriminate].
    intros s Hs'.
    destruct (lookup next_pid0 lifetimes0) as [d|] eqn:E; [|discriminate].
    specialize (Hl d eq_refl). injection Hs' as <-. lia.
  - rewrite (Z.max_r clock0) by lia.
    unfold run_background, call. run_console. cbn [nth_error update_nth].
    run_console.
    unfold ended at 1, natural_end. run_console.
    rewrite He, (lookup_app_fresh _ _ _ Hf), Hp. run_console.
    assert (Hn : match
                   match lookup next_pid0 lifetimes0 with
                   | Some d => Some (clock0 + d)
                   | None => None
                   end
                 with
                 | Some t =>
                     t <=? clock0 + Z.max 0 (minutes * 60 * us_per_second)
                 | None => false
                 end = false).
    { destruct (lookup next_pid0 lifetimes0) as [d|] eqn:E; [|reflexivity].
      specialize (Hl d eq_refl). apply Z.leb_gt. lia. }
    rewrite Hn. run_console.
    rewrite block_done.
    + run_console. cbn [update_nth cancelled state].
      rewrite <- !app_assoc. reflexivity.
    + unfold satisfied, ended. run_console. cbn [mem_pid existsb].
      rewrite Nat.eqb_refl. reflexivity.
Qed.

Lemma close_after_time_child_exits_first fuel minutes d c :
  at_rest c -> ready c ->
  interrupts (os c) = [] ->
  lookup (next_pid (os c)) (lifetimes (os c)) = Some d ->
  0 <= d <= Z.max 0 (minutes * 60 * us_per_second) ->
  let p := next_pid (os c) in
  let t := clock (os c) + Z.max 0 (minutes * 60 * us_per_second) in
  close_after_time (S fuel) (Some minutes) c
  = Done tt
      (mkMachine
         (mkSimpleScriptTimer (script_path (self c))
            (running_processes (self c) ++ [p])
            [mkTimer t (stop_script p) Cancelled] [])
         (with_clock (clock (os c) + d) (with_child p (os c)))
         (out c
          ++ [Printed ("Running script for " ++ Text.of_int minutes
                       ++ " minutes...");
              Launched (clock (os c)) p;
              Printed ("Script started: "
                       ++ Text.basename (script_path (self c)))])).
Proof.
  intros [Ht Hth Hf He Hp] [Hs Ha] Hi Hl Hd p t. subst p t.
  open_console c. subst.
  unfold close_after_time, run_script. run_console.
  rewrite Hs. run_console. rewrite Ha. run_console.
  assert (Hz : d = 0 \/ 0 < d) by lia. destruct Hz as [-> | Hz].
  - rewrite block_done.
    + run_console. cbn [update_nth cancelled state].
      rewrite <- !app_assoc, Z.add_0_r. reflexivity.
    + child_state Hf He. rewrite Hl. apply Z.leb_le. lia.
  - erewrite block_self; cycle 1.
    + child_state Hf He. rewrite Hl. apply Z.leb_gt. lia.
    + child_state Hf He. rewrite Hl.
      cbn [next_timer next_thread earlier state fires_at].
      apply pick_self; [discriminate|].
      intros u b Hu. injection Hu as <- <-. lia.
    + run_console. cbn [update_nth cancelled state].
      rewrite (Z.max_r clock0) by lia.
      rewrite <- !app_assoc. reflexivity.
Qed.



(** **** What can be raised *)

Section Raises.

Context {A B : Type}.
Variables P Q : exn -> Prop.

Lemma raises_weaken (c : C A) :
  (forall e, P e -> Q e) -> raises_only P c -> raises_only Q c.
Proof. intros H Hc m e m' E. apply H. eapply Hc, E. Qed.


Lemma raises_ret (a : A) : raises_only P (ret a).
Proof. intros m e m' E. discriminate. Qed.

Lemma raises_hang : raises_only P (@hang _ A).
Proof. intros m e m' E. discriminate. Qed.

Lemma raises_raise e : P e -> raises_only P (@raise _ A e).
Proof. intros H m e' m' E. injection E as <- _. exact H. Qed.

Lemma raises_bind (c : C A) (k : A -> C B) :
  raises_only P c -> (forall a, raises_only P (k a)) ->
  raises_only P (bind c k).
Proof.
  intros Hc Hk m e m' E. unfold bind in E.
  destruct (c m) as [a m1|e1 m1|m1] eqn:Ec.
  - eapply Hk, E.
  - injection E as <- _. eapply Hc, Ec.
  - discriminate.
Qed.




End Raises.

Lemma raises_for_each {A} P (l : list A) (body : A -> C unit) :
  (forall x, raises_only P (body x)) -> raises_only P (for_each l body).
Proof.
  intros H. induction l as [|x l IH]; cbn [for_each].
  - apply raises_ret.
  - apply raises_bind; [apply H | intros _; exact IH].
Qed.

Lemma raises_get_self P : raises_only P (@get_self SimpleScriptTimer).
Proof. intros m e m' E. discriminate. Qed.

Lemma raises_get_os P : raises_only P (@get_os SimpleScriptTimer).
Proof. intros m e m' E. discriminate. Qed.

Lemma raises_modify_self P f : raises_only P (@modify_self SimpleScriptTimer f).
Proof. intros m e m' E. discriminate. Qed.

Lemma raises_modify_os P f : raises_only P (@modify_os SimpleScriptTimer f).
Proof. intros m e m' E. discriminate. Qed.

Lemma raises_emit P e : raises_only P (@emit SimpleScriptTimer e).
Proof. intros m e' m' E. discriminate. Qed.

(** Takes a computation apart along its code. *)
Ltac raises_step :=
  first
    [ match goal with H : _ |- _ => apply H end
    | apply raises_ret | apply raises_hang
    | apply raises_emit | apply raises_get_self
    | apply raises_get_os | apply raises_modify_self
    | apply raises_modify_os
    | apply raises_bind; [| intro]
    | apply raises_for_each; intro
    | match goal with
      | |- raises_only _ (if ?b then _ else _) => destruct b
      | |- raises_only _ (match ?x with _ => _ end) => destruct x
      | |- raises_only _ (let _ := _ in _) => cbv zeta
      end ].

Ltac raises_by_code := repeat raises_step.


Lemma terminate_raises p : raises_only is_OSError (terminate p).
Proof.
  unfold terminate. raises_by_code.
  apply raises_raise. eexists. reflexivity.
Qed.












(** **** Times of day *)

Lemma start_at_time_invalid fuel typed answer c :
  Text.truthy (script_path (self c)) = true ->
  match typed with
  | None => True
  | Some (hour, minute) => ~ valid_time hour minute
  end ->
  start_at_time fuel typed answer c
  = Done tt
      (logged c
         (Printed "Invalid time format! Use HH:MM format (e.g., 14:30)")).
Proof.
  intros Hs Ht. unfold start_at_time, print. run_py. rewrite Hs.
  cbn [negb]. destruct typed as [[h m]|]; [|reflexivity].
  replace (negb ((0 <=? h) && (h <=? 23)) || negb ((0 <=? m) && (m <=? 59)))
    with true; [reflexivity|].
  symmetry. unfold valid_time in Ht.
  destruct (0 <=? h) eqn:E1, (h <=? 23) eqn:E2, (0 <=? m) eqn:E3,
    (m <=? 59) eqn:E4; try reflexivity.
  exfalso. apply Ht. apply Z.leb_le in E1, E2, E3, E4. lia.
Qed.

Lemma replace_hm_time_of_day d hour minute :
  valid_time hour minute ->
  time_of_day (replace_hm d hour minute)
  = (hour * 3600 + minute * 60) * us_per_second.
Proof.
  intros [Hh Hm]. unfold time_of_day, replace_hm.
  rewrite (Z.div_mod d us_per_day) at 1 by (unfold us_per_day, us_per_second; lia).
  replace (us_per_day * (d / us_per_day) + d mod us_per_day
           - d mod us_per_day + (hour * 3600 + minute * 60) * us_per_second)
    with ((hour * 3600 + minute * 60) * us_per_second
          + (d / us_per_day) * us_per_day) by lia.
  rewrite Z.mod_add by (unfold us_per_day, us_per_second; lia).
  apply Z.mod_small. unfold us_per_day, us_per_second. lia.
Qed.

Lemma time_of_day_next_day d : time_of_day (d + us_per_day) = time_of_day d.
Proof.
  unfold time_of_day.
  replace (d + us_per_day) with (d + 1 * us_per_day) by lia.
  apply Z.mod_add. unfold us_per_day, us_per_second. lia.
Qed.

Lemma target_time_spec now1 now2 hour minute :
  valid_time hour minute ->
  now1 <= now2 ->
  now2 / us_per_day = now1 / us_per_day ->
  now2 < target_time now1 now2 hour minute <= now2 + us_per_day
  /\ time_of_day (target_time now1 now2 hour minute)
     = (hour * 3600 + minute * 60) * us_per_second.
Proof.
  intros Hv Hn Hday. split.
  - destruct Hv as [Hh Hm]. unfold target_time, replace_hm.
    change us_per_day with 86400000000 in *.
    change us_per_second with 1000000 in *.
    pose proof (Z.mod_pos_bound now1 86400000000 eq_refl) as Hb1.
    pose proof (Z.mod_pos_bound now2 86400000000 eq_refl) as Hb2.
    pose proof (Z.div_mod now1 86400000000 ltac:(lia)) as E1.
    pose proof (Z.div_mod now2 86400000000 ltac:(lia)) as E2.
    rewrite Hday in E2.
    revert Hb1 Hb2 E1 E2.
    generalize (now1 mod 86400000000), (now2 mod 86400000000),
      (now1 / 86400000000).
    intros r1 r2 q Hb1 Hb2 E1 E2.
    destruct (_ <=? now2) eqn:E; [apply Z.leb_le in E | apply Z.leb_gt in E];
      lia.
  - unfold target_time. destruct (_ <=? now2).
    + rewrite time_of_day_next_day. apply replace_hm_time_of_day, Hv.
    + apply replace_hm_time_of_day, Hv.
Qed.

Lemma replace_hm_next_day_is_ahead now hour minute :
  valid_time hour minute ->
  now < replace_hm now hour minute + us_per_day.
Proof.
  intros [Hh Hm]. unfold replace_hm.
  change us_per_day with 86400000000 in *.
  change us_per_second with 1000000 in *.
  pose proof (Z.mod_pos_bound now 86400000000 eq_refl). lia.
Qed.

(** The callback of "Start at", on a host with an ideal clock. *)
Lemma call_run_scheduled_script hour minute repeat_daily c :
  valid_time hour minute ->
  read_cost (os c) = 0 ->
  call (run_scheduled_script hour minute repeat_daily) c
  = Done tt
      (if repeat_daily
       then with_timer (replace_hm (clock (os c)) hour minute + us_per_day)
              (run_scheduled_script hour minute true)
              (final (run_script c))
       else final (run_script c)).
Proof.
  intros Hv Hr. pose proof (replace_hm_next_day_is_ahead (clock (os c)) _ _ Hv).
  unfold call. unfold bind at 1.
  destruct (Text.assoc (script_path (self c)) (spawn_errors (os c))) eqn:E.
  - rewrite (console_run_script_failure c _ E). cbn [final].
    destruct repeat_daily; [|reflexivity].
    open_console c. subst. unfold with_timer, logged. run_console.
    rewrite !Z.add_0_r. rewrite Z.max_r by lia.
    match goal with
    | |- context [?a + (?b - ?a)] => replace (a + (b - a)) with b by lia
    end.
    reflexivity.
  - rewrite (console_run_script_success c E). cbn [final].
    destruct repeat_daily; [|reflexivity].
    open_console c. subst. unfold with_timer, console_launched. run_console.
    rewrite !Z.add_0_r. rewrite Z.max_r by lia.
    match goal with
    | |- context [?a + (?b - ?a)] => replace (a + (b - a)) with b by lia
    end.
    reflexivity.
Qed.

(** **** "Start at", from the prompt to Ctrl-C *)

Lemma valid_time_test hour minute :
  valid_time hour minute ->
  negb ((0 <=? hour) && (hour <=? 23)) || negb ((0 <=? minute) && (minute <=? 59))
  = false.
Proof.
  intros [[H1 H2] [H3 H4]].
  apply Z.leb_le in H1, H2, H3, H4. rewrite H1, H2, H3, H4. reflexivity.
Qed.

Ltac run_host :=
  run_console;
  cbv beta iota zeta delta
    [with_clock with_child with_exited with_interrupts logged with_timer
     console_launched];
  run_console.

Lemma start_at_time_interrupted_early fuel hour minute answer t rest c :
  at_rest c -> ready c -> read_cost (os c) = 0 ->
  valid_time hour minute ->
  interrupts (os c) = t :: rest ->
  let target := target_time (clock (os c)) (clock (os c)) hour minute in
  let daily := String.eqb (Text.lower (Text.strip answer)) "y" in
  clock (os c) <= t <= target ->
  exists m,
    start_at_time (S fuel) (Some (hour, minute)) answer c = Done tt m
    /\ out m
       = (out c
          ++ [Printed ("Scheduled to run script at " ++ strftime target)]
          ++ (if daily then [Printed "Will repeat daily"] else [])
          ++ [Printed "Timer set. Press Ctrl+C to exit.";
              Printed (newline ++ "Exiting...")])%list
    /\ timers (self m)
       = [mkTimer target (run_scheduled_script hour minute daily) Cancelled]
    /\ running_processes (self m) = running_processes (self c)
    /\ clock (os m) = t
    /\ interrupts (os m) = rest.
Proof.
  intros [Ht Hth Hf He Hp] [Hs Ha] Hr Hv Hi target daily Hc.
  pose proof (target_time_spec (clock (os c)) (clock (os c)) hour minute
                Hv (Z.le_refl _) eq_refl) as [Hahead _].
  fold target in Hahead. subst daily.
  open_console c. subst.
  unfold start_at_time. run_console.
  rewrite Hs. run_console. rewrite (valid_time_test _ _ Hv). run_console.
  rewrite !Z.add_0_r.
  change (target_time clock0 clock0 hour minute) with target.
  clearbody target.
  destruct (Text.lower (Text.strip answer) =? "y")%string; run_host;
    rewrite (Z.max_r 0) by lia;
    replace (clock0 + (target - clock0)) with target by lia;
    (erewrite block_interrupt;
     [ | reflexivity
       | cbn [os self interrupts hd_error own_wake timers threads
              next_background next_timer next_thread earlier state fires_at];
         apply pick_interrupt;
         [ discriminate | intros u b Hu; injection Hu as <- <-; lia ] ]);
    run_host; cbn [seq for_each]; run_host;
    cbn [update_nth cancelled state tl];
    (eexists; split; [reflexivity|]); run_host;
    rewrite <- !app_assoc; repeat split; lia.
Qed.

Lemma replace_hm_fixed d hour minute :
  time_of_day d = (hour * 3600 + minute * 60) * us_per_second ->
  replace_hm d hour minute = d.
Proof. unfold time_of_day, replace_hm. intros <-. lia. Qed.

Lemma start_at_time_fires fuel hour minute answer t rest c :
  at_rest c -> ready c -> read_cost (os c) = 0 ->
  valid_time hour minute ->
  interrupts (os c) = t :: rest ->
  let p := next_pid (os c) in
  let target := target_time (clock (os c)) (clock (os c)) hour minute in
  let daily := String.eqb (Text.lower (Text.strip answer)) "y" in
  target < t <= target + us_per_day ->
  exists m,
    start_at_time (S (S fuel)) (Some (hour, minute)) answer c = Done tt m
    /\ out m
       = (out c
          ++ [Printed ("Scheduled to run script at " ++ strftime target)]
          ++ (if daily then [Printed "Will repeat daily"] else [])
          ++ [Printed "Timer set. Press Ctrl+C to exit.";
              Launched target p;
              Printed ("Script started: "
                       ++ Text.basename (script_path (self c)));
              Printed (newline ++ "Exiting...")])%list
    /\ timers (self m)
       = (mkTimer target (run_scheduled_script hour minute daily) Fired
          :: if daily
             then [mkTimer (target + us_per_day)
                     (run_scheduled_script hour minute true) Cancelled]
             else [])
    /\ running_processes (self m) = (running_processes (self c) ++ [p])%list
    /\ clock (os m) = t
    /\ interrupts (os m) = rest.
Proof.
  intros [Ht Hth Hf He Hp] [Hs Ha] Hr Hv Hi p target daily Hc.
  pose proof (target_time_spec (clock (os c)) (clock (os c)) hour minute
                Hv (Z.le_refl _) eq_refl) as [Hahead Hday].
  fold target in Hahead, Hday. subst daily p.
  apply replace_hm_fixed in Hday.
  open_console c. subst.
  unfold start_at_time. run_console.
  rewrite Hs. run_console. rewrite (valid_time_test _ _ Hv). run_console.
  rewrite !Z.add_0_r.
  change (target_time clock0 clock0 hour minute) with target.
  clearbody target.
  destruct (Text.lower (Text.strip answer) =? "y")%string; run_host;
    rewrite (Z.max_r 0) by lia;
    replace (clock0 + (target - clock0)) with target by lia.
  - erewrite block_background;
     [ | reflexivity
       | cbn [os self interrupts hd_error own_wake timers threads
              next_background next_timer next_thread earlier state fires_at];
         apply pick_background;
         [ discriminate | intros u Hu; injection Hu as <-; lia ] ].
    run_host. rewrite (Z.max_r clock0) by lia.
    unfold run_background. run_host.
    cbn [nth_error update_nth]. run_host.
    rewrite call_run_scheduled_script by (assumption || reflexivity).
    rewrite console_run_script_success by exact Ha.
    cbn [final]. run_host. rewrite Hday.
    erewrite block_interrupt;
     [ | reflexivity
       | cbn [os self interrupts hd_error own_wake timers threads
              next_background next_timer next_thread earlier state fires_at];
         apply pick_interrupt;
         [ discriminate | intros u b Hu; injection Hu as <- <-; lia ] ].
    run_host. cbn [seq for_each]. run_host.
    cbn [update_nth cancelled state tl].
    eexists. split; [reflexivity|]. run_host.
    rewrite <- !app_assoc. repeat split; lia.
  - erewrite block_background;
     [ | reflexivity
       | cbn [os self interrupts hd_error own_wake timers threads
              next_background next_timer next_thread earlier state fires_at];
         apply pick_background;
         [ discriminate | intros u Hu; injection Hu as <-; lia ] ].
    run_host. rewrite (Z.max_r clock0) by lia.
    unfold run_background. run_host.
    cbn [nth_error update_nth]. run_host.
    rewrite call_run_scheduled_script by (assumption || reflexivity).
    rewrite console_run_script_success by exact Ha.
    cbn [final]. run_host.
    erewrite block_interrupt;
     [ | reflexivity
       | cbn [os self interrupts hd_error own_wake timers threads
              next_background next_timer next_thread earlier state fires_at];
         apply pick_interrupt;
         [ discriminate | intros u b Hu; discriminate ] ].
    run_host. cbn [seq for_each]. run_host.
    cbn [update_nth cancelled state tl].
    eexists. split; [reflexivity|]. run_host.
    rewrite <- !app_assoc. repeat split; lia.
Qed.

(** **** "Run every", one period *)

Ltac host_facts Hf He :=
  unfold satisfied, ended, own_wake, natural_end, next_background,
    thread_moves;
  run_host;
  cbn [hd_error nth_error next_timer next_thread earlier thread_moves
       at_phase state fires_at];
  unfold ended, natural_end; run_host;
  rewrite ?He, ?(lookup_app_fresh _ _ _ Hf);
  run_host.


(** One move of the thread that has just been started or has slept. *)
Ltac thread_launches Ha :=
  unfold run_background, run_periodically; run_host;
  cbn [nth_error at_phase]; run_host;
  unfold run_script; run_host; rewrite Ha; run_host;
  cbn [update_nth minutes_of].

Lemma repeat_every_time_second_launch minutes d c :
  at_rest c -> ready c ->
  interrupts (os c) = [] ->
  lookup (next_pid (os c)) (lifetimes (os c)) = Some d ->
  0 <= d ->
  0 <= minutes <= max_minutes ->
  let p := next_pid (os c) in
  let again := clock (os c) + d + minutes * 60 * us_per_second in
  exists m,
    repeat_every_time 3 (Some minutes) c = Hangs m
    /\ out m
       = (out c
          ++ [Printed ("Running script every " ++ Text.of_int minutes
                       ++ " minutes (Ctrl+C to stop)...");
              Launched (clock (os c)) p;
              Printed ("Script started: "
                       ++ Text.basename (script_path (self c)));
              Launched again (S p);
              Printed ("Script started: "
                       ++ Text.basename (script_path (self c)))])%list
    /\ threads (self m) = [mkThread minutes (WaitingFor (S p))]
    /\ clock (os m) = again.
Proof.
  intros [Ht Hth Hf He Hp] [Hs Ha] Hi Hl Hd Hm p again. subst p again.
  open_console c. subst.
  unfold repeat_every_time. run_console.
  rewrite Hs. run_console.
  erewrite block_background; [ | reflexivity | ].
  2:{ host_facts Hf He. apply pick_background; discriminate. }
  run_host. rewrite Z.max_id. thread_launches Ha.
  erewrite block_background; [ | reflexivity | ].
  2:{ host_facts Hf He. rewrite Hl.
      instantiate (1 := PeriodicThread 0). instantiate (1 := clock0 + d).
      destruct (clock0 + d <=? clock0) eqn:E.
      - apply Z.leb_le in E. replace (clock0 + d) with clock0 by lia.
        cbn [earlier]. apply pick_background; discriminate.
      - cbn [earlier]. apply pick_background; discriminate. }
  run_host. rewrite (Z.max_r clock0) by lia.
  unfold run_background, run_periodically. run_host.
  cbn [nth_error at_phase]. run_host.
  unfold thread_sleeps. run_host. cbn [minutes_of].
  replace (minutes * 60 <? 0) with false by (symmetry; apply Z.ltb_ge; lia).
  run_host. cbn [update_nth minutes_of].
  erewrite block_background; [ | reflexivity | ].
  2:{ host_facts Hf He. apply pick_background; discriminate. }
  run_host. rewrite Z.max_r by (unfold us_per_second; lia).
  thread_launches Ha.
  cbn [block]. run_host.
  eexists. split; [reflexivity|]. run_host.
  rewrite <- !app_assoc. repeat split.
Qed.

Lemma repeat_every_time_negative_interval fuel minutes d c :
  at_rest c -> ready c ->
  interrupts (os c) = [] ->
  lookup (next_pid (os c)) (lifetimes (os c)) = Some d ->
  0 <= d ->
  minutes < 0 ->
  let p := next_pid (os c) in
  exists m,
    repeat_every_time (S (S (S fuel))) (Some minutes) c = Done tt m
    /\ out m
       = (out c
          ++ [Printed ("Running script every " ++ Text.of_int minutes
                       ++ " minutes (Ctrl+C to stop)...");
              Launched (clock (os c)) p;
              Printed ("Script started: "
                       ++ Text.basename (script_path (self c)));
              Printed "Error: sleep length must be non-negative"])%list
    /\ threads (self m) = [mkThread minutes Finished]
    /\ clock (os m) = clock (os c) + d.
Proof.
  intros [Ht Hth Hf He Hp] [Hs Ha] Hi Hl Hd Hm p. subst p.
  open_console c. subst.
  unfold repeat_every_time. run_console.
  rewrite Hs. run_console.
  erewrite block_background; [ | reflexivity | ].
  2:{ host_facts Hf He. apply pick_background; discriminate. }
  run_host. rewrite Z.max_id. thread_launches Ha.
  erewrite block_background; [ | reflexivity | ].
  2:{ host_facts Hf He. rewrite Hl.
      instantiate (1 := PeriodicThread 0). instantiate (1 := clock0 + d).
      destruct (clock0 + d <=? clock0) eqn:E.
      - apply Z.leb_le in E. replace (clock0 + d) with clock0 by lia.
        cbn [earlier]. apply pick_background; discriminate.
      - cbn [earlier]. apply pick_background; discriminate. }
  run_host. rewrite (Z.max_r clock0) by lia.
  unfold run_background, run_periodically. run_host.
  cbn [nth_error at_phase]. run_host.
  unfold thread_sleeps. run_host. cbn [minutes_of].
  replace (minutes * 60 <? 0) with true by (symmetry; apply Z.ltb_lt; lia).
  run_host. cbn [update_nth minutes_of].
  rewrite block_done by reflexivity.
  eexists. split; [reflexivity|]. run_host.
  rewrite <- !app_assoc. repeat split.
Qed.

(** **** The menu *)

Lemma show_menu_spec m :
  show_menu m = Done tt (mkMachine (self m) (os m) (out m ++ menu_shown)).
Proof.
  unfold show_menu, print, menu_shown. run_py.
  rewrite <- !app_assoc. reflexivity.
Qed.

Lemma menu_turn e turns fuel line rest m :
  menu e (S turns) fuel (line :: rest) m
  = (let choice := Text.strip line in
     if String.eqb choice "1" then
       rest' <- close_after_time_on e fuel rest ;; menu e turns fuel rest'
     else if String.eqb choice "2" then
       rest' <- repeat_every_time_on e fuel rest ;; menu e turns fuel rest'
     else if String.eqb choice "3" then
       rest' <- start_at_time_on e fuel rest ;; menu e turns fuel rest'
     else if String.eqb choice "4" then
       r <- select_script_on e rest ;;
       if negb (fst r) then ret tt else menu e turns fuel (snd r)
     else if String.eqb choice "5" then
       print "Goodbye!"
     else
       print "Invalid option. Please try again." ;;
       menu e turns fuel rest)
      (mkMachine (self m) (os m) (out m ++ menu_shown)).
Proof.
  cbn [menu]. unfold bind at 1. rewrite show_menu_spec. reflexivity.
Qed.

Lemma menu_waits e turns fuel m :
  menu e (S turns) fuel [] m
  = no_line e (mkMachine (self m) (os m) (out m ++ menu_shown)).
Proof.
  cbn [menu]. unfold bind at 1. rewrite show_menu_spec. reflexivity.
Qed.

(** Without a script the three functions read nothing. *)
Lemma no_script_no_input e fuel stdin m :
  script_path (self m) = "" ->
  close_after_time_on e fuel stdin m
  = Done stdin (logged m (Printed "No script selected!"))
  /\ repeat_every_time_on e fuel stdin m
     = Done stdin (logged m (Printed "No script selected!"))
  /\ start_at_time_on e fuel stdin m
     = Done stdin (logged m (Printed "No script selected!")).
Proof.
  intros H.
  unfold close_after_time_on, repeat_every_time_on, start_at_time_on,
    close_after_time, repeat_every_time, start_at_time, print.
  run_py. repeat (rewrite H; cbn [Text.truthy negb]; run_py). repeat split.
Qed.

Lemma menu_idle e fuel w stdin :
  forall turns tr,
    (List.length stdin < turns)%nat ->
    Forall (fun line => chooses "4" line = false) stdin ->
    Forall (fun x => is_print x = true) tr ->
    exists tr',
      menu e turns fuel stdin (mkMachine init w tr)
      = (if existsb (chooses "5") stdin then Done tt else no_line e)
          (mkMachine init w tr')
      /\ Forall (fun x => is_print x = true) tr'.
Proof.
  assert (Hm : Forall (fun x => is_print x = true) menu_shown)
    by (repeat constructor).
  induction stdin as [|line rest IH]; intros turns tr Hlen H4 Htr;
    (destruct turns as [|turns]; [cbn in Hlen; lia|]).
  - rewrite menu_waits. eexists. split; [reflexivity|].
    apply Forall_app; auto.
  - rewrite menu_turn. cbv zeta. cbn [self os out existsb].
    inversion H4 as [|? ? Hc H4']; subst. unfold chooses in Hc |- *.
    assert (Hl : (List.length rest < turns)%nat) by (cbn in Hlen; lia).
    pose proof (fun stdin tr0 =>
                  no_script_no_input e fuel stdin (mkMachine init w tr0)
                    eq_refl) as Hn.
    destruct (String.eqb (Text.strip line) "1") eqn:E1.
    { assert (E5 : String.eqb (Text.strip line) "5" = false).
      { apply String.eqb_eq in E1. rewrite E1. reflexivity. }
      rewrite E5. cbn [orb]. unfold bind.
      rewrite (proj1 (Hn _ _)). unfold logged. cbn [self os out].
      apply IH; auto. repeat (apply Forall_app; split); auto. }
    destruct (String.eqb (Text.strip line) "2") eqn:E2.
    { assert (E5 : String.eqb (Text.strip line) "5" = false).
      { apply String.eqb_eq in E2. rewrite E2. reflexivity. }
      rewrite E5. cbn [orb]. unfold bind.
      rewrite (proj1 (proj2 (Hn _ _))). unfold logged. cbn [self os out].
      apply IH; auto. repeat (apply Forall_app; split); auto. }
    destruct (String.eqb (Text.strip line) "3") eqn:E3.
    { assert (E5 : String.eqb (Text.strip line) "5" = false).
      { apply String.eqb_eq in E3. rewrite E3. reflexivity. }
      rewrite E5. cbn [orb]. unfold bind.
      rewrite (proj2 (proj2 (Hn _ _))). unfold logged. cbn [self os out].
      apply IH; auto. repeat (apply Forall_app; split); auto. }
    rewrite Hc.
    destruct (String.eqb (Text.strip line) "5") eqn:E5; cbn [orb].
    { unfold print, emit. cbn [self os out]. eexists. split; [reflexivity|].
      repeat (apply Forall_app; split); auto. }
    unfold bind, print, emit. cbn [self os out].
    apply IH; auto. repeat (apply Forall_app; split); auto.
Qed.

Lemma prints_only tr :
  Forall (fun e => is_print e = true) tr ->
  launches tr = [] /\ terminations tr = [].
Proof.
  induction 1 as [|e tr He _ [IH1 IH2]]; [split; reflexivity|].
  destruct e; try discriminate. cbn. auto.
Qed.

Lemma select_script_cancelled line m :
  String.eqb (Text.lower (Text.strip line)) "cancel" = true ->
  select_script line m = Done false (logged m asked).
Proof.
  intros H. unfold select_script, print, asked. run_py. rewrite H. reflexivity.
Qed.

Lemma select_script_not_found line m :
  String.eqb (Text.lower (Text.strip line)) "cancel" = false ->
  Text.mem (Text.strip line) (files (os m)) = false ->
  select_script line m
  = Done false
      (logged (logged m asked)
         (Printed ("Error: File '" ++ Text.strip line ++ "' not found!"))).
Proof.
  intros H K. unfold select_script, print, asked. run_py.
  rewrite H. run_py. rewrite K. reflexivity.
Qed.

Lemma select_script_stores line m :
  String.eqb (Text.lower (Text.strip line)) "cancel" = false ->
  Text.mem (Text.strip line) (files (os m)) = true ->
  select_script line m
  = Done true
      (mkMachine (set_script_path (Text.strip line) (self m)) (os m)
         (out m ++ [asked;
                    Printed ("Selected script: "
                             ++ Text.basename (Text.strip line))])).
Proof.
  intros H K. unfold select_script, print, asked. run_py.
  rewrite H. run_py. rewrite K. cbn [negb]. run_py.
  rewrite <- app_assoc. reflexivity.
Qed.

Lemma main_failed_selection fuel line path rest w :
  chooses "4" line = true ->
  String.eqb (Text.lower (Text.strip path)) "cancel" = true
  \/ Text.mem (Text.strip path) (files w) = false ->
  main fuel (line :: path :: rest) w
  = Done tt
      (mkMachine init w
         (greeting ++ menu_shown
          ++ asked
             :: (if String.eqb (Text.lower (Text.strip path)) "cancel"
                 then []
                 else [Printed ("Error: File '" ++ Text.strip path
                                ++ "' not found!")]))).
Proof.
  intros H4 Hp. unfold main, run, print, boot. run_py.
  cbn [List.length]. rewrite menu_turn. cbv zeta. cbn [self os out app].
  unfold chooses in H4.
  assert (E : forall n, n <> "4" -> String.eqb (Text.strip line) n = false).
  { intros n Hn. apply String.eqb_eq in H4. rewrite H4.
    apply String.eqb_neq. congruence. }
  rewrite !E by discriminate. rewrite H4.
  unfold select_script_on, bind.
  destruct (String.eqb (Text.lower (Text.strip path)) "cancel") eqn:Ec.
  - rewrite select_script_cancelled by exact Ec. reflexivity.
  - destruct Hp as [Hp|Hp]; [discriminate|].
    rewrite select_script_not_found by assumption.
    unfold logged. cbn [self os out fst negb ret].
    rewrite <- !app_assoc. reflexivity.
Qed.

Lemma main_select_then_close fuel path line minutes w :
  let p := Text.strip path in
  String.eqb (Text.lower p) "cancel" = false ->
  Text.mem p (files w) = true ->
  at_rest (boot w) ->
  ready (mkMachine (set_script_path p init) w []) ->
  interrupts w = [] ->
  (forall d, lookup (next_pid w) (lifetimes w) = Some d ->
     Z.max 0 (minutes * 60 * us_per_second) < d) ->
  Text.int line = Some minutes ->
  exists m,
    main (S (S fuel)) ["4"; path; "1"; line; "5"] w = Done tt m
    /\ script_path (self m) = p
    /\ launches (out m) = [Launched (clock w) (next_pid w)]
    /\ terminations (out m)
       = [Terminated (clock w + Z.max 0 (minutes * 60 * us_per_second))
            (next_pid w)]
    /\ clock (os m) = clock w + Z.max 0 (minutes * 60 * us_per_second)
    /\ last (out m) (Printed "") = Printed "Goodbye!".
Proof.
  intros p Hc Hf [_ _ Hfr He Hp] [Hs Ha] Hi Hl Hn. subst p.
  cbn [self os boot script_path set_script_path] in *.
  unfold main, run, print, boot. run_py.
  cbn [List.length]. rewrite menu_turn. cbv zeta. cbn [self os out app].
  change (Text.strip "4") with "4". cbn [String.eqb Ascii.eqb Bool.eqb].
  unfold select_script_on. unfold bind at 1 2.
  rewrite select_script_stores by assumption.
  cbn [fst snd negb ret self os out].
  rewrite menu_turn. cbv zeta. cbn [self os out].
  change (Text.strip "1") with "1". cbn [String.eqb Ascii.eqb Bool.eqb].
  unfold close_after_time_on. unfold bind at 1 2. unfold get_self at 1.
  cbn [self script_path set_script_path]. rewrite Hs. cbn [negb].
  rewrite Hn. unfold bind at 1.
  rewrite close_after_time_deadline;
    [ | constructor; assumption || reflexivity
      | split; assumption | assumption | assumption ].
  cbv zeta. unfold ret at 1. cbn [self os out script_path set_script_path
                                   running_processes init].
  rewrite menu_turn. cbv zeta. cbn [self os out].
  change (Text.strip "5") with "5". cbn [String.eqb Ascii.eqb Bool.eqb].
  unfold print, emit. cbn [self os out].
  eexists. split; [reflexivity|]. cbn [self os out script_path].
  split; [reflexivity|].
  assert (Hm : Forall (fun e => is_print e = true) menu_shown)
    by (repeat constructor).
  destruct (prints_only _ Hm) as [Hm1 Hm2].
  rewrite !launches_app, !terminations_app, Hm1, Hm2.
  change (launches (?a :: ?b :: menu_shown)) with (launches menu_shown).
  split; [|split; [|split]].
  - rewrite Hm1. reflexivity.
  - change (terminations (Printed "Simple Script Timer"
              :: Printed "This version doesn't require PyQt5" :: menu_shown))
      with (terminations menu_shown).
    rewrite Hm2. reflexivity.
  - destruct w; reflexivity.
  - rewrite last_last. reflexivity.
Qed.



Section Prompts.

Variable e : ending.
Variable fuel : nat.







End Prompts.

End ConsoleLaws.

(* --------------------------------------------------------------------- *)
(** *** The window, stated *)
(* --------------------------------------------------------------------- *)

(** X1. [check_processes] returns, whatever is tracked; of the tracked
    processes it keeps the ones still running, in their order, and drops
    every one that has ended; the status line reads "Script completed
    execution" when one was dropped and is as before otherwise; the host
    and the trace are untouched. *)
Theorem check_processes_keeps_the_running (m : Machine Gui.ScriptTimer) :
  Gui.check_processes m
  = Done tt
      (mkMachine
         (GuiSpec.tracking
            (filter (GuiSpec.alive (os m)) (Gui.running_processes (self m)))
            (if existsb (ended (os m)) (Gui.running_processes (self m))
             then "Script completed execution"
             else Gui.status_label (self m))
            (self m))
         (os m) (out m)).
Proof. exact (GuiLaws.check_processes_filter m). Qed.

(** X2. Whatever the user does with a window just opened (selecting
    files, clicking any button in any order, editing the fields, letting
    time pass or timers fire, children ending), every slot returns: no
    [clicked.disconnect()] finds a button without a connection, no
    [running_processes.remove] misses its element; and each button still
    carries its one slot, the interval timer runs [check_processes] and
    the schedule timers run [run_scheduled_script]. *)
Theorem window_survives_every_session (w : World) (inputs : list Gui.input) :
  exists m,
    Gui.run inputs (Gui.boot w) = Done tt m /\ GuiSpec.wired (self m).
Proof. exact (GuiFacts.window_never_raises w inputs). Qed.

(** X3. After any session, the caption of each of the three buttons names
    the slot the button carries: "Start ..." with the start function,
    "Stop ..." with the stop function. *)
Theorem captions_name_the_slots (w : World) (inputs : list Gui.input) :
  exists m,
    Gui.run inputs (Gui.boot w) = Done tt m /\ GuiSpec.captioned (self m).
Proof.
  destruct (GuiLaws.run_steady inputs (Gui.boot w) (GuiLaws.init_sound w))
    as (m & E & [_ K] & _).
  exists m. split; assumption.
Qed.

(** X4. In a wired window, a session without a click on "Stop All"
    requests no termination: the [Terminated] events of the trace are the
    ones there were, whichever timers were started, stopped or fired. *)
Theorem only_stop_all_terminates
  (m : Machine Gui.ScriptTimer) (inputs : list Gui.input) :
  GuiSpec.wired (self m) ->
  forallb (fun i => negb (GuiSpec.is_stop_all i)) inputs = true ->
  exists m',
    Gui.run inputs m = Done tt m'
    /\ terminations (out m') = terminations (out m).
Proof.
  intros W H. destruct (GuiLaws.run_silent inputs H m W) as (m' & E & _ & N).
  exists m'. split; assumption.
Qed.

Lemma only_stop_all_terminates_witness :
  exists m',
    Gui.run [Gui.PickFile "/bin/sleep"; Gui.SetCloseTime 1;
             Gui.Click Gui.Close; Gui.NextTimeout; Gui.Click Gui.Close;
             Gui.Click Gui.Repeat; Gui.NextTimeout; Gui.Click Gui.Schedule]
            (Gui.boot nine_am)
    = Done tt m'
    /\ terminations (out m') = terminations (out (Gui.boot nine_am)).
Proof.
  apply (only_stop_all_terminates (Gui.boot nine_am));
    [apply GuiFacts.init_wired | reflexivity].
Defined.

(** X5. Each of the three stop functions, in a wired window: it returns
    and stops its [QTimer]; it leaves the other [QTimer] as it is; it
    touches no process: the tracked list, the pending single-shot timers,
    the host and the trace are as before; and it disables "Stop All", so
    that a click on that button right afterwards does nothing. *)
Theorem stopping_a_timer_stops_no_process (g : Machine Gui.ScriptTimer) :
  GuiSpec.wired (self g) ->
  (exists m,
     Gui.stop_close_timer g = Done tt m
     /\ Gui.active (Gui.timer (self m)) = false
     /\ Gui.schedule_timer (self m) = Gui.schedule_timer (self g)
     /\ GuiSpec.processes_untouched g m
     /\ Gui.click Gui.StopAll m = Done tt m)
  /\ (exists m,
        Gui.stop_repeat_timer g = Done tt m
        /\ Gui.active (Gui.timer (self m)) = false
        /\ Gui.schedule_timer (self m) = Gui.schedule_timer (self g)
        /\ GuiSpec.processes_untouched g m
        /\ Gui.click Gui.StopAll m = Done tt m)
  /\ (exists m,
        Gui.stop_schedule_timer g = Done tt m
        /\ Gui.active (Gui.schedule_timer (self m)) = false
        /\ Gui.timer (self m) = Gui.timer (self g)
        /\ GuiSpec.processes_untouched g m
        /\ Gui.click Gui.StopAll m = Done tt m).
Proof.
  intros W. split; [|split].
  - exact (GuiLaws.stop_close_timer_spec g W).
  - exact (GuiLaws.stop_repeat_timer_spec g W).
  - exact (GuiLaws.stop_schedule_timer_spec g W).
Qed.

Lemma stopping_a_timer_stops_no_process_witness :
  let g := locked_window in
  (exists m,
     Gui.stop_close_timer g = Done tt m
     /\ Gui.active (Gui.timer (self m)) = false
     /\ Gui.schedule_timer (self m) = Gui.schedule_timer (self g)
     /\ GuiSpec.processes_untouched g m
     /\ Gui.click Gui.StopAll m = Done tt m)
  /\ (exists m,
        Gui.stop_repeat_timer g = Done tt m
        /\ Gui.active (Gui.timer (self m)) = false
        /\ Gui.schedule_timer (self m) = Gui.schedule_timer (self g)
        /\ GuiSpec.processes_untouched g m
        /\ Gui.click Gui.StopAll m = Done tt m)
  /\ (exists m,
        Gui.stop_schedule_timer g = Done tt m
        /\ Gui.active (Gui.schedule_timer (self m)) = false
        /\ Gui.timer (self m) = Gui.timer (self g)
        /\ GuiSpec.processes_untouched g m
        /\ Gui.click Gui.StopAll m = Done tt m).
Proof.
  exact (stopping_a_timer_stops_no_process locked_window locked_window_wired).
Defined.

(** X6. The connections of [schedule_timer.timeout]. In a window whose
    wiring and captions are sound:
    - "Start Schedule Timer" with "Repeat daily" checked connects
      [run_scheduled_script] once more, after the connections there were,
      and starts [schedule_timer] for 24 hours from the click, whatever
      the time in the time field; it launches nothing;
    - no session removes a connection: after any inputs the connections
      are the ones there were, followed by the ones added since. *)
Theorem daily_connections_pile_up (m : Machine Gui.ScriptTimer) :
  GuiSpec.sound (self m) ->
  (Text.truthy (Gui.script_path (self m)) = true ->
   Gui.schedule_checkbox (self m) = true ->
   exists m',
     Gui.start_schedule_timer m = Done tt m'
     /\ Gui.schedule_timer (self m')
        = Gui.mkQTimer true 86400000 (clock (os m) + 86400000 * 1000)
            (Gui.timeout (Gui.schedule_timer (self m))
             ++ [Gui.Slot_run_scheduled_script])
     /\ Gui.running_processes (self m') = Gui.running_processes (self m)
     /\ os m' = os m)
  /\ (forall inputs,
        exists m',
          Gui.run inputs m = Done tt m' /\ GuiSpec.connections_grow m m').
Proof.
  intros S. split.
  - intros Hp Hd.
    exact (GuiLaws.start_schedule_timer_daily m (proj1 S) Hp Hd).
  - intros inputs.
    destruct (GuiLaws.run_steady inputs m S) as (m' & E & _ & G).
    exists m'. split; assumption.
Qed.

Lemma daily_window_sound : GuiSpec.sound (self daily_window).
Proof.
  split; [constructor; cbn; auto; constructor|].
  unfold GuiSpec.captioned. cbn. auto 10.
Qed.

Lemma daily_connections_pile_up_witness :
  let m := daily_window in
  (exists m',
     Gui.start_schedule_timer m = Done tt m'
     /\ Gui.schedule_timer (self m')
        = Gui.mkQTimer true 86400000 (clock (os m) + 86400000 * 1000)
            (Gui.timeout (Gui.schedule_timer (self m))
             ++ [Gui.Slot_run_scheduled_script])
     /\ Gui.running_processes (self m') = Gui.running_processes (self m)
     /\ os m' = os m)
  /\ (forall inputs,
        exists m',
          Gui.run inputs m = Done tt m' /\ GuiSpec.connections_grow m m').
Proof.
  destruct (daily_connections_pile_up daily_window daily_window_sound)
    as [Started Kept].
  split; [apply Started; reflexivity | exact Kept].
Defined.

(** X7. A timeout of [schedule_timer] in a wired window whose script can
    be started: [run_scheduled_script] runs once for each connection of
    the signal, so as many children are launched, at that one moment, as
    there are connections; each is appended to the tracked list; the timer
    is due again one interval later. *)
Theorem daily_timeout_launches_once_per_connection
  (m : Machine Gui.ScriptTimer) :
  GuiSpec.wired (self m) ->
  Text.assoc (Gui.script_path (self m)) (spawn_errors (os m)) = None ->
  let connections := Gui.timeout (Gui.schedule_timer (self m)) in
  exists m',
    Gui.fire Gui.ScheduleTimer m = Done tt m'
    /\ out m'
       = (out m
          ++ map (Launched (clock (os m)))
               (seq (next_pid (os m)) (List.length connections)))%list
    /\ Gui.running_processes (self m')
       = (Gui.running_processes (self m)
          ++ seq (next_pid (os m)) (List.length connections))%list
    /\ Gui.due (Gui.schedule_timer (self m'))
       = Gui.due (Gui.schedule_timer (self m))
         + Gui.interval (Gui.schedule_timer (self m)) * 1000.
Proof. intros W Hp. exact (GuiTimers.fire_schedule_timer_spec m W Hp). Qed.

Lemma daily_timeout_launches_once_per_connection_witness :
  let m :=
    final (Gui.run [Gui.Click Gui.Schedule; Gui.Click Gui.Schedule;
                    Gui.Click Gui.Schedule] daily_window) in
  Gui.timeout (Gui.schedule_timer (self m))
  = [Gui.Slot_run_scheduled_script; Gui.Slot_run_scheduled_script]
  /\ let connections := Gui.timeout (Gui.schedule_timer (self m)) in
     exists m',
       Gui.fire Gui.ScheduleTimer m = Done tt m'
       /\ out m'
          = (out m
             ++ map (Launched (clock (os m)))
                  (seq (next_pid (os m)) (List.length connections)))%list
       /\ Gui.running_processes (self m')
          = (Gui.running_processes (self m)
             ++ seq (next_pid (os m)) (List.length connections))%list
       /\ Gui.due (Gui.schedule_timer (self m'))
          = Gui.due (Gui.schedule_timer (self m))
            + Gui.interval (Gui.schedule_timer (self m)) * 1000.
Proof.
  split; [reflexivity|].
  apply daily_timeout_launches_once_per_connection.
  - destruct (GuiFacts.run_keeps
                [Gui.Click Gui.Schedule; Gui.Click Gui.Schedule;
                 Gui.Click Gui.Schedule] daily_window
                (proj1 daily_window_sound)) as (m' & E & W).
    rewrite E. exact W.
  - reflexivity.
Defined.

(** X8. "Start Schedule Timer" in a wired window with a script, for a
    time of day later than now: it returns and arms one more single-shot
    timer for [run_scheduled_script], after the ones pending; the timer
    fires within the day, at the moment the clock shows the time of the
    time field; nothing is launched before, and no warning is given. *)
Theorem later_today_is_scheduled_for_today (m : Machine Gui.ScriptTimer) :
  GuiSpec.wired (self m) ->
  Text.truthy (Gui.script_path (self m)) = true ->
  Gui.currentTime (os m) < Gui.time_edit (self m) < Gui.msecs_per_day ->
  exists m' t,
    Gui.start_schedule_timer m = Done tt m'
    /\ Gui.single_shots (self m')
       = (Gui.single_shots (self m)
          ++ [(t, Gui.Slot_run_scheduled_script)])%list
    /\ clock (os m) < t < clock (os m) + Gui.msecs_per_day * 1000
    /\ Gui.currentTime (with_clock t (os m)) = Gui.time_edit (self m)
    /\ Gui.running_processes (self m') = Gui.running_processes (self m)
    /\ os m' = os m
    /\ out m' = out m.
Proof.
  intros W Hp Ht. exact (GuiLaws.start_schedule_timer_future m W Hp Ht).
Qed.

Lemma later_today_is_scheduled_for_today_witness :
  let m := daily_window in
  exists m' t,
    Gui.start_schedule_timer m = Done tt m'
    /\ Gui.single_shots (self m')
       = (Gui.single_shots (self m)
          ++ [(t, Gui.Slot_run_scheduled_script)])%list
    /\ clock (os m) < t < clock (os m) + Gui.msecs_per_day * 1000
    /\ Gui.currentTime (with_clock t (os m)) = Gui.time_edit (self m)
    /\ Gui.running_processes (self m') = Gui.running_processes (self m)
    /\ os m' = os m
    /\ out m' = out m.
Proof.
  apply (later_today_is_scheduled_for_today daily_window).
  - exact (proj1 daily_window_sound).
  - reflexivity.
  - vm_compute. split; reflexivity.
Defined.

(* --------------------------------------------------------------------- *)
(** *** The console, stated *)
(* --------------------------------------------------------------------- *)

Lemma console_on_at_rest l i : ConsoleSpec.at_rest (console_on (nine_am_with l i)).
Proof. constructor; reflexivity. Qed.

Lemma console_on_ready l i : ConsoleSpec.ready (console_on (nine_am_with l i)).
Proof. split; reflexivity. Qed.

(** X9. "Close after x minutes" at a console at rest, with a script that
    starts, a child that would run beyond the deadline and a number of
    minutes [threading.Timer] can wait for: the script is launched at
    once, the timer fires [minutes] later (at once when [minutes] is
    negative) and terminates the child, and the function returns at that
    moment; the child is still in the tracked list, the timer is left in
    [self.timers], fired. *)
Theorem close_after_time_terminates_at_the_deadline
  (fuel : nat) (minutes : Z) (c : Machine Console.SimpleScriptTimer) :
  ConsoleSpec.at_rest c -> ConsoleSpec.ready c ->
  interrupts (os c) = [] ->
  minutes <= ConsoleSpec.max_minutes ->
  (forall d, lookup (next_pid (os c)) (lifetimes (os c)) = Some d ->
     Z.max 0 (minutes * 60 * Console.us_per_second) < d) ->
  let p := next_pid (os c) in
  let t := clock (os c) + Z.max 0 (minutes * 60 * Console.us_per_second) in
  Console.close_after_time (S (S fuel)) (Some minutes) c
  = Done tt
      (mkMachine
         (Console.mkSimpleScriptTimer (Console.script_path (self c))
            (Console.running_processes (self c) ++ [p])
            [Console.mkTimer t (Console.stop_script p) Console.Fired] [])
         (with_exited (p :: exited (os c))
            (with_clock t (with_child p (os c))))
         (out c
          ++ [Printed ("Running script for " ++ Text.of_int minutes
                       ++ " minutes...");
              Launched (clock (os c)) p;
              Printed ("Script started: "
                       ++ Text.basename (Console.script_path (self c)));
              Terminated t p;
              Printed "Script closed after specified time."])).
Proof.
  intros R0 R1 Hi _ Hl.
  exact (ConsoleLaws.close_after_time_deadline fuel minutes c R0 R1 Hi Hl).
Qed.

Lemma close_after_time_terminates_at_the_deadline_witness :
  let c := console_on (nine_am_with [(100%nat, 2 * hour)] []) in
  let minutes := 30 in
  let p := next_pid (os c) in
  let t := clock (os c) + Z.max 0 (minutes * 60 * Console.us_per_second) in
  Console.close_after_time 2 (Some minutes) c
  = Done tt
      (mkMachine
         (Console.mkSimpleScriptTimer (Console.script_path (self c))
            (Console.running_processes (self c) ++ [p])
            [Console.mkTimer t (Console.stop_script p) Console.Fired] [])
         (with_exited (p :: exited (os c))
            (with_clock t (with_child p (os c))))
         (out c
          ++ [Printed ("Running script for " ++ Text.of_int minutes
                       ++ " minutes...");
              Launched (clock (os c)) p;
              Printed ("Script started: "
                       ++ Text.basename (Console.script_path (self c)));
              Terminated t p;
              Printed "Script closed after specified time."])).
Proof.
  apply (close_after_time_terminates_at_the_deadline 0 30
           (console_on (nine_am_with [(100%nat, 2 * hour)] []))).
  - apply console_on_at_rest.
  - apply console_on_ready.
  - reflexivity.
  - discriminate.
  - intros d H. injection H as <-. reflexivity.
Defined.

(** X10. "Close after x minutes" when the child ends by itself before the
    deadline: the function returns at the moment the child ends, no
    termination is requested, and the timer is cancelled, so it will not
    fire later. *)
Theorem close_after_time_lets_a_short_script_end
  (fuel : nat) (minutes d : Z) (c : Machine Console.SimpleScriptTimer) :
  ConsoleSpec.at_rest c -> ConsoleSpec.ready c ->
  interrupts (os c) = [] ->
  lookup (next_pid (os c)) (lifetimes (os c)) = Some d ->
  0 <= d <= Z.max 0 (minutes * 60 * Console.us_per_second) ->
  let p := next_pid (os c) in
  let t := clock (os c) + Z.max 0 (minutes * 60 * Console.us_per_second) in
  Console.close_after_time (S fuel) (Some minutes) c
  = Done tt
      (mkMachine
         (Console.mkSimpleScriptTimer (Console.script_path (self c))
            (Console.running_processes (self c) ++ [p])
            [Console.mkTimer t (Console.stop_script p) Console.Cancelled] [])
         (with_clock (clock (os c) + d) (with_child p (os c)))
         (out c
          ++ [Printed ("Running script for " ++ Text.of_int minutes
                       ++ " minutes...");
              Launched (clock (os c)) p;
              Printed ("Script started: "
                       ++ Text.basename (Console.script_path (self c)))])).
Proof.
  intros R0 R1 Hi Hl Hd.
  exact (ConsoleLaws.close_after_time_child_exits_first
           fuel minutes d c R0 R1 Hi Hl Hd).
Qed.

Lemma close_after_time_lets_a_short_script_end_witness :
  let c := console_on (nine_am_with [(100%nat, 5 * minute)] []) in
  let minutes := 30 in
  let d := 5 * minute in
  let p := next_pid (os c) in
  let t := clock (os c) + Z.max 0 (minutes * 60 * Console.us_per_second) in
  Console.close_after_time 1 (Some minutes) c
  = Done tt
      (mkMachine
         (Console.mkSimpleScriptTimer (Console.script_path (self c))
            (Console.running_processes (self c) ++ [p])
            [Console.mkTimer t (Console.stop_script p) Console.Cancelled] [])
         (with_clock (clock (os c) + d) (with_child p (os c)))
         (out c
          ++ [Printed ("Running script for " ++ Text.of_int minutes
                       ++ " minutes...");
              Launched (clock (os c)) p;
              Printed ("Script started: "
                       ++ Text.basename (Console.script_path (self c)))])).
Proof.
  apply (close_after_time_lets_a_short_script_end 0 30 (5 * minute)
           (console_on (nine_am_with [(100%nat, 5 * minute)] []))).
  - apply console_on_at_rest.
  - apply console_on_ready.
  - reflexivity.
  - reflexivity.
  - split; discriminate.
Defined.







(** X13. "Start at" with a script selected and a time that is not valid
    (the line is no HH:MM, the hour is not within 0..23 or the minute not
    within 0..59): the one message on the format is printed and the
    function returns; nothing is armed, launched or changed, and the
    second prompt is not reached. *)
Theorem start_at_time_rejects_an_invalid_time
  (fuel : nat) (typed : option (Z * Z)) (answer : string)
  (c : Machine Console.SimpleScriptTimer) :
  Text.truthy (Console.script_path (self c)) = true ->
  match typed with
  | None => True
  | Some (hour, minute) => ~ ConsoleSpec.valid_time hour minute
  end ->
  Console.start_at_time fuel typed answer c
  = Done tt
      (logged c
         (Printed "Invalid time format! Use HH:MM format (e.g., 14:30)")).
Proof.
  intros Hs Ht. exact (ConsoleLaws.start_at_time_invalid fuel typed answer c Hs Ht).
Qed.

Lemma start_at_time_rejects_an_invalid_time_witness :
  Console.time_parts "24:00" = Some (24, 0)
  /\ Console.start_at_time 1 (Some (24, 0)) "n" (console_on nine_am)
     = Done tt
         (logged (console_on nine_am)
            (Printed "Invalid time format! Use HH:MM format (e.g., 14:30)")).
Proof.
  split; [reflexivity|].
  apply (start_at_time_rejects_an_invalid_time 1 (Some (24, 0)) "n"
           (console_on nine_am)).
  - reflexivity.
  - unfold ConsoleSpec.valid_time. lia.
Defined.

(** X14. The moment "Start at" computes from two readings of the clock
    taken on the same day, for a valid time: it lies after the second
    reading, by a day at most, and its time of day is the time asked
    for. *)
Theorem target_time_is_the_next_occurrence (now1 now2 hour minute : Z) :
  ConsoleSpec.valid_time hour minute ->
  now1 <= now2 ->
  now2 / Console.us_per_day = now1 / Console.us_per_day ->
  now2 < Console.target_time now1 now2 hour minute
  <= now2 + Console.us_per_day
  /\ ConsoleSpec.time_of_day (Console.target_time now1 now2 hour minute)
     = (hour * 3600 + minute * 60) * Console.us_per_second.
Proof.
  intros Hv Hn Hd. exact (ConsoleLaws.target_time_spec now1 now2 hour minute Hv Hn Hd).
Qed.

Lemma target_time_is_the_next_occurrence_witness :
  let now1 := 9 * hour in
  let now2 := 9 * hour + 1 in
  let hour := 8 in
  let minute := 30 in
  now2 < Console.target_time now1 now2 hour minute
  <= now2 + Console.us_per_day
  /\ ConsoleSpec.time_of_day (Console.target_time now1 now2 hour minute)
     = (hour * 3600 + minute * 60) * Console.us_per_second.
Proof.
  apply (target_time_is_the_next_occurrence (9 * hour) (9 * hour + 1) 8 30).
  - unfold ConsoleSpec.valid_time. lia.
  - discriminate.
  - reflexivity.
Defined.

(** X15. The callback of "Start at", on a host with an ideal clock and
    for a valid time: it attempts the launch as [run_script] does; when
    the schedule repeats daily it then arms one more timer, for the time
    asked for on the day after the one it runs on, with itself as the
    callback; when the schedule does not repeat it arms nothing. *)
Theorem scheduled_callback_rearms_for_the_next_day
  (hour minute : Z) (repeat_daily : bool)
  (c : Machine Console.SimpleScriptTimer) :
  ConsoleSpec.valid_time hour minute ->
  read_cost (os c) = 0 ->
  Console.call (Console.run_scheduled_script hour minute repeat_daily) c
  = Done tt
      (if repeat_daily
       then ConsoleSpec.with_timer
              (Console.replace_hm (clock (os c)) hour minute
               + Console.us_per_day)
              (Console.run_scheduled_script hour minute true)
              (final (Console.run_script c))
       else final (Console.run_script c)).
Proof.
  intros Hv Hr.
  exact (ConsoleLaws.call_run_scheduled_script hour minute repeat_daily c Hv Hr).
Qed.

Lemma scheduled_callback_rearms_for_the_next_day_witness :
  let c := console_on nine_am in
  let hour := 9 in
  let minute := 0 in
  Console.replace_hm (clock (os c)) hour minute + Console.us_per_day
  = clock (os c) + 24 * Scenario.hour
  /\ Console.call (Console.run_scheduled_script hour minute true) c
     = Done tt
         (ConsoleSpec.with_timer
            (Console.replace_hm (clock (os c)) hour minute
             + Console.us_per_day)
            (Console.run_scheduled_script hour minute true)
            (final (Console.run_script c))).
Proof.
  split; [reflexivity|].
  apply (scheduled_callback_rearms_for_the_next_day 9 0 true
           (console_on nine_am)).
  - unfold ConsoleSpec.valid_time. lia.
  - reflexivity.
Defined.

(** X16. "Start at" at a console at rest, on a host with an ideal clock,
    for a valid time, with a Ctrl-C after the moment computed (and, for a
    daily schedule, not after the same time a day later): the script is
    launched once, exactly at the next occurrence of the time asked for;
    a daily schedule has armed the timer of the following day by then;
    the Ctrl-C prints "Exiting...", cancels that timer and the function
    returns. *)
Theorem start_at_time_launches_at_the_target
  (fuel : nat) (hour minute : Z) (answer : string) (t : Z) (rest : list Z)
  (c : Machine Console.SimpleScriptTimer) :
  ConsoleSpec.at_rest c -> ConsoleSpec.ready c -> read_cost (os c) = 0 ->
  ConsoleSpec.valid_time hour minute ->
  interrupts (os c) = t :: rest ->
  let p := next_pid (os c) in
  let target :=
    Console.target_time (clock (os c)) (clock (os c)) hour minute in
  let daily := String.eqb (Text.lower (Text.strip answer)) "y" in
  target < t <= target + Console.us_per_day ->
  exists m,
    Console.start_at_time (S (S fuel)) (Some (hour, minute)) answer c
    = Done tt m
    /\ out m
       = (out c
          ++ [Printed ("Scheduled to run script at "
                       ++ Console.strftime target)]
          ++ (if daily then [Printed "Will repeat daily"] else [])
          ++ [Printed "Timer set. Press Ctrl+C to exit.";
              Launched target p;
              Printed ("Script started: "
                       ++ Text.basename (Console.script_path (self c)));
              Printed (Console.newline ++ "Exiting...")])%list
    /\ Console.timers (self m)
       = (Console.mkTimer target
            (Console.run_scheduled_script hour minute daily) Console.Fired
          :: if daily
             then [Console.mkTimer (target + Console.us_per_day)
                     (Console.run_scheduled_script hour minute true)
                     Console.Cancelled]
             else [])
    /\ Console.running_processes (self m)
       = (Console.running_processes (self c) ++ [p])%list
    /\ clock (os m) = t
    /\ interrupts (os m) = rest.
Proof.
  intros R0 R1 Hr Hv Hi.
  exact (ConsoleLaws.start_at_time_fires
           fuel hour minute answer t rest c R0 R1 Hr Hv Hi).
Qed.

Lemma start_at_time_launches_at_the_target_witness :
  let c := console_on (nine_am_with [] [34 * Scenario.hour]) in
  let hour := 8 in
  let minute := 0 in
  let answer := " Y " in
  let t := 34 * Scenario.hour in
  let rest := @nil Z in
  let p := next_pid (os c) in
  let target :=
    Console.target_time (clock (os c)) (clock (os c)) hour minute in
  let daily := String.eqb (Text.lower (Text.strip answer)) "y" in
  target = 32 * Scenario.hour
  /\ exists m,
       Console.start_at_time 2 (Some (hour, minute)) answer c = Done tt m
       /\ out m
          = (out c
             ++ [Printed ("Scheduled to run script at "
                          ++ Console.strftime target)]
             ++ (if daily then [Printed "Will repeat daily"] else [])
             ++ [Printed "Timer set. Press Ctrl+C to exit.";
                 Launched target p;
                 Printed ("Script started: "
                          ++ Text.basename (Console.script_path (self c)));
                 Printed (Console.newline ++ "Exiting...")])%list
       /\ Console.timers (self m)
          = (Console.mkTimer target
               (Console.run_scheduled_script hour minute daily) Console.Fired
             :: if daily
                then [Console.mkTimer (target + Console.us_per_day)
                        (Console.run_scheduled_script hour minute true)
                        Console.Cancelled]
                else [])
       /\ Console.running_processes (self m)
          = (Console.running_processes (self c) ++ [p])%list
       /\ clock (os m) = t
       /\ interrupts (os m) = rest.
Proof.
  split; [reflexivity|].
  apply (start_at_time_launches_at_the_target 0 8 0 " Y "
           (34 * Scenario.hour) []
           (console_on (nine_am_with [] [34 * Scenario.hour]))).
  - apply console_on_at_rest.
  - apply console_on_ready.
  - reflexivity.
  - unfold ConsoleSpec.valid_time. lia.
  - reflexivity.
  - split; [reflexivity | discriminate].
Defined.

(** X17. A Ctrl-C before the moment computed: "Exiting..." is printed,
    the timer is cancelled and the function returns; the script has not
    been launched and, its timer being cancelled, will not be. *)
Theorem start_at_time_interrupted_before_the_target
  (fuel : nat) (hour minute : Z) (answer : string) (t : Z) (rest : list Z)
  (c : Machine Console.SimpleScriptTimer) :
  ConsoleSpec.at_rest c -> ConsoleSpec.ready c -> read_cost (os c) = 0 ->
  ConsoleSpec.valid_time hour minute ->
  interrupts (os c) = t :: rest ->
  let target :=
    Console.target_time (clock (os c)) (clock (os c)) hour minute in
  let daily := String.eqb (Text.lower (Text.strip answer)) "y" in
  clock (os c) <= t <= target ->
  exists m,
    Console.start_at_time (S fuel) (Some (hour, minute)) answer c = Done tt m
    /\ out m
       = (out c
          ++ [Printed ("Scheduled to run script at "
                       ++ Console.strftime target)]
          ++ (if daily then [Printed "Will repeat daily"] else [])
          ++ [Printed "Timer set. Press Ctrl+C to exit.";
              Printed (Console.newline ++ "Exiting...")])%list
    /\ Console.timers (self m)
       = [Console.mkTimer target
            (Console.run_scheduled_script hour minute daily)
            Console.Cancelled]
    /\ Console.running_processes (self m)
       = Console.running_processes (self c)
    /\ clock (os m) = t
    /\ interrupts (os m) = rest.
Proof.
  intros R0 R1 Hr Hv Hi.
  exact (ConsoleLaws.start_at_time_interrupted_early
           fuel hour minute answer t rest c R0 R1 Hr Hv Hi).
Qed.

Lemma start_at_time_interrupted_before_the_target_witness :
  let c := console_on (nine_am_with [] [10 * Scenario.hour]) in
  let hour := 14 in
  let minute := 30 in
  let answer := "n" in
  let t := 10 * Scenario.hour in
  let rest := @nil Z in
  let target :=
    Console.target_time (clock (os c)) (clock (os c)) hour minute in
  let daily := String.eqb (Text.lower (Text.strip answer)) "y" in
  exists m,
    Console.start_at_time 1 (Some (hour, minute)) answer c = Done tt m
    /\ out m
       = (out c
          ++ [Printed ("Scheduled to run script at "
                       ++ Console.strftime target)]
          ++ (if daily then [Printed "Will repeat daily"] else [])
          ++ [Printed "Timer set. Press Ctrl+C to exit.";
              Printed (Console.newline ++ "Exiting...")])%list
    /\ Console.timers (self m)
       = [Console.mkTimer target
            (Console.run_scheduled_script hour minute daily)
            Console.Cancelled]
    /\ Console.running_processes (self m)
       = Console.running_processes (self c)
    /\ clock (os m) = t
    /\ interrupts (os m) = rest.
Proof.
  apply (start_at_time_interrupted_before_the_target 0 14 30 "n"
           (10 * Scenario.hour) []
           (console_on (nine_am_with [] [10 * Scenario.hour]))).
  - apply console_on_at_rest.
  - apply console_on_ready.
  - reflexivity.
  - unfold ConsoleSpec.valid_time. lia.
  - reflexivity.
  - split; discriminate.
Defined.

(** X18. "Run every x minutes" at a console at rest, for an interval that
    is not negative and a first run that takes [d]: the script is
    launched at once, and launched again [minutes] after the first run
    has ended, not [minutes] after it was started: the runs never
    overlap. (The function goes on for ever; this is its trace when the
    thread has made its first three moves.) *)
Theorem repeat_every_time_waits_for_the_run_to_end
  (minutes d : Z) (c : Machine Console.SimpleScriptTimer) :
  ConsoleSpec.at_rest c -> ConsoleSpec.ready c ->
  interrupts (os c) = [] ->
  lookup (next_pid (os c)) (lifetimes (os c)) = Some d ->
  0 <= d ->
  0 <= minutes <= ConsoleSpec.max_minutes ->
  let p := next_pid (os c) in
  let again := clock (os c) + d + minutes * 60 * Console.us_per_second in
  exists m,
    Console.repeat_every_time 3 (Some minutes) c = Hangs m
    /\ out m
       = (out c
          ++ [Printed ("Running script every " ++ Text.of_int minutes
                       ++ " minutes (Ctrl+C to stop)...");
              Launched (clock (os c)) p;
              Printed ("Script started: "
                       ++ Text.basename (Console.script_path (self c)));
              Launched again (S p);
              Printed ("Script started: "
                       ++ Text.basename (Console.script_path (self c)))])%list
    /\ Console.threads (self m)
       = [Console.mkThread minutes (Console.WaitingFor (S p))]
    /\ clock (os m) = again.
Proof.
  intros R0 R1 Hi Hl Hd Hm.
  exact (ConsoleLaws.repeat_every_time_second_launch
           minutes d c R0 R1 Hi Hl Hd Hm).
Qed.

Lemma repeat_every_time_waits_for_the_run_to_end_witness :
  let c := console_on (nine_am_with [(100%nat, 5 * minute)] []) in
  let minutes := 10 in
  let d := 5 * minute in
  let p := next_pid (os c) in
  let again := clock (os c) + d + minutes * 60 * Console.us_per_second in
  again = 9 * hour + 15 * minute
  /\ exists m,
       Console.repeat_every_time 3 (Some minutes) c = Hangs m
       /\ out m
          = (out c
             ++ [Printed ("Running script every " ++ Text.of_int minutes
                          ++ " minutes (Ctrl+C to stop)...");
                 Launched (clock (os c)) p;
                 Printed ("Script started: "
                          ++ Text.basename (Console.script_path (self c)));
                 Launched again (S p);
                 Printed ("Script started: "
                          ++ Text.basename (Console.script_path (self c)))])%list
       /\ Console.threads (self m)
          = [Console.mkThread minutes (Console.WaitingFor (S p))]
       /\ clock (os m) = again.
Proof.
  split; [reflexivity|].
  apply (repeat_every_time_waits_for_the_run_to_end 10 (5 * minute)
           (console_on (nine_am_with [(100%nat, 5 * minute)] []))).
  - apply console_on_at_rest.
  - apply console_on_ready.
  - reflexivity.
  - reflexivity.
  - discriminate.
  - split; discriminate.
Defined.



(** X20. "Run every x minutes" with a negative interval (of a length
    [time.sleep] can read): the script is launched once; when that run has
    ended, [time.sleep] refuses the negative length, the error is printed,
    the thread leaves its loop and the function returns. *)
Theorem repeat_every_time_negative_interval_runs_once
  (fuel : nat) (minutes d : Z) (c : Machine Console.SimpleScriptTimer) :
  ConsoleSpec.at_rest c -> ConsoleSpec.ready c ->
  interrupts (os c) = [] ->
  lookup (next_pid (os c)) (lifetimes (os c)) = Some d ->
  0 <= d ->
  - ConsoleSpec.max_minutes <= minutes < 0 ->
  let p := next_pid (os c) in
  exists m,
    Console.repeat_every_time (S (S (S fuel))) (Some minutes) c = Done tt m
    /\ out m
       = (out c
          ++ [Printed ("Running script every " ++ Text.of_int minutes
                       ++ " minutes (Ctrl+C to stop)...");
              Launched (clock (os c)) p;
              Printed ("Script started: "
                       ++ Text.basename (Console.script_path (self c)));
              Printed "Error: sleep length must be non-negative"])%list
    /\ Console.threads (self m) = [Console.mkThread minutes Console.Finished]
    /\ clock (os m) = clock (os c) + d.
Proof.
  intros R0 R1 Hi Hl Hd [_ Hm].
  exact (ConsoleLaws.repeat_every_time_negative_interval
           fuel minutes d c R0 R1 Hi Hl Hd Hm).
Qed.

Lemma repeat_every_time_negative_interval_runs_once_witness :
  let c := console_on (nine_am_with [(100%nat, 5 * minute)] []) in
  let minutes := -1 in
  let d := 5 * minute in
  let p := next_pid (os c) in
  exists m,
    Console.repeat_every_time 3 (Some minutes) c = Done tt m
    /\ out m
       = (out c
          ++ [Printed ("Running script every " ++ Text.of_int minutes
                       ++ " minutes (Ctrl+C to stop)...");
              Launched (clock (os c)) p;
              Printed ("Script started: "
                       ++ Text.basename (Console.script_path (self c)));
              Printed "Error: sleep length must be non-negative"])%list
    /\ Console.threads (self m) = [Console.mkThread minutes Console.Finished]
    /\ clock (os m) = clock (os c) + d.
Proof.
  apply (repeat_every_time_negative_interval_runs_once 0 (-1) (5 * minute)
           (console_on (nine_am_with [(100%nat, 5 * minute)] []))).
  - apply console_on_at_rest.
  - apply console_on_ready.
  - reflexivity.
  - reflexivity.
  - discriminate.
  - split; [discriminate | reflexivity].
Defined.

(** X21. As long as no line typed at the menu is the option 4, nothing
    happens but printing: whatever else is typed (options 1 to 3, which
    answer "No script selected!" and read no further line, or anything
    that is no option), the program object and the host are as at the
    start, and nothing was launched or signalled; the program ends when a
    line is the option 5 and waits for more input otherwise. *)
Theorem nothing_runs_before_a_script_is_selected
  (fuel : nat) (stdin : list string) (w : World) :
  Forall (fun line => ConsoleSpec.chooses "4" line = false) stdin ->
  exists tr,
    Console.main fuel stdin w
    = (if existsb (ConsoleSpec.chooses "5") stdin then Done tt else Hangs)
        (mkMachine Console.init w tr)
    /\ launches tr = [] /\ terminations tr = [].
Proof.
  intros H4. unfold Console.main, Console.run, Console.print, Console.boot.
  run_py.
  destruct (ConsoleLaws.menu_idle Console.StaysOpen fuel w stdin
              (S (List.length stdin))
              [Printed "Simple Script Timer";
               Printed "This version doesn't require PyQt5"]
              (Nat.lt_succ_diag_r _) H4)
    as (tr' & E & Hp); [repeat constructor|].
  exists tr'. split; [exact E|]. apply ConsoleLaws.prints_only, Hp.
Qed.

Lemma nothing_runs_before_a_script_is_selected_witness :
  let stdin := ["1"; " 2 "; "3"; "go"; "5"; "1"] in
  exists tr,
    Console.main 3 stdin nine_am
    = (if existsb (ConsoleSpec.chooses "5") stdin then Done tt else Hangs)
        (mkMachine Console.init nine_am tr)
    /\ launches tr = [] /\ terminations tr = [].
Proof.
  apply (nothing_runs_before_a_script_is_selected 3
           ["1"; " 2 "; "3"; "go"; "5"; "1"] nine_am).
  repeat constructor.
Defined.

(** X22. A selection that fails ends the program: when the option 4 is
    followed by the word cancel or by a path that does not exist, the main
    loop is left at once, without "Goodbye!" and without reading the lines
    that follow; the object and the host are as at the start. *)
Theorem failed_selection_ends_the_program
  (fuel : nat) (line path : string) (rest : list string) (w : World) :
  ConsoleSpec.chooses "4" line = true ->
  String.eqb (Text.lower (Text.strip path)) "cancel" = true
  \/ Text.mem (Text.strip path) (files w) = false ->
  Console.main fuel (line :: path :: rest) w
  = Done tt
      (mkMachine Console.init w
         (ConsoleSpec.greeting ++ ConsoleSpec.menu_shown
          ++ asked
             :: (if String.eqb (Text.lower (Text.strip path)) "cancel"
                 then []
                 else [Printed ("Error: File '" ++ Text.strip path
                                ++ "' not found!")]))).
Proof.
  intros H4 Hp.
  exact (ConsoleLaws.main_failed_selection fuel line path rest w H4 Hp).
Qed.

Lemma failed_selection_ends_the_program_witness :
  let path := "/bin/slep" in
  Console.main 3 [" 4"; path; "1"; "5"] nine_am
  = Done tt
      (mkMachine Console.init nine_am
         (ConsoleSpec.greeting ++ ConsoleSpec.menu_shown
          ++ asked
             :: (if String.eqb (Text.lower (Text.strip path)) "cancel"
                 then []
                 else [Printed ("Error: File '" ++ Text.strip path
                                ++ "' not found!")]))).
Proof.
  apply (failed_selection_ends_the_program 3 " 4" "/bin/slep" ["1"; "5"]
           nine_am).
  - reflexivity.
  - right. reflexivity.
Defined.

(** X23. The program driven from the menu: option 4 and a path that
    exists and can be started, option 1 and a line that [int] reads as
    [minutes] (no more than [threading.Timer] can wait for), option 5.
    On a quiet host, with a child that would run beyond the deadline: the
    script is selected, launched once, terminated [minutes] later, and the
    program ends with "Goodbye!". *)
Theorem the_menu_closes_the_script_after_the_minutes
  (fuel : nat) (path line : string) (minutes : Z) (w : World) :
  let p := Text.strip path in
  String.eqb (Text.lower p) "cancel" = false ->
  Text.mem p (files w) = true ->
  ConsoleSpec.at_rest (Console.boot w) ->
  ConsoleSpec.ready
    (mkMachine (Console.set_script_path p Console.init) w []) ->
  interrupts w = [] ->
  (forall d, lookup (next_pid w) (lifetimes w) = Some d ->
     Z.max 0 (minutes * 60 * Console.us_per_second) < d) ->
  Text.int line = Some minutes ->
  minutes <= ConsoleSpec.max_minutes ->
  exists m,
    Console.main (S (S fuel)) ["4"; path; "1"; line; "5"] w = Done tt m
    /\ Console.script_path (self m) = p
    /\ launches (out m) = [Launched (clock w) (next_pid w)]
    /\ terminations (out m)
       = [Terminated
            (clock w + Z.max 0 (minutes * 60 * Console.us_per_second))
            (next_pid w)]
    /\ clock (os m)
       = clock w + Z.max 0 (minutes * 60 * Console.us_per_second)
    /\ last (out m) (Printed "") = Printed "Goodbye!".
Proof.
  intros p Hc Hf R0 R1 Hi Hl Hn _.
  exact (ConsoleLaws.main_select_then_close
           fuel path line minutes w Hc Hf R0 R1 Hi Hl Hn).
Qed.

Lemma the_menu_closes_the_script_after_the_minutes_witness :
  let w := nine_am in
  let path := " /bin/sleep " in
  let line := " +1_0 " in
  let minutes := 10 in
  let p := Text.strip path in
  exists m,
    Console.main 2 ["4"; path; "1"; line; "5"] w = Done tt m
    /\ Console.script_path (self m) = p
    /\ launches (out m) = [Launched (clock w) (next_pid w)]
    /\ terminations (out m)
       = [Terminated
            (clock w + Z.max 0 (minutes * 60 * Console.us_per_second))
            (next_pid w)]
    /\ clock (os m)
       = clock w + Z.max 0 (minutes * 60 * Console.us_per_second)
    /\ last (out m) (Printed "") = Printed "Goodbye!".
Proof.
  apply (the_menu_closes_the_script_after_the_minutes 0 " /bin/sleep "
           " +1_0 " 10 nine_am).
  - reflexivity.
  - reflexivity.
  - constructor; reflexivity.
  - split; reflexivity.
  - reflexivity.
  - intros d H. discriminate H.
  - reflexivity.
  - discriminate.
Defined.
